(** * SurakshaMap: offline/online degradation pipeline

    A shallow embedding of the behavioural core of the civic-issue
    reporting application: the rule-based classifier of the AI assistant,
    the report normalizer and the offline snapshot of the map view, the
    category chart and the analytics dashboard, the report form with its
    Kerala geocoding filter, and the retry behaviour of the views that
    load an external rendering library.

    Conventions.  Text is a [string] of 8-bit characters and stands for
    ASCII input.  A JavaScript [number] is [NaN], an infinity or a finite
    rational; counts and timestamps are integers ([Z]).  Whatever the
    browser decides (the clock, [Math.random], the outcome of a dynamic
    import, of a fetch or of a storage write) is an explicit argument. *)

From Stdlib Require Import ZArith QArith Strings.String Strings.Ascii List Bool Lia.
From Stdlib Require Import Numbers.DecimalString QArith.Qround.
From Stdlib Require Import Lqa DecimalZ.
From stdpp Require Import gmap strings list.
Import ListNotations.

Open Scope string_scope.

(** ** JavaScript strings and numbers *)

Module JS.

Definition isUpper (c : ascii) : bool :=
  let n := nat_of_ascii c in (65 <=? n)%nat && (n <=? 90)%nat.

Definition isLower (c : ascii) : bool :=
  let n := nat_of_ascii c in (97 <=? n)%nat && (n <=? 122)%nat.

Definition isDigit (c : ascii) : bool :=
  let n := nat_of_ascii c in (48 <=? n)%nat && (n <=? 57)%nat.

(** The class [\w] of a regular expression without the [u] or [i] flag. *)
Definition isWordChar (c : ascii) : bool :=
  isUpper c || isLower c || isDigit c || (nat_of_ascii c =? 95)%nat.

(** White space as [String.prototype.trim] sees it (tab, line feed,
    vertical tab, form feed, carriage return, space). *)
Definition isSpace (c : ascii) : bool :=
  let n := nat_of_ascii c in ((9 <=? n)%nat && (n <=? 13)%nat) || (n =? 32)%nat.

Definition toLowerChar (c : ascii) : ascii :=
  if isUpper c then ascii_of_nat (nat_of_ascii c + 32) else c.

Fixpoint toLowerCase (s : string) : string :=
  match s with
  | EmptyString => EmptyString
  | String c s' => String (toLowerChar c) (toLowerCase s')
  end.

Fixpoint trimStart (s : string) : string :=
  match s with
  | EmptyString => EmptyString
  | String c s' => if isSpace c then trimStart s' else s
  end.

Fixpoint trimEnd (s : string) : string :=
  match s with
  | EmptyString => EmptyString
  | String c s' =>
      match trimEnd s' with
      | EmptyString => if isSpace c then EmptyString else String c EmptyString
      | t => String c t
      end
  end.

Definition trim (s : string) : string := trimEnd (trimStart s).

(** [s.includes(needle)] *)
Fixpoint includes (needle s : string) : bool :=
  String.prefix needle s ||
  match s with
  | EmptyString => false
  | String _ s' => includes needle s'
  end.

Definition head (s : string) : option ascii :=
  match s with
  | EmptyString => None
  | String c _ => Some c
  end.

Fixpoint drop (n : nat) (s : string) : string :=
  match n, s with
  | O, _ => s
  | S n', String _ s' => drop n' s'
  | S _, EmptyString => EmptyString
  end.

Fixpoint lastChar (prev : option ascii) (w : string) : option ascii :=
  match w with
  | EmptyString => prev
  | String c w' => lastChar (Some c) w'
  end.

Definition isWordSide (c : option ascii) : bool :=
  match c with
  | Some a => isWordChar a
  | None => false
  end.

(** The assertion [\b] between the character [before] and the character
    [after] ([None] at either end of the text). *)
Definition wordBoundary (before after : option ascii) : bool :=
  xorb (isWordSide before) (isWordSide after).

(** Does [\b(w1|...|wn)\b] match with its first character at the head
    of [s], [prev] being the character just before? *)
Definition matchHere (ws : list string) (prev : option ascii) (s : string) : bool :=
  wordBoundary prev (head s) &&
  existsb (fun w =>
             String.prefix w s &&
             wordBoundary (lastChar prev w) (head (drop (String.length w) s)))
          ws.

Fixpoint matchFrom (ws : list string) (prev : option ascii) (s : string) : bool :=
  matchHere ws prev s ||
  match s with
  | EmptyString => false
  | String c s' => matchFrom ws (Some c) s'
  end.

(** [s.match(/\b(w1|...|wn)\b/)] taken as a truth value: the pattern
    matches somewhere in [s]. *)
Definition matchWords (ws : list string) (s : string) : bool :=
  matchFrom ws None s.

(** A JavaScript number: not-a-number, an infinity, or a finite value. *)
Inductive number : Type :=
| NaN
| PosInf
| NegInf
| Fin (q : Q).

(** [a <= b] on numbers; every comparison with [NaN] is false. *)
Definition le (a b : number) : bool :=
  match a, b with
  | NaN, _ | _, NaN => false
  | NegInf, _ => true
  | _, PosInf => true
  | Fin x, Fin y => Qle_bool x y
  | PosInf, _ => false
  | _, NegInf => false
  end.

Definition ge (a b : number) : bool := le b a.

Definition isFinite (a : number) : bool :=
  match a with
  | Fin _ => true
  | _ => false
  end.

(** Decimal rendering of an integer, as in a template literal. *)
Definition showZ (z : Z) : string := NilEmpty.string_of_int (Z.to_int z).

(** Arithmetic on numbers.  Finite values are exact rationals; the sign
    of a zero is not tracked. *)
Definition neg (a : number) : number :=
  match a with
  | NaN => NaN
  | PosInf => NegInf
  | NegInf => PosInf
  | Fin q => Fin (- q)
  end.

Definition add (a b : number) : number :=
  match a, b with
  | NaN, _ | _, NaN => NaN
  | PosInf, NegInf | NegInf, PosInf => NaN
  | PosInf, _ | _, PosInf => PosInf
  | NegInf, _ | _, NegInf => NegInf
  | Fin x, Fin y => Fin (x + y)
  end.

Definition sub (a b : number) : number := add a (neg b).

Definition isZero (q : Q) : bool := (Qnum q =? 0)%Z.
Definition isNegative (q : Q) : bool := (Qnum q <? 0)%Z.

Definition signed (negative : bool) : number := if negative then NegInf else PosInf.

Definition mul (a b : number) : number :=
  match a, b with
  | NaN, _ | _, NaN => NaN
  | Fin x, Fin y => Fin (x * y)
  | PosInf, PosInf | NegInf, NegInf => PosInf
  | PosInf, NegInf | NegInf, PosInf => NegInf
  | PosInf, Fin q | Fin q, PosInf => if isZero q then NaN else signed (isNegative q)
  | NegInf, Fin q | Fin q, NegInf => if isZero q then NaN else signed (negb (isNegative q))
  end.

Definition div (a b : number) : number :=
  match a, b with
  | NaN, _ | _, NaN => NaN
  | Fin x, Fin y =>
      if isZero y then (if isZero x then NaN else signed (isNegative x))
      else Fin (x / y)
  | Fin _, _ => Fin 0
  | PosInf, Fin q => signed (isNegative q)
  | NegInf, Fin q => signed (negb (isNegative q))
  | _, _ => NaN
  end.

(** [Math.max(a, b)] and [Math.min(a, b)] *)
Definition max (a b : number) : number :=
  match a, b with
  | NaN, _ | _, NaN => NaN
  | _, _ => if le a b then b else a
  end.

Definition min (a b : number) : number :=
  match a, b with
  | NaN, _ | _, NaN => NaN
  | _, _ => if le a b then a else b
  end.

(** [Math.round(x)] of a finite value: the nearest integer, halves
    going up. *)
Definition round (x : Q) : Z := Qfloor (x + (1 # 2)).

(** [s.length > n ? s.substring(0, n) + "..." : s] *)
Definition ellipsis (n : nat) (s : string) : string :=
  if (n <? String.length s)%nat then String.substring 0 n s ++ "..." else s.

(** A text without an underscore. *)
Fixpoint plain (s : string) : Prop :=
  match s with
  | EmptyString => True
  | String c s' => c <> "_"%char /\ plain s'
  end.

(** Two characters that are the same letter in either case, or the
    same character. *)
Definition sameLetter (a b : ascii) : bool :=
  Ascii.eqb a b
  || (isUpper a && (nat_of_ascii b =? nat_of_ascii a + 32)%nat)
  || (isUpper b && (nat_of_ascii a =? nat_of_ascii b + 32)%nat).

(** Two texts that differ at most in the case of their letters. *)
Fixpoint sameIgnoringCase (s t : string) : bool :=
  match s, t with
  | EmptyString, EmptyString => true
  | String a s', String b t' => sameLetter a b && sameIgnoringCase s' t'
  | _, _ => false
  end.

(** The property names every plain object inherits from
    [Object.prototype]: reading one of them on an object that has no
    such property of its own gives a function, or for [__proto__] the
    prototype itself, never [undefined]. *)
Definition objectPrototypeNames : list string :=
  ["constructor"; "__defineGetter__"; "__defineSetter__"; "hasOwnProperty";
   "__lookupGetter__"; "__lookupSetter__"; "isPrototypeOf"; "propertyIsEnumerable";
   "toString"; "valueOf"; "__proto__"; "toLocaleString"].

Definition inheritedName (key : string) : bool :=
  existsb (String.eqb key) objectPrototypeNames.

End JS.

(** ** The AI assistant: rule-based classifier *)

Module Classifier.

Record ClassificationResult : Type := {
  category : string;
  confidence : Q;
  reasoning : string;
  isOfflineFallback : option bool
}.

(** *** The offline table *)

Definition safetyWords : list string :=
  ["danger"; "unsafe"; "hazard"; "risk"; "emergency"; "urgent"; "critical";
   "accident"; "injury"; "fire"; "violence"; "threat"].
Definition infrastructureWords : list string :=
  ["pothole"; "road"; "bridge"; "water"; "pipe"; "sewer"; "light";
   "electricity"; "power"; "construction"; "building"; "repair"; "maintenance"].
Definition environmentalWords : list string :=
  ["pollution"; "noise"; "air"; "water"; "waste"; "garbage"; "trash";
   "environment"; "green"; "tree"; "park"; "clean"].
Definition trafficWords : list string :=
  ["traffic"; "car"; "vehicle"; "parking"; "signal"; "jam"; "congestion";
   "speed"; "driving"; "transport"].
Definition urgencyWords : list string :=
  ["urgent"; "asap"; "immediately"; "now"; "quick"; "fast"; "emergency"].
Definition questionWords : list string :=
  ["what"; "when"; "where"; "why"; "how"; "question"; "help"; "support"].
Definition positiveWords : list string :=
  ["thank"; "thanks"; "great"; "excellent"; "good"; "awesome"; "wonderful";
   "appreciate"; "love"; "perfect"].
Definition issueWords : list string :=
  ["problem"; "issue"; "error"; "bug"; "broken"; "not working"; "failed";
   "wrong"; "trouble"].
Definition suggestionWords : list string :=
  ["suggest"; "improve"; "feature"; "enhancement"; "better"; "could";
   "should"; "would"; "idea"].

Definition offlineResult (cat : string) (conf : Q) (why : string) : ClassificationResult :=
  {| category := cat; confidence := conf; reasoning := why;
     isOfflineFallback := Some true |}.

Definition offlineSafety := offlineResult "Safety Issue" 0.92
  "Detected safety-related keywords and risk indicators in the text.".
Definition offlineInfrastructure := offlineResult "Infrastructure" 0.88
  "Identified infrastructure and maintenance-related terminology.".
Definition offlineEnvironmental := offlineResult "Environmental" 0.85
  "Found environmental and sustainability-related terms.".
Definition offlineTraffic := offlineResult "Traffic" 0.87
  "Detected transportation and traffic-related content.".
Definition offlineUrgency := offlineResult "High Priority" 0.83
  "Identified urgency indicators suggesting high priority classification.".
Definition offlineQuestion := offlineResult "Support Request" 0.80
  "Text appears to be a question or support request based on structure and keywords.".
Definition offlinePositive := offlineResult "Positive Feedback" 0.86
  "Detected positive sentiment and appreciation expressions.".
Definition offlineIssue := offlineResult "Issue Report" 0.84
  "Identified problem reporting language and error indicators.".
Definition offlineSuggestion := offlineResult "Feature Request" 0.78
  "Found suggestion and improvement-oriented language patterns.".
Definition offlineDefault := offlineResult "Other" 0.60
  "Unable to determine specific category. Content may require manual review.".

(** [offlineClassification], branch for branch. *)
Definition offlineClassification (text : string) : ClassificationResult :=
  let normalizedText := JS.trim (JS.toLowerCase text) in
  if JS.matchWords safetyWords normalizedText then offlineSafety
  else if JS.matchWords infrastructureWords normalizedText then offlineInfrastructure
  else if JS.matchWords environmentalWords normalizedText then offlineEnvironmental
  else if JS.matchWords trafficWords normalizedText then offlineTraffic
  else if JS.matchWords urgencyWords normalizedText || JS.includes "!" normalizedText
       then offlineUrgency
  else if JS.includes "?" normalizedText || JS.matchWords questionWords normalizedText
       then offlineQuestion
  else if JS.matchWords positiveWords normalizedText then offlinePositive
  else if JS.matchWords issueWords normalizedText then offlineIssue
  else if JS.matchWords suggestionWords normalizedText then offlineSuggestion
  else offlineDefault.

(** *** The online (simulated) table *)

Definition onlineResult (cat : string) (conf : Q) (why : string) : ClassificationResult :=
  {| category := cat; confidence := conf; reasoning := why;
     isOfflineFallback := None |}.

Definition onlineUrgency := onlineResult "High Priority" 0.95
  "High priority indicators detected with strong confidence based on urgency keywords.".
Definition onlineSafety := onlineResult "Safety Issue" 0.93
  "Safety-related content identified through risk assessment keywords.".
Definition onlineTraffic := onlineResult "Traffic" 0.90
  "Transportation and traffic-related content detected.".
Definition onlineEnvironmental := onlineResult "Environmental" 0.89
  "Environmental concerns identified in the text content.".
Definition onlineInfrastructure := onlineResult "Infrastructure" 0.87
  "Infrastructure and maintenance-related terminology found.".
Definition onlineQuestion := onlineResult "Support Request" 0.85
  "Support request identified based on question patterns and help-seeking language.".
Definition onlinePositive := onlineResult "Positive Feedback" 0.88
  "Positive sentiment analysis indicates appreciation or satisfaction.".
Definition onlineIssue := onlineResult "Issue Report" 0.86
  "Problem reporting detected through issue identification keywords.".
Definition onlineSuggestion := onlineResult "Feature Request" 0.82
  "Enhancement suggestions identified through improvement-oriented language.".
Definition onlineDefault := onlineResult "Other" 0.8 EmptyString.

(** [text.includes(a) || text.includes(b) || text.includes(c)] *)
Definition includesAny (needles : list string) (text : string) : bool :=
  existsb (fun w => JS.includes w text) needles.

(** The body of the timer callback of [handleClassify] once the
    simulated call has not been rejected. *)
Definition mockClassification (inputText : string) : ClassificationResult :=
  let text := JS.toLowerCase inputText in
  if includesAny ["urgent"; "emergency"; "critical"] text then onlineUrgency
  else if includesAny ["safety"; "danger"; "risk"] text then onlineSafety
  else if includesAny ["road"; "traffic"; "transport"] text then onlineTraffic
  else if includesAny ["environment"; "pollution"; "waste"] text then onlineEnvironmental
  else if includesAny ["infrastructure"; "repair"; "maintenance"] text then onlineInfrastructure
  else if includesAny ["question"; "help"; "?"] text then onlineQuestion
  else if includesAny ["thank"; "great"; "excellent"] text then onlinePositive
  else if includesAny ["issue"; "problem"; "error"] text then onlineIssue
  else if includesAny ["suggestion"; "improve"; "feature"] text then onlineSuggestion
  else onlineDefault.

(** *** The component state and [handleClassify] *)

Record AssistantState : Type := {
  inputText : string;
  isLoading : bool;
  result : option ClassificationResult;
  error : option string;
  isOnline : bool;
  useOfflineFallback : bool
}.

(** What a run of [handleClassify] does, in program order: state
    setters, log lines, and the timers it waits for. *)
Inductive Effect : Type :=
| SetIsLoading (b : bool)
| SetError (e : option string)
| SetResult (r : option ClassificationResult)
| Wait (ms : Z)
| ConsoleError (msg : string).

Definition isBlank (s : string) : bool :=
  match JS.trim s with
  | EmptyString => true
  | _ => false
  end.

Definition Qltb (x y : Q) : bool := negb (Qle_bool y x).

(** [random] is the value [Math.random()] returns inside the simulated
    call (read only on the online path). *)
Definition handleClassify (st : AssistantState) (random : Q) : list Effect :=
  if isBlank (inputText st) then
    [SetError (Some "Please enter some text to classify")]
  else
    [SetIsLoading true; SetError None; SetResult None] ++
    (if negb (isOnline st) || useOfflineFallback st then
       [Wait 800;
        SetResult (Some (offlineClassification (inputText st)));
        SetIsLoading false]
     else
       Wait 1500 ::
       (if Qltb random 0.3 then
          [ConsoleError "AI classification failed:";
           SetError (Some "AI service unavailable. Using offline classification...");
           Wait 1000;
           SetError None;
           SetResult (Some (offlineClassification (inputText st)));
           SetIsLoading false]
        else
          [SetResult (Some (mockClassification (inputText st)));
           SetIsLoading false])).

Definition applyEffect (st : AssistantState) (e : Effect) : AssistantState :=
  match e with
  | SetIsLoading b =>
      {| inputText := inputText st; isLoading := b; result := result st;
         error := error st; isOnline := isOnline st;
         useOfflineFallback := useOfflineFallback st |}
  | SetError m =>
      {| inputText := inputText st; isLoading := isLoading st; result := result st;
         error := m; isOnline := isOnline st;
         useOfflineFallback := useOfflineFallback st |}
  | SetResult r =>
      {| inputText := inputText st; isLoading := isLoading st; result := r;
         error := error st; isOnline := isOnline st;
         useOfflineFallback := useOfflineFallback st |}
  | Wait _ | ConsoleError _ => st
  end.

Definition runEffects (st : AssistantState) (es : list Effect) : AssistantState :=
  fold_left applyEffect es st.

(** The state once an invocation of [handleClassify] and its timers
    are over. *)
Definition classified (st : AssistantState) (random : Q) : AssistantState :=
  runEffects st (handleClassify st random).

(** *** The two tables as ordered rule lists *)

Inductive RuleKind : Type :=
| Safety | Infrastructure | Environmental | Traffic | Urgency
| Question | Positive | Issue | Suggestion.

Record Rule : Type := {
  matches : string -> bool;
  outcome : ClassificationResult
}.

Definition offlineRule (k : RuleKind) : Rule :=
  match k with
  | Safety => {| matches := JS.matchWords safetyWords; outcome := offlineSafety |}
  | Infrastructure =>
      {| matches := JS.matchWords infrastructureWords; outcome := offlineInfrastructure |}
  | Environmental =>
      {| matches := JS.matchWords environmentalWords; outcome := offlineEnvironmental |}
  | Traffic => {| matches := JS.matchWords trafficWords; outcome := offlineTraffic |}
  | Urgency =>
      {| matches := fun s => JS.matchWords urgencyWords s || JS.includes "!" s;
         outcome := offlineUrgency |}
  | Question =>
      {| matches := fun s => JS.includes "?" s || JS.matchWords questionWords s;
         outcome := offlineQuestion |}
  | Positive => {| matches := JS.matchWords positiveWords; outcome := offlinePositive |}
  | Issue => {| matches := JS.matchWords issueWords; outcome := offlineIssue |}
  | Suggestion => {| matches := JS.matchWords suggestionWords; outcome := offlineSuggestion |}
  end.

Definition onlineRule (k : RuleKind) : Rule :=
  match k with
  | Urgency =>
      {| matches := includesAny ["urgent"; "emergency"; "critical"];
         outcome := onlineUrgency |}
  | Safety =>
      {| matches := includesAny ["safety"; "danger"; "risk"]; outcome := onlineSafety |}
  | Traffic =>
      {| matches := includesAny ["road"; "traffic"; "transport"]; outcome := onlineTraffic |}
  | Environmental =>
      {| matches := includesAny ["environment"; "pollution"; "waste"];
         outcome := onlineEnvironmental |}
  | Infrastructure =>
      {| matches := includesAny ["infrastructure"; "repair"; "maintenance"];
         outcome := onlineInfrastructure |}
  | Question =>
      {| matches := includesAny ["question"; "help"; "?"]; outcome := onlineQuestion |}
  | Positive =>
      {| matches := includesAny ["thank"; "great"; "excellent"]; outcome := onlinePositive |}
  | Issue =>
      {| matches := includesAny ["issue"; "problem"; "error"]; outcome := onlineIssue |}
  | Suggestion =>
      {| matches := includesAny ["suggestion"; "improve"; "feature"];
         outcome := onlineSuggestion |}
  end.

(** The order in which [offlineClassification] tests its rules. *)
Definition offlineOrder : list RuleKind :=
  [Safety; Infrastructure; Environmental; Traffic; Urgency;
   Question; Positive; Issue; Suggestion].

(** The order in which the online branch of [handleClassify] tests its
    rules. *)
Definition onlineOrder : list RuleKind :=
  [Urgency; Safety; Traffic; Environmental; Infrastructure;
   Question; Positive; Issue; Suggestion].

(** The order the specification gives for both tables: safety,
    infrastructure, environmental, traffic, urgency, question,
    positive feedback, issue, suggestion. *)
Definition specOrder : list RuleKind :=
  [Safety; Infrastructure; Environmental; Traffic; Urgency;
   Question; Positive; Issue; Suggestion].

(** First-match evaluation of an ordered rule list. *)
Fixpoint firstMatch (rules : list Rule) (default : ClassificationResult)
         (s : string) : ClassificationResult :=
  match rules with
  | [] => default
  | r :: rest => if matches r s then outcome r else firstMatch rest default s
  end.

Definition classifyInOrder (table : RuleKind -> Rule) (order : list RuleKind)
           (default : ClassificationResult) (s : string) : ClassificationResult :=
  firstMatch (map table order) default s.

(** The text each table is matched against. *)
Definition offlineNormalize (text : string) : string := JS.trim (JS.toLowerCase text).
Definition onlineNormalize (text : string) : string := JS.toLowerCase text.

(** The table a classification goes through. *)
Inductive Table : Type := Offline | OnlineSimulated.

Definition classify (t : Table) (text : string) : ClassificationResult :=
  match t with
  | Offline => offlineClassification text
  | OnlineSimulated => mockClassification text
  end.

Definition ruleOf (t : Table) : RuleKind -> Rule :=
  match t with
  | Offline => offlineRule
  | OnlineSimulated => onlineRule
  end.

Definition normalize (t : Table) : string -> string :=
  match t with
  | Offline => offlineNormalize
  | OnlineSimulated => onlineNormalize
  end.

(** The table whose result an invocation of [handleClassify] ends up
    showing: the offline one when the assistant is offline, in fallback
    mode, or when the simulated call is rejected. *)
Definition tableUsed (st : AssistantState) (random : Q) : Table :=
  if negb (isOnline st) || useOfflineFallback st || Qltb random 0.3
  then Offline else OnlineSimulated.

(** No predicate of table [t] matches [text]. *)
Definition noRuleMatches (t : Table) (text : string) : Prop :=
  forall k : RuleKind, matches (ruleOf t k) (normalize t text) = false.

(** The time an invocation spends waiting on its timers, in
    milliseconds. *)
Definition totalWait (effects : list Effect) : Z :=
  fold_right (fun e acc => match e with Wait ms => (ms + acc)%Z | _ => acc end) 0%Z effects.

(** [Math.round(result.confidence * 100)], the percentage shown. *)
Definition shownPercent (r : ClassificationResult) : Z :=
  JS.round (confidence r * 100).

End Classifier.

(** ** Reports as the form submits them *)

Module Report.

Record File : Type := { fileSize : Z; fileType : string }.

Record Coordinates : Type := { lat : JS.number; lon : JS.number }.

(** [NewReport]: [coordinates] and [image] are optional properties. *)
Record NewReport : Type := {
  location : string;
  coordinates : option Coordinates;
  description : string;
  category : string;
  image : option File
}.

End Report.

(** A JSON document, that is, what a JSON text denotes.  [JSON.stringify]
    and [JSON.parse] are the platform's: a stored text is kept as the
    document it denotes. *)
#[warnings="-register-all"]
Inductive json : Type :=
| JNull
| JBool (b : bool)
| JNum (q : Q)
| JStr (s : string)
| JArr (items : list json)
| JObj (fields : list (string * json)).

(** ** The map view *)

Module CivicMap.

(** The value of the field [type]: one of the six strings of the
    interface or, at run time, what a marker made from a report whose
    category is a name of [Object.prototype] gets, the inherited value
    [Object.prototype[name]]. *)
Inductive MarkerType : Type :=
| accident | infrastructure | safety | environment | traffic | other
| inherited (name : string).
Inductive Priority : Type := low | medium | high.
Inductive Status : Type := open | in_progress | resolved.

Record IncidentMarker : Type := {
  id : string;
  lat : JS.number;
  lng : JS.number;
  title : string;
  description : string;
  type : MarkerType;
  priority : Priority;
  date : string;
  status : Status
}.

Record OfflineMapData : Type := {
  center : JS.number * JS.number;
  zoom : JS.number;
  markers : list IncidentMarker;
  lastUpdated : string
}.

Definition mkSample (i : string) (la lo : Q) (t d : string) (ty : MarkerType)
           (p : Priority) (dt : string) (s : Status) : IncidentMarker :=
  {| id := i; lat := JS.Fin la; lng := JS.Fin lo; title := t; description := d;
     type := ty; priority := p; date := dt; status := s |}.

Definition sampleMarkers : list IncidentMarker :=
  [ mkSample "1" 10.8505 76.2711 "Road Pothole"
      "Large pothole causing traffic disruption on NH47"
      infrastructure high "2024-01-10" open;
    mkSample "2" 9.9312 76.2673 "Street Light Outage"
      "Multiple street lights not working in residential area"
      infrastructure medium "2024-01-08" in_progress;
    mkSample "3" 11.2588 75.7804 "Water Logging"
      "Heavy water logging after recent rains"
      environment high "2024-01-05" open;
    mkSample "4" 8.8932 76.6141 "Traffic Signal Issue"
      "Traffic signal malfunctioning during peak hours"
      safety high "2024-01-12" resolved;
    mkSample "5" 10.5276 76.2144 "Waste Accumulation"
      "Garbage not collected for over a week"
      environment medium "2024-01-07" open ].

Definition OFFLINE_MAP_KEY : string := "surakshamap_offline_data".

(** What the clock gives one call of [convertReportToMarker]:
    [Date.now()] and the date part of [new Date().toISOString()]. *)
Record Clock : Type := { now : Z; isoDate : string }.

(** *** Report normalizer *)

(** The own properties of the object literal [categoryTypeMap]. *)
Definition categoryTypeMap : gmap string MarkerType :=
  list_to_map
    [("Safety Issue", safety); ("Infrastructure", infrastructure);
     ("Environmental", environment); ("Traffic", traffic); ("Other", other)].

(** [categoryTypeMap[category] || 'other']: the read finds the own
    properties and, through the prototype, the names of
    [Object.prototype], whose values are truthy. *)
Definition categoryType (category : string) : MarkerType :=
  match categoryTypeMap !! category with
  | Some t => t
  | None => if JS.inheritedName category then inherited category else other
  end.

(** [None] is the [null] the function returns for a report without
    coordinates. *)
Definition convertReportToMarker (clock : Clock) (report : Report.NewReport)
           (index : nat) : option IncidentMarker :=
  let reportId := "report_" ++ JS.showZ (now clock) ++ "_" ++ JS.showZ (Z.of_nat index) in
  match Report.coordinates report with
  | None => None
  | Some c =>
      Some {| id := reportId;
              lat := Report.lat c;
              lng := Report.lon c;
              title := "New Report: " ++ Report.category report;
              description := Report.description report;
              type := categoryType (Report.category report);
              priority := medium;
              date := isoDate clock;
              status := open |}
  end.

Definition hasCoordinates (report : Report.NewReport) : bool :=
  match Report.coordinates report with
  | Some _ => true
  | None => false
  end.

(** [.filter(marker => marker !== null)] *)
Fixpoint filterNotNull {A : Type} (l : list (option A)) : list A :=
  match l with
  | [] => []
  | None :: rest => filterNotNull rest
  | Some a :: rest => a :: filterNotNull rest
  end.

(** [newReports.map(convertReportToMarker).filter(...)]; [clocks i] is
    the clock as the conversion of report [i] reads it. *)
Definition newMarkers (clocks : nat -> Clock) (newReports : list Report.NewReport)
  : list IncidentMarker :=
  filterNotNull (imap (fun index report => convertReportToMarker (clocks index) report index)
                      newReports).

(** The marker collection the effect on [newReports] installs. *)
Definition allMarkers (clocks : nat -> Clock) (newReports : list Report.NewReport)
  : list IncidentMarker :=
  if (0 <? length newReports)%nat
  then sampleMarkers ++ newMarkers clocks newReports
  else sampleMarkers.

(** *** Offline snapshot *)

(** The property [type] as [JSON.stringify] writes it: a string; an
    inherited function is left out, and the prototype object is written
    as an object without properties. *)
Definition typeToJSON (t : MarkerType) : list (string * json) :=
  match t with
  | accident => [("type", JStr "accident")]
  | infrastructure => [("type", JStr "infrastructure")]
  | safety => [("type", JStr "safety")]
  | environment => [("type", JStr "environment")]
  | traffic => [("type", JStr "traffic")]
  | other => [("type", JStr "other")]
  | inherited name => if String.eqb name "__proto__" then [("type", JObj [])] else []
  end.
Definition priorityName (p : Priority) : string :=
  match p with low => "low" | medium => "medium" | high => "high" end.
Definition statusName (s : Status) : string :=
  match s with open => "open" | in_progress => "in-progress" | resolved => "resolved" end.

(** [JSON.stringify] writes a number that is not finite as [null]. *)
Definition numberToJSON (n : JS.number) : json :=
  match n with
  | JS.Fin q => JNum q
  | _ => JNull
  end.

Definition markerToJSON (m : IncidentMarker) : json :=
  JObj ([("id", JStr (id m)); ("lat", numberToJSON (lat m)); ("lng", numberToJSON (lng m));
         ("title", JStr (title m)); ("description", JStr (description m))]
        ++ typeToJSON (type m)
        ++ [("priority", JStr (priorityName (priority m)));
            ("date", JStr (date m)); ("status", JStr (statusName (status m)))])%list.

(** [JSON.stringify(data)] for [data : OfflineMapData]. *)
Definition stringify (data : OfflineMapData) : json :=
  JObj [("center", JArr [numberToJSON (fst (center data)); numberToJSON (snd (center data))]);
        ("zoom", numberToJSON (zoom data));
        ("markers", JArr (map markerToJSON (markers data)));
        ("lastUpdated", JStr (lastUpdated data))].

(** The state variable [offlineData]: the object handed to
    [saveOfflineData] in this session, or a document parsed by
    [loadOfflineData]. *)
Inductive Snapshot : Type :=
| Saved (data : OfflineMapData)
| Loaded (doc : json).

Record Cache : Type := {
  localStorage : gmap string json;
  offlineData : option Snapshot
}.

(** [quotaOk] tells whether [localStorage.setItem] accepts the write;
    when it throws, the [catch] logs and nothing changes. *)
Definition saveOfflineData (quotaOk : bool) (data : OfflineMapData) (c : Cache) : Cache :=
  if quotaOk then
    {| localStorage := <[OFFLINE_MAP_KEY := stringify data]> (localStorage c);
       offlineData := Some (Saved data) |}
  else c.

Definition loadOfflineData (c : Cache) : Cache :=
  match localStorage c !! OFFLINE_MAP_KEY with
  | Some doc => {| localStorage := localStorage c; offlineData := Some (Loaded doc) |}
  | None => c
  end.

(** An application restart: the component state is gone, the storage
    stays, and the mount effect calls [loadOfflineData]. *)
Definition restart (c : Cache) : Cache :=
  loadOfflineData {| localStorage := localStorage c; offlineData := None |}.

Fixpoint field (name : string) (fields : list (string * json)) : option json :=
  match fields with
  | [] => None
  | (k, v) :: rest => if String.eqb k name then Some v else field name rest
  end.

Definition asNumber (j : json) : option JS.number :=
  match j with
  | JNum q => Some (JS.Fin q)
  | _ => None
  end.

(** [offlineData.center] as a pair of numbers. *)
Definition snapshotCenter (s : Snapshot) : option (JS.number * JS.number) :=
  match s with
  | Saved data => Some (center data)
  | Loaded (JObj fs) =>
      match field "center" fs with
      | Some (JArr [a; b]) =>
          match asNumber a, asNumber b with
          | Some x, Some y => Some (x, y)
          | _, _ => None
          end
      | _ => None
      end
  | Loaded _ => None
  end.

(** [offlineData.zoom] as a number. *)
Definition snapshotZoom (s : Snapshot) : option JS.number :=
  match s with
  | Saved data => Some (zoom data)
  | Loaded (JObj fs) =>
      match field "zoom" fs with
      | Some j => asNumber j
      | None => None
      end
  | Loaded _ => None
  end.

(** [offlineData.markers.length] *)
Definition snapshotMarkerCount (s : Snapshot) : option nat :=
  match s with
  | Saved data => Some (length (markers data))
  | Loaded (JObj fs) =>
      match field "markers" fs with
      | Some (JArr items) => Some (length items)
      | _ => None
      end
  | Loaded _ => None
  end.

(** *** Rendering mode selector of the map *)

(** The state of the component that decides between the interactive
    map and the offline view.  [imports] counts the dynamic imports of
    the map library started so far; [effectDue] says that a dependency
    of the initializing effect ([isClient], [isOnline],
    [useOfflineMode]) changed since it last ran; [timers] counts the
    pending 2-second timers of the [catch] block. *)
Record View : Type := {
  isClient : bool;
  isOnline : bool;
  useOfflineMode : bool;
  isLoading : bool;
  mapError : option string;
  mapInstance : bool;
  imports : nat;
  effectDue : bool;
  timers : nat
}.

(** The component after its mount effect: [setIsClient(true)] and
    [setIsOnline(navigator.onLine)]. *)
Definition mounted (onLine : bool) : View :=
  {| isClient := true; isOnline := onLine; useOfflineMode := false;
     isLoading := true; mapError := None; mapInstance := false;
     imports := 0; effectDue := true; timers := 0 |}.

Definition showsErrorPanel (v : View) : bool :=
  match mapError v with
  | Some _ => negb (useOfflineMode v)
  | None => false
  end.

Definition showsOfflineMap (v : View) : bool :=
  negb (isOnline v) || useOfflineMode v.

(** [mapRef.current] is set exactly when the last render produced the
    map container. *)
Definition mapRefMounted (v : View) : bool :=
  isClient v && negb (showsErrorPanel v) && negb (showsOfflineMap v).

(** [initializeMap]; [loads k] tells whether the [k]-th dynamic import
    (counted from 0) and the construction of the map succeed. *)
Definition initializeMap (loads : nat -> bool) (v : View) : View :=
  if negb (mapRefMounted v) then v
  else if negb (isOnline v) || useOfflineMode v then
    {| isClient := isClient v; isOnline := isOnline v;
       useOfflineMode := useOfflineMode v; isLoading := false;
       mapError := mapError v; mapInstance := mapInstance v;
       imports := imports v; effectDue := effectDue v; timers := timers v |}
  else if loads (imports v) then
    {| isClient := isClient v; isOnline := isOnline v;
       useOfflineMode := useOfflineMode v; isLoading := false;
       mapError := None; mapInstance := true;
       imports := S (imports v); effectDue := effectDue v; timers := timers v |}
  else
    {| isClient := isClient v; isOnline := isOnline v;
       useOfflineMode := useOfflineMode v; isLoading := true;
       mapError := Some "Failed to load map. Switching to offline mode...";
       mapInstance := mapInstance v;
       imports := S (imports v); effectDue := effectDue v;
       timers := S (timers v) |}.

(** The effect on [isClient, isOnline, useOfflineMode]: the cleanup of
    its previous run removes the map, then [initializeMap] runs. *)
Definition runEffect (loads : nat -> bool) (v : View) : View :=
  let cleaned :=
    {| isClient := isClient v; isOnline := isOnline v;
       useOfflineMode := useOfflineMode v; isLoading := isLoading v;
       mapError := mapError v; mapInstance := false;
       imports := imports v; effectDue := false; timers := timers v |} in
  if isClient v then initializeMap loads cleaned else cleaned.

(** The timer callback of the [catch] block. *)
Definition fireTimer (v : View) : View :=
  {| isClient := isClient v; isOnline := isOnline v;
     useOfflineMode := true; isLoading := false;
     mapError := None; mapInstance := mapInstance v;
     imports := imports v;
     effectDue := effectDue v || negb (useOfflineMode v);
     timers := pred (timers v) |}.

(** The Retry button of the error panel calls [initializeMap]. *)
Definition clickRetry (loads : nat -> bool) (v : View) : View :=
  initializeMap loads v.

(** Everything that happens without the user: due effects and pending
    timers run until none is left. *)
Fixpoint settle (fuel : nat) (loads : nat -> bool) (v : View) : option View :=
  match fuel with
  | O => None
  | S fuel' =>
      if effectDue v then settle fuel' loads (runEffect loads v)
      else if (0 <? timers v)%nat then settle fuel' loads (fireTimer v)
      else Some v
  end.

Inductive Mode : Type := Loading | LiveRendering | Fallback | ErrorTransient.

(** The overlay with the spinner, laid over the map or the offline map
    while [isLoading && !useOfflineMode]. *)
Definition showsOverlay (v : View) : bool :=
  isLoading v && negb (useOfflineMode v).

(** The mode the render function shows: the spinner before the mount
    effect, the error panel, the loading overlay (over whichever map is
    underneath), the offline map, or the interactive map. *)
Definition mode (v : View) : Mode :=
  if negb (isClient v) then Loading
  else if showsErrorPanel v then ErrorTransient
  else if showsOverlay v then Loading
  else if showsOfflineMap v then Fallback
  else LiveRendering.

(** *** The offline map *)

(** The bounds [mapBounds] that [renderOfflineMap] places markers in. *)
Definition north : JS.number := JS.Fin 12.0.
Definition south : JS.number := JS.Fin 8.0.
Definition east : JS.number := JS.Fin 78.0.
Definition west : JS.number := JS.Fin 74.0.

Definition xPercent (lng : JS.number) : JS.number :=
  JS.mul (JS.div (JS.sub lng west) (JS.sub east west)) (JS.Fin 100).

Definition yPercent (lat : JS.number) : JS.number :=
  JS.mul (JS.div (JS.sub north lat) (JS.sub north south)) (JS.Fin 100).

(** [Math.max(5, Math.min(95, percent))] *)
Definition clamp (percent : JS.number) : JS.number :=
  JS.max (JS.Fin 5) (JS.min (JS.Fin 95) percent).

(** The [left] and [top] percentages of a marker on the offline map. *)
Definition markerPosition (m : IncidentMarker) : JS.number * JS.number :=
  (clamp (xPercent (lng m)), clamp (yPercent (lat m))).

(** [!offlineData && allMarkers.length === 0]: the test for the
    "Offline Map Unavailable" panel. *)
Definition offlineMapUnavailable (snapshot : option Snapshot)
           (shown : list IncidentMarker) : bool :=
  match snapshot with
  | Some _ => false
  | None => (length shown =? 0)%nat
  end.

(** [downloadForOffline]; [mapView] is the centre and zoom the map
    instance reports, if there is one, and [timestamp] the current
    [toISOString()]. *)
Definition downloadForOffline (quotaOk : bool)
           (mapView : option (JS.number * JS.number * JS.number))
           (shown : list IncidentMarker) (timestamp : string) (c : Cache) : Cache :=
  let mapCenter :=
    match mapView with
    | Some (la, lo, _) => (la, lo)
    | None => (JS.Fin 10.8505, JS.Fin 76.2711)
    end in
  let mapZoom :=
    match mapView with
    | Some (_, _, z) => z
    | None => JS.Fin 7
    end in
  saveOfflineData quotaOk
    {| center := mapCenter; zoom := mapZoom; markers := shown; lastUpdated := timestamp |} c.

(** The identifier [reportId] that [convertReportToMarker] builds. *)
Definition reportId (now : Z) (index : nat) : string :=
  "report_" ++ (JS.showZ now ++ String "_" (JS.showZ (Z.of_nat index))).

End CivicMap.

(** ** The category chart *)

Module CategoryChart.

(** [categoryData]: the own properties of the object, in the order
    [Object.entries] lists them. *)
Definition CategoryData : Type := list (string * Z).

Definition values (d : CategoryData) : list Z := map snd d.

Record TrendPoint : Type := { date : string; count : Z }.

Record AnalyticsData : Type := {
  totalReports : Z;
  mostCommonCategory : string;
  trendData : list TrendPoint
}.

(** What the browser hands to element [i] of the trend series: the
    formatted date of [new Date()] moved back [6 - i] days, and the
    value of [Math.random()]. *)
Record Draw : Type := { dayLabel : string; random : Q }.

Definition total (d : CategoryData) : Z :=
  fold_left (fun sum count => sum + count)%Z (values d) 0%Z.

Definition mostCommon (d : CategoryData) : string * Z :=
  fold_left (fun max entry => if (snd entry >? snd max)%Z then entry else max)
            d ("None", 0%Z).

(** The effect on [categoryData] that fills the [analytics] state. *)
Definition calculateAnalytics (env : nat -> Draw) (d : CategoryData) : AnalyticsData :=
  let total := total d in
  {| totalReports := total;
     mostCommonCategory := fst (mostCommon d);
     trendData :=
       map (fun i =>
              {| date := dayLabel (env i);
                 count := (Qfloor (random (env i) * inject_Z total / 3) + total / 7)%Z |})
           (seq 0 7) |}.

Definition hasData (d : CategoryData) : bool :=
  (0 <? length d)%nat && existsb (fun value => (0 <? value)%Z) (values d).

Inductive ChartKind : Type := pie | bar | trend.

Definition Row : Type := (string * Z)%type.

(** The rows handed to [arrayToDataTable] after the header row, tagged
    with the chart that draws them. *)
Inductive Drawing : Type :=
| PieChart (rows : list Row)
| ColumnChart (rows : list Row)
| LineChart (rows : list Row).

Inductive RenderOutcome : Type :=
| NotRendered
| Drawn (chart : Drawing)
| DrawFailed.

Record ChartState : Type := {
  chartError : option string;
  isGoogleChartsLoaded : bool;
  useOfflineMode : bool;
  currentView : ChartKind;
  analytics : AnalyticsData;
  scriptRequests : nat
}.

Definition chartRows (view : ChartKind) (d : CategoryData) (a : AnalyticsData) : Drawing :=
  match view with
  | pie =>
      PieChart (if negb (hasData d) then [("No Data", 1%Z)]
                else List.filter (fun entry => (0 <? snd entry)%Z) d)
  | bar =>
      ColumnChart (if negb (hasData d) then [("No Data", 1%Z)] else d)
  | trend =>
      LineChart (map (fun item => (date item, count item)) (trendData a))
  end.

(** [renderGoogleChart]; [chartRefMounted] is [chartRef.current] being
    set and [drawOk] tells whether the library draws without throwing. *)
Definition renderGoogleChart (chartRefMounted isLoading drawOk : bool)
           (st : ChartState) (d : CategoryData) : RenderOutcome :=
  if negb (isGoogleChartsLoaded st) || negb chartRefMounted || isLoading then NotRendered
  else if drawOk then Drawn (chartRows (currentView st) d (analytics st))
  else DrawFailed.

Definition colors : list string :=
  ["#3b82f6"; "#10b981"; "#f59e0b"; "#8b5cf6"; "#ef4444"].

Record OfflineBar : Type := {
  barCategory : string;
  barCount : Z;
  barPercentage : Q;
  barWidth : Q;
  barColor : string
}.

Inductive OfflineChart : Type :=
| NoDataAvailable
| Bars (bars : list OfflineBar).

(** [Math.max(...values)]; [None] stands for the [-Infinity] of an
    empty argument list. *)
Definition maxOf (l : list Z) : option Z :=
  match l with
  | [] => None
  | v :: rest => Some (fold_left Z.max rest v)
  end.

(** [den > 0 ? (num / den) * 100 : 0], the value of the expression in
    real arithmetic (the code computes it in doubles, which round it). *)
Definition ratio (num : Z) (den : option Z) : Q :=
  match den with
  | Some m => if (0 <? m)%Z then (inject_Z num / inject_Z m) * 100 else 0
  | None => 0
  end.

Definition offlineBar (d : CategoryData) (index : nat) (entry : string * Z)
  : option OfflineBar :=
  if (snd entry =? 0)%Z then None
  else Some {| barCategory := fst entry;
               barCount := snd entry;
               barPercentage := ratio (snd entry) (Some (total d));
               barWidth := ratio (snd entry) (maxOf (values d));
               barColor := nth (index mod length colors) colors EmptyString |}.

(** [renderOfflineChart] *)
Definition renderOfflineChart (d : CategoryData) : OfflineChart :=
  if negb (hasData d) then NoDataAvailable
  else Bars (CivicMap.filterNotNull (imap (offlineBar d) d)).

(** The body of the card, branch for branch as the component returns
    it. *)
Inductive Body : Type :=
| Spinner
| OfflineView (chart : OfflineChart)
| ErrorPanel (message : string)
| NoReportsYet
| ChartContainer.

Definition body (isLoading : bool) (st : ChartState) (d : CategoryData) : Body :=
  if isLoading then Spinner
  else if useOfflineMode st then OfflineView (renderOfflineChart d)
  else match chartError st with
       | Some message => ErrorPanel message
       | None => if negb (hasData d) then NoReportsYet else ChartContainer
       end.

Definition chartRefMounted (isLoading : bool) (st : ChartState) (d : CategoryData) : bool :=
  match body isLoading st d with
  | ChartContainer => true
  | _ => false
  end.

(** The figure under "Total Reports", shown in every mode. *)
Definition headerTotal (st : ChartState) : Z := totalReports (analytics st).

(** The effect that draws when the component is not in offline mode. *)
Definition liveRender (isLoading drawOk : bool) (st : ChartState) (d : CategoryData)
  : RenderOutcome :=
  if negb (useOfflineMode st)
  then renderGoogleChart (chartRefMounted isLoading st d) isLoading drawOk st d
  else NotRendered.

(** The category rows the offline view presents. *)
Definition offlineCategoryRows (d : CategoryData) : list Row :=
  match renderOfflineChart d with
  | NoDataAvailable => []
  | Bars bars => map (fun b => (barCategory b, barCount b)) bars
  end.

(** The count a list of rows presents for one category (none when the
    category has no row). *)
Definition countFor (category : string) (rows : list Row) : Z :=
  fold_right (fun r acc => if String.eqb (fst r) category then (snd r + acc)%Z else acc)
             0%Z rows.

Definition sumCounts (rows : list Row) : Z :=
  fold_right (fun r acc => (snd r + acc)%Z) 0%Z rows.

Definition nonZero (rows : list Row) : list Row :=
  List.filter (fun r => negb (snd r =? 0)%Z) rows.

(** *** Loading the charting library *)

Record Window : Type := {
  onLine : bool;
  googleCharts : bool;
  googleChartsLoaded : bool
}.

Definition setLoaded (st : ChartState) : ChartState :=
  {| chartError := chartError st; isGoogleChartsLoaded := true;
     useOfflineMode := false; currentView := currentView st;
     analytics := analytics st; scriptRequests := scriptRequests st |}.

Definition setUseOfflineMode (b : bool) (st : ChartState) : ChartState :=
  {| chartError := chartError st; isGoogleChartsLoaded := isGoogleChartsLoaded st;
     useOfflineMode := b; currentView := currentView st;
     analytics := analytics st; scriptRequests := scriptRequests st |}.

(** [loadGoogleCharts]; [scripts k] tells whether the [k]-th request
    for the loader script (counted from 0) succeeds. *)
Definition loadGoogleCharts (scripts : nat -> bool) (w : Window) (st : ChartState)
  : Window * ChartState :=
  if negb (onLine w) then (w, setUseOfflineMode true st)
  else if googleCharts w then
    ({| onLine := onLine w; googleCharts := true; googleChartsLoaded := true |},
     setLoaded st)
  else if scripts (scriptRequests st) then
    ({| onLine := onLine w; googleCharts := true; googleChartsLoaded := true |},
     {| chartError := chartError st; isGoogleChartsLoaded := true;
        useOfflineMode := false; currentView := currentView st;
        analytics := analytics st; scriptRequests := S (scriptRequests st) |})
  else
    (w,
     {| chartError := Some "Failed to load Google Charts. Using offline mode.";
        isGoogleChartsLoaded := isGoogleChartsLoaded st;
        useOfflineMode := true; currentView := currentView st;
        analytics := analytics st; scriptRequests := S (scriptRequests st) |}).

(** The listeners of the [online] and [offline] events. *)
Definition handleOnline (scripts : nat -> bool) (w : Window) (st : ChartState)
  : Window * ChartState :=
  loadGoogleCharts scripts w (setUseOfflineMode false st).

Definition handleOffline (st : ChartState) : ChartState := setUseOfflineMode true st.

Definition initialState : ChartState :=
  {| chartError := None; isGoogleChartsLoaded := false; useOfflineMode := false;
     currentView := pie;
     analytics := {| totalReports := 0; mostCommonCategory := "None"; trendData := [] |};
     scriptRequests := 0 |}.

(** The mode the card shows. *)
Definition mode (isLoading : bool) (st : ChartState) : CivicMap.Mode :=
  if isLoading then CivicMap.Loading
  else if useOfflineMode st then CivicMap.Fallback
  else match chartError st with
       | Some _ => CivicMap.ErrorTransient
       | None => if isGoogleChartsLoaded st then CivicMap.LiveRendering
                 else CivicMap.Loading
       end.

(** *** The component as a whole *)

(** The state updates of one run of the drawing effect:
    [setChartError(null)] once past the guard, and the [catch] when the
    library throws. *)
Definition applyRender (outcome : RenderOutcome) (st : ChartState) : ChartState :=
  match outcome with
  | NotRendered => st
  | Drawn _ =>
      {| chartError := None; isGoogleChartsLoaded := isGoogleChartsLoaded st;
         useOfflineMode := useOfflineMode st; currentView := currentView st;
         analytics := analytics st; scriptRequests := scriptRequests st |}
  | DrawFailed =>
      {| chartError := Some "Failed to render chart";
         isGoogleChartsLoaded := isGoogleChartsLoaded st;
         useOfflineMode := true; currentView := currentView st;
         analytics := analytics st; scriptRequests := scriptRequests st |}
  end.

Definition setCurrentView (view : ChartKind) (st : ChartState) : ChartState :=
  {| chartError := chartError st; isGoogleChartsLoaded := isGoogleChartsLoaded st;
     useOfflineMode := useOfflineMode st; currentView := view;
     analytics := analytics st; scriptRequests := scriptRequests st |}.

Definition setAnalytics (a : AnalyticsData) (st : ChartState) : ChartState :=
  {| chartError := chartError st; isGoogleChartsLoaded := isGoogleChartsLoaded st;
     useOfflineMode := useOfflineMode st; currentView := currentView st;
     analytics := a; scriptRequests := scriptRequests st |}.

(** What can happen to a mounted chart: the browser goes online or
    offline, the user presses "Switch to Offline Mode" or one of the
    view buttons, [categoryData] changes (the analytics effect runs with
    the draws [env]), or the drawing effect runs. *)
Inductive ChartEvent : Type :=
| WentOnline (scripts : nat -> bool)
| WentOffline
| SwitchToOffline
| SelectView (view : ChartKind)
| DataChanged (env : nat -> Draw) (d : CategoryData)
| DrawEffect (isLoading drawOk : bool) (d : CategoryData).

Definition chartStep (ws : Window * ChartState) (ev : ChartEvent) : Window * ChartState :=
  let (w, st) := ws in
  match ev with
  | WentOnline scripts =>
      handleOnline scripts
        {| onLine := true; googleCharts := googleCharts w;
           googleChartsLoaded := googleChartsLoaded w |} st
  | WentOffline =>
      ({| onLine := false; googleCharts := googleCharts w;
          googleChartsLoaded := googleChartsLoaded w |}, handleOffline st)
  | SwitchToOffline => (w, setUseOfflineMode true st)
  | SelectView view => (w, setCurrentView view st)
  | DataChanged env d => (w, setAnalytics (calculateAnalytics env d) st)
  | DrawEffect isLoading drawOk d => (w, applyRender (liveRender isLoading drawOk st d) st)
  end.

Definition chartRun (ws : Window * ChartState) (evs : list ChartEvent) : Window * ChartState :=
  fold_left chartStep evs ws.

End CategoryChart.

(** ** The analytics dashboard *)

Module Analytics.

Inductive Priority : Type := Low | Medium | High | Critical.
Inductive Status : Type := Open | InProgress | Resolved | Closed.

Definition priorityName (p : Priority) : string :=
  match p with Low => "Low" | Medium => "Medium" | High => "High" | Critical => "Critical" end.
Definition statusName (s : Status) : string :=
  match s with
  | Open => "Open" | InProgress => "In Progress" | Resolved => "Resolved" | Closed => "Closed"
  end.

Record Location : Type := {
  latitude : JS.number;
  longitude : JS.number;
  address : string;
  city : string;
  state : string;
  country : string
}.

Record Report : Type := {
  id : string;
  category : string;
  priority : Priority;
  status : Status;
  location : Location;
  createdAt : string;
  updatedAt : string;
  title : string;
  description : string
}.

(** [AnalyticsFilters]; [status] and [priority] are optional. *)
Module Filters.
Record t : Type := {
  dateRange : string;
  category : string;
  status : option string;
  priority : option string
}.
End Filters.

Record ChartData : Type := {
  labels : list string;
  values : list Z;
  colors : list (option string)
}.

Record TrendPoint : Type := { date : string; count : Z }.

(** The object [analyticsData]. *)
Module Data.
Record t : Type := {
  category : ChartData;
  priority : ChartData;
  status : ChartData;
  location : ChartData;
  trends : list TrendPoint
}.
End Data.

Definition CHART_COLORS : list string :=
  ["#3b82f6"; "#10b981"; "#f59e0b"; "#ef4444"; "#8b5cf6"; "#10b981"; "#64748b"].

Definition PRIORITY_COLORS : list (string * string) :=
  [("Low", "#10b981"); ("Medium", "#f59e0b"); ("High", "#ef4444"); ("Critical", "#dc2626")].

Definition STATUS_COLORS : list (string * string) :=
  [("Open", "#ef4444"); ("In Progress", "#f59e0b"); ("Resolved", "#10b981");
   ("Closed", "#64748b")].

Fixpoint lookup (key : string) (table : list (string * string)) : option string :=
  match table with
  | [] => None
  | (k, v) :: rest => if String.eqb k key then Some v else lookup key rest
  end.

(** [acc[key] = (acc[key] || 0) + 1] for a key that is not a property
    name of [Object.prototype] (see [JS.inheritedName]: for such a name
    the read is truthy and the code stores a string, or nothing for
    [__proto__]).  The list keeps the keys in insertion order;
    [Object.keys] lists integer-like keys first. *)
Fixpoint bump (key : string) (acc : list (string * Z)) : list (string * Z) :=
  match acc with
  | [] => [(key, 1%Z)]
  | (k, v) :: rest =>
      if String.eqb k key then (k, (v + 1)%Z) :: rest else (k, v) :: bump key rest
  end.

(** [reports.reduce((acc, report) => ..., {})] counting by [key]. *)
Definition countBy (key : Report -> string) (reports : list Report) : list (string * Z) :=
  fold_left (fun acc report => bump (key report) acc) reports [].

Definition truthy (s : option string) : bool :=
  match s with
  | Some EmptyString | None => false
  | Some _ => true
  end.

(** A time value that [new Date(ms)] accepts; beyond the range the
    date is invalid. *)
Definition timeClip (ms : Z) : option Z :=
  if (Z.abs ms <=? 8640000000000000)%Z then Some ms else None.

Section Browser.

(** [parseInt]: [None] is [NaN]. *)
Variable parseInt : string -> option Z.
(** The time value of [new Date(s)]: [None] is an invalid date. *)
Variable parseDate : string -> option Z.
(** The local calendar day of a time value: two valid dates have the
    same [toDateString()] exactly when their days are equal, and
    [setDate(getDate() - i)] moves [i] days back. *)
Variable dayOf : Z -> Z.
(** [toLocaleDateString('en-US', {month: 'short', day: 'numeric'})]
    of a day. *)
Variable dayLabel : Z -> string.

(** [filteredReports]; [now] is the clock as the memo reads it. *)
Definition filteredReports (now : Z) (reports : list Report) (filters : Filters.t)
  : list Report :=
  let startDate :=
    match parseInt (Filters.dateRange filters) with
    | Some daysBack => timeClip (now - daysBack * 24 * 60 * 60 * 1000)
    | None => None
    end in
  let filtered :=
    List.filter (fun report =>
                   match parseDate (createdAt report), startDate with
                   | Some t, Some s => (s <=? t)%Z
                   | _, _ => false
                   end) reports in
  let filtered :=
    if negb (String.eqb (Filters.category filters) "all")
    then List.filter (fun report => String.eqb (category report) (Filters.category filters))
                     filtered
    else filtered in
  let filtered :=
    if truthy (Filters.status filters) &&
       negb (String.eqb (default EmptyString (Filters.status filters)) "all")
    then List.filter (fun report =>
                        String.eqb (statusName (status report))
                                   (default EmptyString (Filters.status filters))) filtered
    else filtered in
  if truthy (Filters.priority filters) &&
     negb (String.eqb (default EmptyString (Filters.priority filters)) "all")
  then List.filter (fun report =>
                      String.eqb (priorityName (priority report))
                                 (default EmptyString (Filters.priority filters))) filtered
  else filtered.

(** The start of the date range, [startDate], as an evaluation at
    [now] computes it; [None] is an invalid date. *)
Definition startDate (now : Z) (filters : Filters.t) : option Z :=
  match parseInt (Filters.dateRange filters) with
  | Some daysBack => timeClip (now - daysBack * 24 * 60 * 60 * 1000)
  | None => None
  end.

(** The test of the date range filter,
    [new Date(report.createdAt) >= startDate]. *)
Definition createdSince (start : option Z) (report : Report) : bool :=
  match parseDate (createdAt report), start with
  | Some t, Some s => (s <=? t)%Z
  | _, _ => false
  end.

Definition onDay (day : Z) (report : Report) : bool :=
  match parseDate (createdAt report) with
  | Some t => (dayOf t =? day)%Z
  | None => false
  end.

(** The loop [for (let i = 6; i >= 0; i--)]; [clock i] is what
    [new Date()] reads in the iteration for [i]. *)
Definition trendsData (clock : nat -> Z) (filtered : list Report) : list TrendPoint :=
  map (fun i =>
         let day := (dayOf (clock i) - Z.of_nat i)%Z in
         {| date := dayLabel day;
            count := Z.of_nat (length (List.filter (onDay day) filtered)) |})
      [6; 5; 4; 3; 2; 1; 0]%nat.

Definition chartOf (counts : list (string * Z)) (color : nat -> string -> option string)
  : ChartData :=
  {| labels := map fst counts;
     values := map snd counts;
     colors := imap (fun index key => color index key) (map fst counts) |}.

(** [analyticsData] *)
Definition analyticsData (clock : nat -> Z) (filtered : list Report) : Data.t :=
  let categoryData := countBy category filtered in
  let priorityData := countBy (fun r => priorityName (priority r)) filtered in
  let statusData := countBy (fun r => statusName (status r)) filtered in
  let locationData :=
    countBy (fun r => city (location r) ++ ", " ++ state (location r)) filtered in
  {| Data.category :=
       chartOf categoryData
               (fun index _ => nth_error CHART_COLORS (index mod length CHART_COLORS));
     Data.priority := chartOf priorityData (fun _ key => lookup key PRIORITY_COLORS);
     Data.status := chartOf statusData (fun _ key => lookup key STATUS_COLORS);
     Data.location :=
       {| labels := map fst locationData; values := map snd locationData; colors := [] |};
     Data.trends := trendsData clock filtered |}.

(** The first KPI, "Total Reports". *)
Definition totalReports (filtered : list Report) : Z := Z.of_nat (length filtered).

(** One evaluation of the aggregation: the filter memo reads the
    clock once, the trend loop once per iteration. *)
Definition aggregate (now : Z) (clock : nat -> Z) (reports : list Report)
           (filters : Filters.t) : Z * Data.t :=
  let filtered := filteredReports now reports filters in
  (totalReports filtered, analyticsData clock filtered).

End Browser.

(** *** Key figures *)

Inductive Trend : Type := up | down | stable.

(** The [value] of a key figure: a number, or a formatted text. *)
Inductive KPIValue : Type :=
| Figure (n : Z)
| Text (s : string).

Record KPIMetric : Type := {
  label : string;
  value : KPIValue;
  change : Q;
  trend : Trend
}.

Definition countWhere (test : Report -> bool) (reports : list Report) : Z :=
  Z.of_nat (length (List.filter test reports)).

Definition isOpen (r : Report) : bool :=
  match status r with Open => true | _ => false end.
Definition isResolved (r : Report) : bool :=
  match status r with Resolved => true | _ => false end.
Definition isCritical (r : Report) : bool :=
  match priority r with Critical => true | _ => false end.

(** [Math.round((resolvedReports / totalReports) * 100)], or 0 when
    there is no report; the quotient is taken in real arithmetic (the
    code rounds the double, which can differ by one at a tie). *)
Definition resolutionRate (filtered : list Report) : Z :=
  if (0 <? totalReports filtered)%Z
  then JS.round (inject_Z (countWhere isResolved filtered)
                 / inject_Z (totalReports filtered) * 100)
  else 0%Z.

Definition trendOf (change : Q) : Trend :=
  if Classifier.Qltb 0 change then up
  else if Classifier.Qltb change 0 then down
  else stable.

Section Kpi.

Variable parseInt : string -> option Z.
Variable parseDate : string -> option Z.
(** [daysBefore now n]: the time value of [new Date()] read at [now]
    after [setDate(getDate() - n)]; [None] is an invalid date. *)
Variable daysBefore : Z -> Z -> option Z.

(** The reports of the period before the current one. *)
Definition prevPeriodReports (now1 now2 : Z) (reports : list Report)
           (filters : Filters.t) : list Report :=
  let periodDays := parseInt (Filters.dateRange filters) in
  let prevPeriodStart :=
    match periodDays with
    | Some n => daysBefore now1 (n * 2)
    | None => None
    end in
  let prevPeriodEnd :=
    match periodDays with
    | Some n => daysBefore now2 n
    | None => None
    end in
  List.filter (fun report =>
                 match parseDate (createdAt report), prevPeriodStart, prevPeriodEnd with
                 | Some t, Some a, Some b => (a <=? t)%Z && (t <=? b)%Z
                 | _, _, _ => false
                 end) reports.

(** [kpiMetrics] (the icons left out); [now1] and [now2] are the two
    clock readings of the memo. *)
Definition kpiMetrics (now1 now2 : Z) (filtered reports : list Report)
           (filters : Filters.t) : list KPIMetric :=
  let total := totalReports filtered in
  let previous := Z.of_nat (length (prevPeriodReports now1 now2 reports filters)) in
  let totalChange : Q :=
    if (previous =? 0)%Z then 0%Q
    else ((inject_Z (total - previous) / inject_Z previous) * 100)%Q in
  [ {| label := "Total Reports"; value := Figure total;
       change := totalChange; trend := trendOf totalChange |};
    {| label := "Open Reports"; value := Figure (countWhere isOpen filtered);
       change := 0; trend := stable |};
    {| label := "Resolution Rate";
       value := Text (JS.showZ (resolutionRate filtered) ++ "%");
       change := 0; trend := stable |};
    {| label := "Critical Issues"; value := Figure (countWhere isCritical filtered);
       change := 0; trend := stable |} ].

End Kpi.

(** *** Fallback charts *)

(** [Math.max(...values)]; without an argument the result is
    [-Infinity]. *)
Definition maxValue (values : list Z) : JS.number :=
  fold_left (fun m value => JS.max m (JS.Fin (inject_Z value))) values JS.NegInf.

(** The heights, in per cent, of the bars of [FallbackBarChart]:
    [(value / maxValue) * 100], in real arithmetic (the code computes
    them in doubles). *)
Definition fallbackBarHeights (data : ChartData) : list JS.number :=
  map (fun value =>
         JS.mul (JS.div (JS.Fin (inject_Z value)) (maxValue (values data))) (JS.Fin 100))
      (values data).

(** The percentages of the "Category Details" card, one per label, in
    real arithmetic (the code computes them in doubles);
    [values[index]] of a missing index is [undefined], which makes the
    percentage [NaN]. *)
Definition categoryPercentages (data : ChartData) : list JS.number :=
  let sum := fold_left (fun sum val => sum + val)%Z (values data) 0%Z in
  imap (fun index _ =>
          if (0 <? sum)%Z
          then JS.mul (JS.div (match values data !! index with
                               | Some value => JS.Fin (inject_Z value)
                               | None => JS.NaN
                               end)
                              (JS.Fin (inject_Z sum)))
                      (JS.Fin 100)
          else JS.Fin 0)
       (labels data).

End Analytics.

(** ** The report form *)

Module ReportForm.

(** One candidate of the geocoding service. *)
Module LocationResult.
Record t : Type := {
  display_name : string;
  lat : string;
  lon : string;
  place_id : Z
}.
End LocationResult.

Record GeocodedLocation : Type := {
  lat : JS.number;
  lon : JS.number;
  name : string
}.

(** What one [fetch] of the geocoding endpoint comes to: the request
    rejects, the status is not ok, the body is not JSON, or a list of
    candidates arrives. *)
Inductive Response : Type :=
| NetworkError
| HttpError
| BadBody
| Ok (data : list LocationResult.t).

Definition keralaNames : list string :=
  ["kerala"; "kochi"; "thiruvananthapuram"; "kozhikode"; "kollam"; "thrissur";
   "palakkad"; "malappuram"; "kannur"; "kasaragod"; "pathanamthitta"; "alappuzha";
   "kottayam"; "idukki"; "ernakulam"; "wayanad"].

Definition namesKerala (result : LocationResult.t) : bool :=
  let displayName := JS.toLowerCase (LocationResult.display_name result) in
  existsb (fun place => JS.includes place displayName) keralaNames.

(** [lat >= 8.2 && lat <= 12.5 && lon >= 74.8 && lon <= 77.5] *)
Definition withinKeralaBounds (lat lon : JS.number) : bool :=
  JS.ge lat (JS.Fin 8.2) && JS.le lat (JS.Fin 12.5) &&
  JS.ge lon (JS.Fin 74.8) && JS.le lon (JS.Fin 77.5).

(** A pinned place, if any, lies inside the box. *)
Definition placed (g : option GeocodedLocation) : Prop :=
  match g with
  | Some place => withinKeralaBounds (lat place) (lon place) = true
  | None => True
  end.

Record FormState : Type := {
  location : string;
  description : string;
  category : string;
  image : option Report.File;
  geocodedLocation : option GeocodedLocation;
  isSubmitting : bool;
  errors : gmap string string
}.

Definition initial : FormState :=
  {| location := EmptyString; description := EmptyString; category := EmptyString; image := None;
     geocodedLocation := None; isSubmitting := false; errors := ∅ |}.

Definition setErrors (e : gmap string string) (st : FormState) : FormState :=
  {| location := location st; description := description st; category := category st;
     image := image st; geocodedLocation := geocodedLocation st;
     isSubmitting := isSubmitting st; errors := e |}.

Definition handleLocationInput (value : string) (st : FormState) : FormState :=
  {| location := value; description := description st; category := category st;
     image := image st; geocodedLocation := None;
     isSubmitting := isSubmitting st; errors := <["location" := EmptyString]> (errors st) |}.

Definition handleDescriptionInput (value : string) (st : FormState) : FormState :=
  {| location := location st; description := value; category := category st;
     image := image st; geocodedLocation := geocodedLocation st;
     isSubmitting := isSubmitting st; errors := <["description" := EmptyString]> (errors st) |}.

Definition handleCategoryChange (value : string) (st : FormState) : FormState :=
  {| location := location st; description := description st; category := value;
     image := image st; geocodedLocation := geocodedLocation st;
     isSubmitting := isSubmitting st; errors := <["category" := EmptyString]> (errors st) |}.

Definition handleImageUpload (file : Report.File) (st : FormState) : FormState :=
  let cleared := <["image" := EmptyString]> (errors st) in
  if (10 * 1024 * 1024 <? Report.fileSize file)%Z then
    setErrors (<["image" := "Image must be smaller than 10MB"]> cleared) st
  else if negb (String.prefix "image/" (Report.fileType file)) then
    setErrors (<["image" := "Please upload an image file"]> cleared) st
  else
    {| location := location st; description := description st; category := category st;
       image := Some file; geocodedLocation := geocodedLocation st;
       isSubmitting := isSubmitting st; errors := cleared |}.

Definition removeImage (st : FormState) : FormState :=
  {| location := location st; description := description st; category := category st;
     image := None; geocodedLocation := geocodedLocation st;
     isSubmitting := isSubmitting st; errors := errors st |}.

Definition isEmpty (s : string) : bool :=
  match s with
  | EmptyString => true
  | _ => false
  end.

(** The object [newErrors] of [validateForm]. *)
Definition validateForm (st : FormState) : gmap string string :=
  let e1 : gmap string string :=
    if isEmpty (JS.trim (location st)) then {["location" := "Location is required"]} else ∅ in
  let e2 :=
    if isEmpty (JS.trim (description st))
    then <["description" := "Description is required"]> e1
    else if (String.length (JS.trim (description st)) <? 10)%nat
         then <["description" := "Description must be at least 10 characters"]> e1
         else e1 in
  if isEmpty (category st) then <["category" := "Category is required"]> e2 else e2.

Section Browser.

(** [parseFloat] *)
Variable parseFloat : string -> JS.number.

(** The loop over [searchQueries] inside the [try]. *)
Fixpoint search (fetch : string -> Response) (searchQueries : list string)
  : option GeocodedLocation :=
  match searchQueries with
  | [] => None
  | searchQuery :: rest =>
      match fetch searchQuery with
      | NetworkError | BadBody => None
      | HttpError => search fetch rest
      | Ok data =>
          match List.filter namesKerala data with
          | [] => search fetch rest
          | best :: _ =>
              let lat := parseFloat (LocationResult.lat best) in
              let lon := parseFloat (LocationResult.lon best) in
              if withinKeralaBounds lat lon
              then Some {| lat := lat; lon := lon;
                           name := LocationResult.display_name best |}
              else search fetch rest
          end
      end
  end.

(** [findBestLocationInKerala]; [fetch q] is the response to the
    request for the search text [q]. *)
Definition findBestLocationInKerala (fetch : string -> Response) (query : string)
  : option GeocodedLocation :=
  if (String.length query <? 2)%nat then None
  else search fetch [query ++ ", Kerala, India"; query ++ " Kerala"; query ++ ", India"].

Definition doubleQuote : string := String (ascii_of_nat 34) EmptyString.

Definition notFoundMessage (place : string) : string :=
  "Could not find " ++ doubleQuote ++ place ++ doubleQuote
  ++ " in Kerala. Please check the spelling or try a nearby landmark.".

(** The tail of [handleSubmit] once [coordinates] is set: the
    simulated delay, the [onSubmit] call and the reset of the form,
    or the [catch] when the callback throws. *)
Definition submitWith (onSubmitThrows : bool) (st : FormState)
           (pending : gmap string string) (place : GeocodedLocation)
           (finalLocationName : string) : FormState * option Report.NewReport :=
  let formData :=
    {| Report.location := finalLocationName;
       Report.coordinates := Some {| Report.lat := lat place; Report.lon := lon place |};
       Report.description := JS.trim (description st);
       Report.category := category st;
       Report.image := image st |} in
  if onSubmitThrows then
    ({| location := location st; description := description st;
        category := category st; image := image st;
        geocodedLocation := Some place; isSubmitting := false;
        errors := <["submit" := "Failed to submit report. Please try again."]> pending |},
     Some formData)
  else (initial, Some formData).

(** [handleSubmit]: the state once the handler is over, and the
    argument of the [onSubmit] call if the handler made one. *)
Definition handleSubmit (fetch : string -> Response) (onSubmitThrows : bool)
           (st : FormState) : FormState * option Report.NewReport :=
  let newErrors := validateForm st in
  if negb (size newErrors =? 0)%nat then (setErrors newErrors st, None)
  else
    match geocodedLocation st with
    | Some place =>
        submitWith onSubmitThrows st ∅ place
                   (if isEmpty (name place) then JS.trim (location st) else name place)
    | None =>
        if isEmpty (JS.trim (location st)) then
          ({| location := location st; description := description st;
              category := category st; image := image st;
              geocodedLocation := None; isSubmitting := false;
              errors :=
                {["location" :=
                    "Unable to determine location coordinates. Please try a different location name."]} |},
           None)
        else
          let finding : gmap string string :=
            {["submit" := "Finding location coordinates..."]} in
          match findBestLocationInKerala fetch (JS.trim (location st)) with
          | Some foundLocation =>
              submitWith onSubmitThrows st finding foundLocation (name foundLocation)
          | None =>
              ({| location := location st; description := description st;
                  category := category st; image := image st;
                  geocodedLocation := None; isSubmitting := false;
                  errors :=
                    <["location" := notFoundMessage (JS.trim (location st))]> finding |},
               None)
          end
    end.

(** What the user can do with the form. *)
Inductive Event : Type :=
| LocationInput (value : string)
| DescriptionInput (value : string)
| CategoryChange (value : string)
| ImageUpload (file : Report.File)
| RemoveImage
| Submit (fetch : string -> Response) (onSubmitThrows : bool).

Definition step (st : FormState) (ev : Event) : FormState * option Report.NewReport :=
  match ev with
  | LocationInput value => (handleLocationInput value st, None)
  | DescriptionInput value => (handleDescriptionInput value st, None)
  | CategoryChange value => (handleCategoryChange value st, None)
  | ImageUpload file => (handleImageUpload file st, None)
  | RemoveImage => (removeImage st, None)
  | Submit fetch onSubmitThrows => handleSubmit fetch onSubmitThrows st
  end.

(** The states the form can be in, starting from the empty form. *)
Inductive reachable : FormState -> Prop :=
| reachable_initial : reachable initial
| reachable_step st ev : reachable st -> reachable (fst (step st ev)).

Definition run (st : FormState) (evs : list Event) : FormState :=
  fold_left (fun s ev => fst (step s ev)) evs st.

End Browser.


(** The test of [keralaResults] on a display name. *)
Definition mentionsKerala (displayName : string) : bool :=
  existsb (fun place => JS.includes place (JS.toLowerCase displayName)) keralaNames.

(** An image the upload handler accepts: at most 10 MB, of an image
    type. *)
Definition acceptableImage (file : Report.File) : bool :=
  (Report.fileSize file <=? 10 * 1024 * 1024)%Z &&
  String.prefix "image/" (Report.fileType file).

(** What holds of the form in every state it can reach: a pinned place
    lies in the box and its name mentions Kerala or one of its
    districts; an attached image was accepted by the upload handler. *)
Definition formInvariant (st : FormState) : Prop :=
  match geocodedLocation st with
  | Some place => withinKeralaBounds (lat place) (lon place) = true /\
                  mentionsKerala (name place) = true
  | None => True
  end /\
  match image st with
  | Some file => acceptableImage file = true
  | None => True
  end.

End ReportForm.

(** ** The home page *)

Module Home.

Record Report : Type := {
  id : string;
  location : string;
  coordinates : option Report.Coordinates;
  description : string;
  category : string;
  image : option Report.File;
  timestamp : Z
}.

Record State : Type := {
  reports : list Report;
  newReports : list Report.NewReport;
  categoryData : CategoryChart.CategoryData
}.

Definition initial : State :=
  {| reports := []; newReports := [];
     categoryData :=
       [("Safety Issue", 0%Z); ("Infrastructure", 0%Z); ("Environmental", 0%Z);
        ("Traffic", 0%Z); ("Other", 0%Z)] |}.

(** [handleReportSubmit]; [now] is [Date.now()] and [stamp] the time
    value of [new Date()].  The update of [categoryData],
    [{...prev, [c]: (prev[c] || 0) + 1}], is the keyed increment
    [Analytics.bump]. *)
Definition handleReportSubmit (now stamp : Z) (reportData : Report.NewReport)
           (st : State) : State :=
  let newReport :=
    {| id := JS.showZ now;
       location := Report.location reportData;
       coordinates := Report.coordinates reportData;
       description := Report.description reportData;
       category := Report.category reportData;
       image := Report.image reportData;
       timestamp := stamp |} in
  {| reports := reports st ++ [newReport];
     newReports := newReports st ++ [reportData];
     categoryData := Analytics.bump (Report.category reportData) (categoryData st) |}.


(** [reports.slice(-3).reverse()] *)
Definition recentReports (rs : list Report) : list Report :=
  rev (skipn (length rs - 3) rs).

(** The two texts of a card of the "Recent Reports" list. *)
Definition cardTexts (r : Report) : string * string :=
  (JS.ellipsis 50 (description r), JS.ellipsis 40 (location r)).


End Home.

(** * Properties *)

(** ** Classifier *)

(** The three tests that select the path through [handleClassify]. *)
Ltac classify_paths st random :=
  destruct (Classifier.isOnline st), (Classifier.useOfflineFallback st),
           (Classifier.Qltb random 0.3).

Section ClassifierFacts.

Import Classifier.

Lemma offlineClassification_table (text : string) :
  offlineClassification text
  = classifyInOrder offlineRule offlineOrder offlineDefault (offlineNormalize text).
Proof. reflexivity. Qed.

Lemma mockClassification_table (text : string) :
  mockClassification text
  = classifyInOrder onlineRule onlineOrder onlineDefault (onlineNormalize text).
Proof. reflexivity. Qed.

Lemma firstMatch_earliest (rules : list Rule) (dflt : ClassificationResult) (s : string) :
  forall (i : nat) (r : Rule),
    rules !! i = Some r ->
    matches r s = true ->
    (forall j r', (j < i)%nat -> rules !! j = Some r' -> matches r' s = false) ->
    firstMatch rules dflt s = outcome r.
Proof.
  induction rules as [|r0 rest IH]; intros i r Hi Hm Hbefore.
  - destruct i; discriminate Hi.
  - destruct i as [|i]; simpl in *.
    + injection Hi as ->. now rewrite Hm.
    + rewrite (Hbefore 0%nat r0) by (try lia; reflexivity).
      apply (IH i r Hi Hm).
      intros j r' Hj Hr'. apply (Hbefore (S j) r'); [lia | exact Hr'].
Qed.

Lemma firstMatch_default (rules : list Rule) (dflt : ClassificationResult) (s : string) :
  (forall r, In r rules -> matches r s = false) ->
  firstMatch rules dflt s = dflt.
Proof.
  induction rules as [|r0 rest IH]; intros Hnone; simpl.
  - reflexivity.
  - rewrite (Hnone r0) by (left; reflexivity).
    apply IH. intros r Hr. apply Hnone. right; exact Hr.
Qed.

Lemma every_kind_listed (table : RuleKind -> Rule) (order : list RuleKind) (r : Rule) :
  In r (map table order) -> exists k, r = table k.
Proof.
  intros Hin. apply in_map_iff in Hin as [k [<- _]]. now exists k.
Qed.

Lemma matchHere_mono (w : string) (ws : list string) (prev : option ascii) (s : string) :
  In w ws -> JS.matchHere [w] prev s = true -> JS.matchHere ws prev s = true.
Proof.
  unfold JS.matchHere. intros Hin H.
  apply andb_true_iff in H as [Hb H]. rewrite Hb. simpl in *.
  rewrite orb_false_r in H.
  apply existsb_exists. exists w. split; assumption.
Qed.

Lemma matchFrom_mono (w : string) (ws : list string) (s : string) :
  In w ws ->
  forall prev, JS.matchFrom [w] prev s = true -> JS.matchFrom ws prev s = true.
Proof.
  intros Hin. induction s as [|c s IH]; intros prev H; simpl in *.
  - rewrite orb_false_r in *. now apply (matchHere_mono w).
  - apply orb_true_iff in H as [H|H]; apply orb_true_iff.
    + left. now apply (matchHere_mono w).
    + right. now apply IH.
Qed.

(** A text in which the word "danger" occurs is a safety issue for the
    offline table, whatever else occurs in it. *)
Lemma danger_is_safety (text : string) :
  JS.matchWords ["danger"] (offlineNormalize text) = true ->
  offlineClassification text = offlineSafety.
Proof.
  intros H. unfold offlineClassification. fold (offlineNormalize text).
  unfold JS.matchWords in *.
  rewrite (matchFrom_mono "danger" safetyWords _ (or_introl eq_refl) None H).
  reflexivity.
Qed.

Lemma offline_result_is_flagged (text : string) :
  isOfflineFallback (offlineClassification text) = Some true.
Proof.
  unfold offlineClassification.
  repeat match goal with |- context [if ?b then _ else _] => destruct b end;
    reflexivity.
Qed.

Lemma classified_result (st : AssistantState) (random : Q) :
  isBlank (inputText st) = false ->
  result (classified st random) = Some (classify (tableUsed st random) (inputText st)).
Proof.
  intros Hblank. unfold classified, handleClassify, tableUsed. rewrite Hblank.
  classify_paths st random; reflexivity.
Qed.

End ClassifierFacts.

Section ClassifierClaims.

Import Classifier.

(** C3. First-match policy of the offline classifier: when the rule
    at position [i] of the offline table matches the normalized text
    and no rule listed before it does, [offlineClassification] returns
    the result of that rule (so its category), however many later
    rules match as well. *)
Theorem classifier_first_match (text : string) (i : nat) (r : Rule) :
  map offlineRule offlineOrder !! i = Some r ->
  matches r (offlineNormalize text) = true ->
  (forall j r', (j < i)%nat -> map offlineRule offlineOrder !! j = Some r' ->
                matches r' (offlineNormalize text) = false) ->
  offlineClassification text = outcome r.
Proof.
  intros Hi Hm Hbefore.
  rewrite offlineClassification_table. unfold classifyInOrder.
  now apply (firstMatch_earliest _ _ _ i r).
Qed.

(** A text with both "danger" and "pothole": the safety rule (position
    0) and the infrastructure rule (position 1) match, and the result
    is Safety Issue. *)
Lemma classifier_first_match_witness :
  matches (offlineRule Infrastructure)
          (offlineNormalize "Danger: a deep pothole near the school") = true /\
  matches (offlineRule Safety)
          (offlineNormalize "Danger: a deep pothole near the school") = true /\
  offlineClassification "Danger: a deep pothole near the school" = outcome (offlineRule Safety) /\
  category (outcome (offlineRule Safety)) = "Safety Issue".
Proof.
  split; [vm_compute; reflexivity|].
  split; [vm_compute; reflexivity|].
  split; [|reflexivity].
  apply (classifier_first_match "Danger: a deep pothole near the school" 0 (offlineRule Safety)).
  - reflexivity.
  - vm_compute; reflexivity.
  - intros j r' Hj. lia.
Defined.

(** C4, as stated, fails for the online table: evaluated in the order
    the specification lists, the online rules would call "urgent
    danger" a Safety Issue, while the code answers High Priority. *)
Lemma online_table_not_in_spec_order :
  ~ (forall text : string,
        mockClassification text
        = classifyInOrder onlineRule specOrder onlineDefault (onlineNormalize text)).
Proof.
  intros H. specialize (H "urgent danger").
  vm_compute in H. discriminate H.
Qed.

(** C4, amended.  Each table is evaluated first-match in an order of
    its own: the offline table in the order safety, infrastructure,
    environmental, traffic, urgency, question, positive feedback,
    issue, suggestion; the online table in the order urgency, safety,
    traffic, environmental, infrastructure, question, positive
    feedback, issue, suggestion; each ends in its default result. *)
Theorem tables_first_match_in_own_order (text : string) :
  offlineClassification text
  = classifyInOrder offlineRule
      [Safety; Infrastructure; Environmental; Traffic; Urgency;
       Question; Positive; Issue; Suggestion]
      offlineDefault (offlineNormalize text)
  /\
  mockClassification text
  = classifyInOrder onlineRule
      [Urgency; Safety; Traffic; Environmental; Infrastructure;
       Question; Positive; Issue; Suggestion]
      onlineDefault (onlineNormalize text).
Proof.
  split.
  - apply offlineClassification_table.
  - apply mockClassification_table.
Qed.

(** C5, as stated, fails on the online path: no online predicate
    matches "xyz123 lorem ipsum", and when the simulated call goes
    through (here [Math.random()] gives 0.5) the result shown has
    category Other, confidence 0.8 and no fallback flag. *)
Lemma online_default_is_not_the_offline_default :
  let st := {| inputText := "xyz123 lorem ipsum"; isLoading := false;
               result := None; error := None; isOnline := true;
               useOfflineFallback := false |} in
  noRuleMatches OnlineSimulated "xyz123 lorem ipsum" /\
  result (classified st 0.5) = Some (classify OnlineSimulated "xyz123 lorem ipsum") /\
  category (classify OnlineSimulated "xyz123 lorem ipsum") = "Other" /\
  ~ (confidence (classify OnlineSimulated "xyz123 lorem ipsum") == 0.60)%Q /\
  isOfflineFallback (classify OnlineSimulated "xyz123 lorem ipsum") <> Some true.
Proof.
  intros st.
  split; [intros k; destruct k; vm_compute; reflexivity|].
  split; [vm_compute; reflexivity|].
  split; [vm_compute; reflexivity|].
  split; [vm_compute; discriminate|].
  vm_compute; discriminate.
Qed.

(** C5, amended.  A text that matches no predicate of the table in use
    gets that table's default: from the offline table category Other,
    confidence 0.60 and the fallback flag set; from the online table
    category Other, confidence 0.8, an empty rationale and no fallback
    flag. *)
Theorem classifier_default (t : Table) (text : string) :
  noRuleMatches t text ->
  classify t text
  = match t with
    | Offline =>
        {| category := "Other"; confidence := 0.60;
           reasoning := "Unable to determine specific category. Content may require manual review.";
           isOfflineFallback := Some true |}
    | OnlineSimulated =>
        {| category := "Other"; confidence := 0.8;
           reasoning := EmptyString; isOfflineFallback := None |}
    end.
Proof.
  intros Hnone. destruct t; simpl.
  - rewrite offlineClassification_table. unfold classifyInOrder.
    rewrite firstMatch_default; [reflexivity|].
    intros r Hr. apply every_kind_listed in Hr as [k ->]. apply (Hnone k).
  - rewrite mockClassification_table. unfold classifyInOrder.
    rewrite firstMatch_default; [reflexivity|].
    intros r Hr. apply every_kind_listed in Hr as [k ->]. apply (Hnone k).
Qed.

Lemma classifier_default_witness :
  noRuleMatches Offline "xyz123 lorem ipsum" /\
  classify Offline "xyz123 lorem ipsum"
  = {| category := "Other"; confidence := 0.60;
       reasoning := "Unable to determine specific category. Content may require manual review.";
       isOfflineFallback := Some true |}.
Proof.
  assert (Hnone : noRuleMatches Offline "xyz123 lorem ipsum")
    by (intros k; destruct k; vm_compute; reflexivity).
  split; [exact Hnone|].
  exact (classifier_default Offline "xyz123 lorem ipsum" Hnone).
Defined.

(** C6.  A classify invocation on a non-blank text never ends in an
    error: once its timers are over the error message is cleared, the
    spinner is off and a result is set.  When the simulated online call
    is rejected ([Math.random() < 0.3] with the assistant online and
    not in fallback mode), that result is the one of the offline
    table. *)
Theorem synthetic_failure_falls_back (st : AssistantState) (random : Q) :
  isBlank (inputText st) = false ->
  error (classified st random) = None /\
  isLoading (classified st random) = false /\
  (exists r, result (classified st random) = Some r) /\
  (isOnline st = true -> useOfflineFallback st = false -> Qltb random 0.3 = true ->
   result (classified st random) = Some (offlineClassification (inputText st)) /\
   isOfflineFallback (offlineClassification (inputText st)) = Some true /\
   In (SetError (Some "AI service unavailable. Using offline classification..."))
      (handleClassify st random)).
Proof.
  intros Hblank. unfold classified, handleClassify. rewrite Hblank.
  split; [|split; [|split]].
  - classify_paths st random; reflexivity.
  - classify_paths st random; reflexivity.
  - classify_paths st random; simpl; eexists; reflexivity.
  - intros Honline Hmode Hreject. rewrite Honline, Hmode, Hreject.
    split; [reflexivity|]. split; [apply offline_result_is_flagged|].
    simpl. tauto.
Qed.

Lemma synthetic_failure_falls_back_witness :
  let st := {| inputText := "streetlight out since monday"; isLoading := false;
               result := None; error := None; isOnline := true;
               useOfflineFallback := false |} in
  isBlank (inputText st) = false /\
  Qltb 0.1 0.3 = true /\
  error (classified st 0.1) = None /\
  result (classified st 0.1) = Some (offlineClassification (inputText st)).
Proof.
  intros st.
  split; [vm_compute; reflexivity|].
  split; [vm_compute; reflexivity|].
  destruct (synthetic_failure_falls_back st 0.1) as (He & _ & _ & Hf);
    [vm_compute; reflexivity|].
  split; [exact He|].
  destruct Hf as (Hr & _); [reflexivity | reflexivity | vm_compute; reflexivity |].
  exact Hr.
Defined.

End ClassifierClaims.

(** ** Map view: normalizer, snapshot, selector *)

Section MapFacts.

Import CivicMap.

Lemma filterNotNull_In {A : Type} (l : list (option A)) (a : A) :
  In a (filterNotNull l) <-> In (Some a) l.
Proof.
  induction l as [|[x|] l IH]; simpl.
  - tauto.
  - rewrite IH. split; intros [H|H]; auto.
    + left. now f_equal.
    + left. now injection H.
  - rewrite IH. split; [auto|]. intros [H|H]; [discriminate H | exact H].
Qed.

Lemma filterNotNull_concat {A : Type} (l : list (option A)) :
  filterNotNull l = concat (map option_list l).
Proof.
  induction l as [|[x|] l IH]; simpl; [reflexivity | now f_equal | exact IH].
Qed.

Lemma map_imap {A B C : Type} (g : B -> C) (l : list A) :
  forall f : nat -> A -> B,
    map g (imap f l) = imap (fun index a => g (f index a)) l.
Proof.
  induction l as [|a l IH]; intros f; simpl; [reflexivity|].
  f_equal. apply IH.
Qed.

Lemma length_filterNotNull_imap {A B : Type} (keep : A -> bool) (l : list A) :
  forall f : nat -> A -> option B,
    (forall i a, f i a = None <-> keep a = false) ->
    length (filterNotNull (imap f l)) = length (List.filter keep l).
Proof.
  induction l as [|a l IH]; intros f Hf; simpl; [reflexivity|].
  destruct (f 0%nat a) as [b|] eqn:E.
  - destruct (keep a) eqn:K.
    + simpl. f_equal. apply IH. intros i x. apply Hf.
    + apply (proj2 (Hf 0%nat a)) in K. congruence.
  - apply (proj1 (Hf 0%nat a)) in E. rewrite E. apply IH. intros i x. apply Hf.
Qed.

Lemma convert_none_iff (clock : Clock) (report : Report.NewReport) (index : nat) :
  convertReportToMarker clock report index = None <-> hasCoordinates report = false.
Proof.
  unfold convertReportToMarker, hasCoordinates.
  destruct (Report.coordinates report); split; intros H; congruence.
Qed.

End MapFacts.

Section MapClaims.

Import CivicMap.

(** C2.  The report normalizer yields one marker for every report
    that carries coordinates and none for a report without: the
    marker list is the concatenation, in order, of what each report
    contributes by itself (its marker, or nothing); so it has as many
    markers as there are reports with coordinates, the marker of every
    such report is in it with the coordinates of the report, and every
    marker in it comes from such a report.  The conversion is total: a
    report without coordinates changes nothing for the others. *)
Theorem normalizer_one_marker_per_located_report
        (clocks : nat -> Clock) (newReports : list Report.NewReport) :
  newMarkers clocks newReports
  = concat (imap (fun index report =>
                    option_list (convertReportToMarker (clocks index) report index))
                 newReports)
  /\ length (newMarkers clocks newReports) = length (List.filter hasCoordinates newReports)
  /\ (forall index report,
         newReports !! index = Some report ->
         match Report.coordinates report with
         | Some c =>
             exists m, convertReportToMarker (clocks index) report index = Some m /\
                       In m (newMarkers clocks newReports) /\
                       lat m = Report.lat c /\ lng m = Report.lon c
         | None => convertReportToMarker (clocks index) report index = None
         end)
  /\ (forall m, In m (newMarkers clocks newReports) ->
                exists index report,
                  newReports !! index = Some report /\
                  hasCoordinates report = true /\
                  convertReportToMarker (clocks index) report index = Some m)
  /\ allMarkers clocks newReports = (sampleMarkers ++ newMarkers clocks newReports)%list.
Proof.
  unfold newMarkers. repeat split.
  - rewrite filterNotNull_concat. f_equal. apply map_imap.
  - apply length_filterNotNull_imap. intros i a. apply convert_none_iff.
  - intros index report Hlook.
    destruct (Report.coordinates report) as [c|] eqn:Ec.
    + unfold convertReportToMarker at 1. rewrite Ec. eexists. split; [reflexivity|].
      split; [|split; reflexivity].
      apply filterNotNull_In. apply list_elem_of_In.
      apply elem_of_lookup_imap. exists index, report. split; [|exact Hlook].
      unfold convertReportToMarker. now rewrite Ec.
    + unfold convertReportToMarker. now rewrite Ec.
  - intros m Hm. apply filterNotNull_In in Hm. apply list_elem_of_In in Hm.
    apply elem_of_lookup_imap in Hm as (index & report & Heq & Hlook).
    exists index, report. split; [exact Hlook|]. split; [|now symmetry].
    destruct (hasCoordinates report) eqn:Hc; [reflexivity|].
    apply (proj2 (convert_none_iff (clocks index) report index)) in Hc.
    rewrite Hc in Heq. discriminate Heq.
  - unfold allMarkers, newMarkers. destruct newReports; [|reflexivity].
    symmetry. apply app_nil_r.
Qed.

(** A batch of three reports, the second without coordinates: two
    markers, numbered 0 and 2. *)
Example normalizer_batch_of_three :
  let located := {| Report.location := "Kochi";
                    Report.coordinates :=
                      Some {| Report.lat := JS.Fin 9.9312; Report.lon := JS.Fin 76.2673 |};
                    Report.description := "Signal not working at the junction";
                    Report.category := "Traffic"; Report.image := None |} in
  let unlocated := {| Report.location := "somewhere";
                      Report.coordinates := None;
                      Report.description := "Garbage not collected";
                      Report.category := "Environmental"; Report.image := None |} in
  let clocks := fun _ : nat => {| now := 1705312800000; isoDate := "2024-01-15" |} in
  map (fun m => (id m, type m)) (newMarkers clocks [located; unlocated; located])
  = [("report_1705312800000_0", traffic); ("report_1705312800000_2", traffic)]
  /\ length (allMarkers clocks [located; unlocated; located]) = 7%nat.
Proof. split; vm_compute; reflexivity. Qed.

End MapClaims.

Section SnapshotClaims.

Import CivicMap.

(** C9.  Offline snapshot round trip: once a snapshot whose centre
    and zoom are finite numbers has been written to the cache slot
    (the write being accepted), a restart that loads the slot back
    gets a snapshot with the same centre, the same zoom and the same
    number of markers, whatever the cache held before. *)
Theorem snapshot_round_trip (data : OfflineMapData) (c : Cache) :
  JS.isFinite (fst (center data)) = true ->
  JS.isFinite (snd (center data)) = true ->
  JS.isFinite (zoom data) = true ->
  exists s,
    offlineData (restart (saveOfflineData true data c)) = Some s /\
    s = Loaded (stringify data) /\
    snapshotCenter s = Some (center data) /\
    snapshotZoom s = Some (zoom data) /\
    snapshotMarkerCount s = Some (length (markers data)).
Proof.
  intros Hlat Hlng Hzoom.
  exists (Loaded (stringify data)).
  unfold restart, loadOfflineData, saveOfflineData. simpl.
  rewrite lookup_insert_eq. simpl.
  destruct data as [[la lo] z ms lu]; simpl in *.
  destruct la; try discriminate Hlat.
  destruct lo; try discriminate Hlng.
  destruct z; try discriminate Hzoom.
  repeat split; try reflexivity.
  unfold snapshotMarkerCount. simpl. now rewrite length_map.
Qed.

Lemma snapshot_round_trip_witness :
  let data := {| center := (JS.Fin 10.85, JS.Fin 76.27); zoom := JS.Fin 7;
                 markers := sampleMarkers; lastUpdated := "2024-01-15T10:00:00.000Z" |} in
  let c := {| localStorage := ∅; offlineData := None |} in
  JS.isFinite (fst (center data)) = true /\
  JS.isFinite (snd (center data)) = true /\
  JS.isFinite (zoom data) = true /\
  exists s,
    offlineData (restart (saveOfflineData true data c)) = Some s /\
    snapshotCenter s = Some (JS.Fin 10.85, JS.Fin 76.27) /\
    snapshotZoom s = Some (JS.Fin 7) /\
    snapshotMarkerCount s = Some 5%nat.
Proof.
  intros data c.
  split; [reflexivity|]. split; [reflexivity|]. split; [reflexivity|].
  destruct (snapshot_round_trip data c) as (s & Hs & _ & Hc & Hz & Hm);
    [reflexivity | reflexivity | reflexivity |].
  exists s. repeat split; assumption.
Defined.

(** A zoom that is not a number is written as [null] and does not
    come back as a number. *)
Example snapshot_nan_zoom :
  let data := {| center := (JS.Fin 10.85, JS.Fin 76.27); zoom := JS.NaN;
                 markers := []; lastUpdated := "2024-01-15T10:00:00.000Z" |} in
  let c := {| localStorage := ∅; offlineData := None |} in
  (snapshotZoom <$> offlineData (restart (saveOfflineData true data c))) = Some None.
Proof. reflexivity. Qed.

(** When the browser refuses the write, [saveOfflineData] changes
    nothing. *)
Lemma refused_write_keeps_cache (data : OfflineMapData) (c : Cache) :
  saveOfflineData false data c = c.
Proof. reflexivity. Qed.

End SnapshotClaims.

Section SelectorClaims.

(** C7, as stated, fails: with every load failing, the map view is in
    Fallback after a single import of the library, not after two. *)
Lemma map_selector_does_not_retry :
  ~ (forall loads : nat -> bool,
        loads 0%nat = false -> loads 1%nat = false ->
        exists v, CivicMap.settle 10 loads (CivicMap.mounted true) = Some v /\
                  CivicMap.mode v = CivicMap.Fallback /\
                  CivicMap.imports v = 2%nat).
Proof.
  intros H.
  destruct (H (fun _ => false) eq_refl eq_refl) as (v & Hv & _ & Himports).
  vm_compute in Hv. injection Hv as <-. discriminate Himports.
Qed.

(** While the error panel is shown the map container is not mounted,
    so [initializeMap] called from the Retry button returns at once. *)
Lemma retry_without_container (loads : nat -> bool) (v : CivicMap.View) :
  CivicMap.showsErrorPanel v = true -> CivicMap.clickRetry loads v = v.
Proof.
  intros Hpanel. unfold CivicMap.clickRetry, CivicMap.initializeMap, CivicMap.mapRefMounted.
  rewrite Hpanel. now rewrite andb_false_r.
Qed.

(** C7, amended.  After a failed load of the external library the
    selector does not retry by itself.  The map view shows the
    transient error, and when its timer has fired it is in Fallback
    with nothing left to run, having imported the library once; the
    chart view is in Fallback as soon as the loader script fails,
    having requested it once.  Later load outcomes are never
    consulted, so neither view retries indefinitely. *)
Theorem selector_falls_back_without_retry
        (loads scripts : nat -> bool) (fuel : nat) (w : CategoryChart.Window) :
  loads 0%nat = false ->
  scripts 0%nat = false ->
  CategoryChart.onLine w = true ->
  CategoryChart.googleCharts w = false ->
  CivicMap.mode (CivicMap.runEffect loads (CivicMap.mounted true)) = CivicMap.ErrorTransient /\
  (exists v, CivicMap.settle (4 + fuel) loads (CivicMap.mounted true) = Some v /\
             CivicMap.mode v = CivicMap.Fallback /\
             CivicMap.imports v = 1%nat /\
             CivicMap.effectDue v = false /\
             CivicMap.timers v = 0%nat) /\
  (let st := snd (CategoryChart.loadGoogleCharts scripts w CategoryChart.initialState) in
   CategoryChart.mode false st = CivicMap.Fallback /\
   CategoryChart.scriptRequests st = 1%nat).
Proof.
  intros Hload Hscript Hon Hgoogle. split; [|split].
  - unfold CivicMap.runEffect, CivicMap.initializeMap. simpl. rewrite Hload. reflexivity.
  - eexists. split.
    + change (4 + fuel)%nat with (S (S (S (S fuel)))).
      cbn [CivicMap.settle CivicMap.mounted CivicMap.effectDue].
      unfold CivicMap.runEffect at 1. unfold CivicMap.initializeMap at 1.
      cbn -[CivicMap.settle]. rewrite Hload. cbn -[CivicMap.settle].
      destruct fuel; reflexivity.
    + repeat split.
  - unfold CategoryChart.loadGoogleCharts. rewrite Hon, Hgoogle. simpl.
    rewrite Hscript. split; reflexivity.
Qed.

Lemma selector_falls_back_without_retry_witness :
  let loads := fun _ : nat => false in
  let w := {| CategoryChart.onLine := true; CategoryChart.googleCharts := false;
              CategoryChart.googleChartsLoaded := false |} in
  exists v, CivicMap.settle 4 loads (CivicMap.mounted true) = Some v /\
            CivicMap.mode v = CivicMap.Fallback /\
            CivicMap.imports v = 1%nat.
Proof.
  intros loads w.
  destruct (selector_falls_back_without_retry loads loads 0 w eq_refl eq_refl eq_refl eq_refl)
    as (_ & (v & Hv & Hm & Hi & _) & _).
  exists v. repeat split; assumption.
Defined.

End SelectorClaims.

(** ** Category chart: the two rendering paths *)

Section ChartFacts.

Import CategoryChart.

Lemma fold_left_add (l : list Z) (a : Z) :
  fold_left (fun sum count => sum + count)%Z l a
  = (a + fold_right Z.add 0 l)%Z.
Proof.
  revert a. induction l as [|x l IH]; intros a; simpl; [lia|].
  rewrite IH. lia.
Qed.

Lemma sumCounts_total (d : CategoryData) : sumCounts d = total d.
Proof.
  unfold total, values. rewrite fold_left_add. simpl.
  induction d as [|e d IH]; simpl; [reflexivity|]. now rewrite IH.
Qed.

Lemma sumCounts_nonZero (rows : list Row) : sumCounts (nonZero rows) = sumCounts rows.
Proof.
  induction rows as [|r rows IH]; simpl; [reflexivity|].
  destruct (Z.eqb_spec (snd r) 0) as [E|E]; simpl; rewrite IH; lia.
Qed.

Lemma countFor_nonZero (category : string) (rows : list Row) :
  countFor category (nonZero rows) = countFor category rows.
Proof.
  induction rows as [|r rows IH]; simpl; [reflexivity|].
  destruct (Z.eqb_spec (snd r) 0) as [E|E]; simpl; rewrite IH;
    destruct (String.eqb (fst r) category); lia.
Qed.

Lemma nonZero_positive (d : CategoryData) :
  Forall (fun entry => 0 <= snd entry)%Z d ->
  nonZero (List.filter (fun entry => (0 <? snd entry)%Z) d) = nonZero d.
Proof.
  induction 1 as [|e d He _ IH]; simpl; [reflexivity|].
  destruct (Z.ltb_spec 0 (snd e)) as [L|L]; simpl;
    destruct (Z.eqb_spec (snd e) 0) as [E|E]; simpl; rewrite IH; try reflexivity; lia.
Qed.

Lemma offline_bars_rows (d0 : CategoryData) (d : CategoryData) :
  forall k : nat,
    map (fun b => (barCategory b, barCount b))
        (CivicMap.filterNotNull (imap (fun index => offlineBar d0 (k + index)) d))
    = nonZero d.
Proof.
  induction d as [|[c n] d IH]; intros k; simpl; [reflexivity|].
  unfold offlineBar at 1. simpl.
  destruct (Z.eqb_spec n 0) as [E|E]; simpl.
  - rewrite <- (IH (S k)). do 2 f_equal. apply imap_ext. intros i x _.
    simpl. now replace (k + S i)%nat with (S k + i)%nat by lia.
  - f_equal. rewrite <- (IH (S k)). do 2 f_equal. apply imap_ext. intros i x _.
    simpl. now replace (k + S i)%nat with (S k + i)%nat by lia.
Qed.

(** With data to show, the offline view lists the entries whose count
    is not zero, in the order of the object. *)
Lemma offlineCategoryRows_nonZero (d : CategoryData) :
  hasData d = true -> offlineCategoryRows d = nonZero d.
Proof.
  intros Hd. unfold offlineCategoryRows, renderOfflineChart. rewrite Hd. simpl.
  apply (offline_bars_rows d d 0).
Qed.

(** Counts that are not negative and of which none is positive add up
    to 0. *)
Lemma total_without_data (d : CategoryData) :
  Forall (fun entry => 0 <= snd entry)%Z d -> hasData d = false -> total d = 0%Z.
Proof.
  intros Hpos Hd. rewrite <- sumCounts_total.
  unfold hasData in Hd. apply andb_false_iff in Hd as [Hd|Hd].
  - destruct d; [reflexivity | discriminate Hd].
  - unfold values in Hd. induction Hpos as [|e d He Hrest IH]; simpl in *; [reflexivity|].
    apply orb_false_iff in Hd as [Hd1 Hd2]. apply Z.ltb_ge in Hd1.
    rewrite (IH Hd2). lia.
Qed.

(** What the live effect draws, view by view. *)
Lemma liveRender_inv (isLoading drawOk : bool) (st : ChartState) (d : CategoryData)
      (chart : Drawing) :
  liveRender isLoading drawOk st d = Drawn chart ->
  hasData d = true /\ chart = chartRows (currentView st) d (analytics st).
Proof.
  unfold liveRender, renderGoogleChart, chartRefMounted, body.
  destruct (useOfflineMode st); simpl; [discriminate|].
  destruct (isGoogleChartsLoaded st); simpl; [|discriminate].
  destruct isLoading; simpl; [discriminate|].
  destruct (chartError st); simpl; [discriminate|].
  destruct (hasData d); simpl; [|discriminate].
  destruct drawOk; [|discriminate].
  intros H. injection H as <-. auto.
Qed.

Lemma liveRender_without_data (isLoading drawOk : bool) (st : ChartState)
      (d : CategoryData) :
  hasData d = false -> liveRender isLoading drawOk st d = NotRendered.
Proof.
  intros Hd. unfold liveRender, renderGoogleChart, chartRefMounted, body. rewrite Hd.
  destruct (useOfflineMode st); simpl; [reflexivity|].
  destruct isLoading; simpl; [now rewrite orb_true_r|].
  destruct (chartError st); simpl; now rewrite orb_true_r.
Qed.

End ChartFacts.

Section ChartClaims.

Import CategoryChart.

(** C1, amended.  Rendering symmetry of the category chart, for counts
    that are not negative.  A component in live mode and a component in
    offline mode that hold the analytics computed from the same
    [categoryData], whatever the random draws were, show the same
    total under "Total Reports", the sum of the counts; the rows of the
    offline view add up to it.  When the live effect draws a category
    chart (pie or column), the offline view presents exactly its rows
    with a count that is not zero, in the same order, every category has
    the same count in both, and the rows of the chart add up to the
    total.  In the trend view the live effect draws the seven synthetic
    points of the trend series and no category count.  For data without
    a positive count the live effect draws nothing and the offline view
    has no row. *)
Theorem rendering_symmetry (d : CategoryData) (env1 env2 : nat -> Draw)
        (live offline : ChartState) :
  Forall (fun entry => 0 <= snd entry)%Z d ->
  analytics live = calculateAnalytics env1 d ->
  analytics offline = calculateAnalytics env2 d ->
  useOfflineMode offline = true ->
  headerTotal live = total d /\
  headerTotal offline = total d /\
  body false offline d = OfflineView (renderOfflineChart d) /\
  sumCounts (offlineCategoryRows d) = total d /\
  forall isLoading drawOk : bool,
    match liveRender isLoading drawOk live d with
    | Drawn (PieChart rows) | Drawn (ColumnChart rows) =>
        nonZero rows = offlineCategoryRows d /\
        (forall category,
            countFor category rows = countFor category (offlineCategoryRows d)) /\
        sumCounts rows = total d
    | Drawn (LineChart rows) =>
        currentView live = trend /\
        rows = map (fun item => (date item, count item))
                   (trendData (calculateAnalytics env1 d))
    | NotRendered | DrawFailed => True
    end /\
    (hasData d = false ->
     liveRender isLoading drawOk live d = NotRendered /\ offlineCategoryRows d = []).
Proof.
  intros Hpos Hlive Hoff Hmode.
  unfold headerTotal. rewrite Hlive, Hoff. cbn [totalReports calculateAnalytics].
  split; [reflexivity|]. split; [reflexivity|].
  split; [unfold body; now rewrite Hmode|].
  assert (Hnodata : hasData d = false -> offlineCategoryRows d = []).
  { intros Hd. unfold offlineCategoryRows, renderOfflineChart. now rewrite Hd. }
  split.
  { destruct (hasData d) eqn:Hd.
    - rewrite (offlineCategoryRows_nonZero d Hd), sumCounts_nonZero. apply sumCounts_total.
    - rewrite (Hnodata eq_refl), (total_without_data d Hpos Hd). reflexivity. }
  intros isLoading drawOk. split.
  - destruct (liveRender isLoading drawOk live d) as [|chart|] eqn:Hdraw; [exact I| |exact I].
    apply liveRender_inv in Hdraw as [Hd ->].
    pose proof (offlineCategoryRows_nonZero d Hd) as Hoffline.
    unfold chartRows. rewrite Hd. cbn [negb].
    destruct (currentView live) eqn:Hview.
    + assert (Hnz : nonZero (List.filter (fun entry => (0 <? snd entry)%Z) d)
                    = offlineCategoryRows d)
        by (rewrite Hoffline; now apply nonZero_positive).
      split; [exact Hnz|].
      split; [intros category; now rewrite <- Hnz, countFor_nonZero|].
      rewrite <- sumCounts_nonZero, Hnz, Hoffline, sumCounts_nonZero.
      apply sumCounts_total.
    + split; [now rewrite Hoffline|].
      split; [intros category; now rewrite Hoffline, countFor_nonZero|].
      apply sumCounts_total.
    + split; [reflexivity|]. now rewrite Hlive.
  - intros Hd. split; [now apply liveRender_without_data | now apply Hnodata].
Qed.

(** The original statement fails in the live trend view.  Five reports,
    two on infrastructure and three environmental: the offline view
    shows the split 2 / 3, which adds up to 5, while the live chart
    drawn after "Trend" was pressed shows seven points of one report
    each (for draws of 0.9), none of them a category count. *)
Theorem live_trend_view_shows_no_category_split :
  let d : CategoryData :=
    [("Safety Issue", 0); ("Infrastructure", 2); ("Environmental", 3);
     ("Traffic", 0); ("Other", 0)]%Z in
  let env := fun _ : nat => {| dayLabel := "Jan 15"; random := 0.9 |} in
  let live := {| chartError := None; isGoogleChartsLoaded := true;
                 useOfflineMode := false; currentView := trend;
                 analytics := calculateAnalytics env d; scriptRequests := 1 |} in
  exists rows,
    liveRender false true live d = Drawn (LineChart rows) /\
    offlineCategoryRows d = [("Infrastructure", 2); ("Environmental", 3)]%Z /\
    countFor "Infrastructure" rows = 0%Z /\
    countFor "Infrastructure" (offlineCategoryRows d) = 2%Z /\
    sumCounts rows = 7%Z /\
    sumCounts (offlineCategoryRows d) = 5%Z.
Proof.
  intros d env live. eexists. split; [reflexivity|]. repeat split.
Qed.

(** Five reports, two on infrastructure and three environmental, in
    the object the home page keeps: both modes show the total 5, and
    the column chart of the live path and the offline view show the
    split 2 / 3. *)
Lemma rendering_symmetry_witness :
  let d : CategoryData :=
    [("Safety Issue", 0); ("Infrastructure", 2); ("Environmental", 3);
     ("Traffic", 0); ("Other", 0)]%Z in
  let env1 := fun _ : nat => {| dayLabel := "Jan 15"; random := 0.25 |} in
  let env2 := fun _ : nat => {| dayLabel := "Jan 15"; random := 0.75 |} in
  let live := {| chartError := None; isGoogleChartsLoaded := true;
                 useOfflineMode := false; currentView := bar;
                 analytics := calculateAnalytics env1 d; scriptRequests := 1 |} in
  let offline := {| chartError := None; isGoogleChartsLoaded := false;
                    useOfflineMode := true; currentView := pie;
                    analytics := calculateAnalytics env2 d; scriptRequests := 1 |} in
  liveRender false true live d = Drawn (ColumnChart d) /\
  headerTotal live = 5%Z /\
  headerTotal offline = 5%Z /\
  offlineCategoryRows d = [("Infrastructure", 2); ("Environmental", 3)]%Z /\
  countFor "Infrastructure" d = countFor "Infrastructure" (offlineCategoryRows d) /\
  countFor "Traffic" d = countFor "Traffic" (offlineCategoryRows d).
Proof.
  intros d env1 env2 live offline.
  assert (Hpos : Forall (fun entry => 0 <= snd entry)%Z d)
    by (repeat (constructor; [simpl; lia|]); constructor).
  destruct (rendering_symmetry d env1 env2 live offline Hpos eq_refl eq_refl eq_refl)
    as (Hlive & Hoff & _ & _ & Hdraw).
  destruct (Hdraw false true) as [Hrows _].
  change (liveRender false true live d) with (Drawn (ColumnChart d)) in Hrows.
  cbv iota in Hrows. destruct Hrows as (_ & Hcount & _).
  split; [reflexivity|].
  split; [exact Hlive|]. split; [exact Hoff|]. split; [reflexivity|].
  split; apply Hcount.
Defined.

End ChartClaims.

(** ** Aggregation *)

Section AggregationClaims.

Variable parseInt : string -> option Z.
Variable parseDate : string -> option Z.
Variable dayOf : Z -> Z.
Variable dayLabel : Z -> string.

Lemma trendsData_same_days (clock1 clock2 : nat -> Z) (filtered : list Analytics.Report) :
  (forall i, (i <= 6)%nat -> dayOf (clock1 i) = dayOf (clock2 i)) ->
  Analytics.trendsData parseDate dayOf dayLabel clock1 filtered
  = Analytics.trendsData parseDate dayOf dayLabel clock2 filtered.
Proof.
  intros Hdays. unfold Analytics.trendsData.
  apply map_ext_in. intros i Hi.
  rewrite (Hdays i); [reflexivity|].
  simpl in Hi. lia.
Qed.

Lemma filteredReports_same_range (reports : list Analytics.Report)
      (filters : Analytics.Filters.t) (now1 now2 : Z) :
  (forall r, In r reports ->
             Analytics.createdSince parseDate (Analytics.startDate parseInt now1 filters) r
             = Analytics.createdSince parseDate (Analytics.startDate parseInt now2 filters) r) ->
  Analytics.filteredReports parseInt parseDate now1 reports filters
  = Analytics.filteredReports parseInt parseDate now2 reports filters.
Proof.
  intros Hsame. unfold Analytics.filteredReports. cbv zeta.
  assert (E : forall now,
             List.filter
               (fun report =>
                  match parseDate (Analytics.createdAt report),
                        match parseInt (Analytics.Filters.dateRange filters) with
                        | Some daysBack =>
                            Analytics.timeClip (now - daysBack * 24 * 60 * 60 * 1000)
                        | None => None
                        end with
                  | Some t, Some s => (s <=? t)%Z
                  | _, _ => false
                  end) reports
             = List.filter
                 (Analytics.createdSince parseDate (Analytics.startDate parseInt now filters))
                 reports) by reflexivity.
  rewrite !E. now rewrite (filter_ext_in _ _ reports Hsame).
Qed.

(** C8, amended.  Two evaluations of the dashboard aggregation on the
    same reports and filters give the same total, the same
    per-category, per-priority, per-status and per-location breakdowns
    and the same 7-day trend series, provided that every report passes
    the date range test of both evaluations or of neither and that the
    trend loop reads the clock on the same calendar days.  For the
    category chart, the total and the top category are the same on
    every evaluation; its 7-day trend series is the same whenever the
    date labels and the random draws are the same. *)
Theorem aggregation_repeatable
        (reports : list Analytics.Report) (filters : Analytics.Filters.t)
        (now1 now2 : Z) (clock1 clock2 : nat -> Z)
        (d : CategoryChart.CategoryData) (env1 env2 : nat -> CategoryChart.Draw) :
  (forall r, In r reports ->
             Analytics.createdSince parseDate (Analytics.startDate parseInt now1 filters) r
             = Analytics.createdSince parseDate (Analytics.startDate parseInt now2 filters) r) ->
  (forall i, (i <= 6)%nat -> dayOf (clock1 i) = dayOf (clock2 i)) ->
  Analytics.aggregate parseInt parseDate dayOf dayLabel now1 clock1 reports filters
  = Analytics.aggregate parseInt parseDate dayOf dayLabel now2 clock2 reports filters
  /\ CategoryChart.totalReports (CategoryChart.calculateAnalytics env1 d)
     = CategoryChart.totalReports (CategoryChart.calculateAnalytics env2 d)
  /\ CategoryChart.mostCommonCategory (CategoryChart.calculateAnalytics env1 d)
     = CategoryChart.mostCommonCategory (CategoryChart.calculateAnalytics env2 d)
  /\ ((forall i, (i < 7)%nat -> env1 i = env2 i) ->
      CategoryChart.calculateAnalytics env1 d = CategoryChart.calculateAnalytics env2 d).
Proof.
  intros Hrange Hdays. split; [|split; [reflexivity|split; [reflexivity|]]].
  - unfold Analytics.aggregate, Analytics.analyticsData.
    rewrite (filteredReports_same_range reports filters now1 now2 Hrange).
    now rewrite (trendsData_same_days clock1 clock2 _ Hdays).
  - intros Henv. unfold CategoryChart.calculateAnalytics. f_equal.
    apply map_ext_in. intros i Hi. rewrite (Henv i); [reflexivity|].
    apply in_seq in Hi. lia.
Qed.

End AggregationClaims.

Section AggregationExamples.

(** C8, as stated, fails three times over (times in milliseconds, days
    of 86400000 ms).  The category chart: on the same [categoryData]
    and with the same date labels, draws of 0 and of 0.5 give trend
    counts of 0 and of 1.  The dashboard total: a report created at
    time 1000 is inside a range of one day for an evaluation at
    86401000 and outside it a millisecond later, so the totals are 1
    and 0.  The dashboard trend: with the same filtered report, created
    on day 0, a trend loop that runs on day 1 counts it in the sixth
    point and one that runs on day 2 in the fifth. *)
Theorem aggregation_is_not_idempotent :
  let d : CategoryChart.CategoryData := [("Infrastructure", 6%Z)] in
  let env1 := fun _ : nat =>
                {| CategoryChart.dayLabel := "Jan 15"; CategoryChart.random := 0 |} in
  let env2 := fun _ : nat =>
                {| CategoryChart.dayLabel := "Jan 15"; CategoryChart.random := 0.5 |} in
  let parseInt := fun _ : string => Some 1%Z in
  let parseDate := fun s : string =>
                     if String.eqb s "created" then Some 1000%Z else None in
  let dayOf := fun t : Z => (t / 86400000)%Z in
  let dayLabel := fun day : Z => JS.showZ day in
  let report :=
    {| Analytics.id := "r1"; Analytics.category := "Infrastructure";
       Analytics.priority := Analytics.High; Analytics.status := Analytics.Open;
       Analytics.location :=
         {| Analytics.latitude := JS.Fin 9.9312; Analytics.longitude := JS.Fin 76.2673;
            Analytics.address := "MG Road"; Analytics.city := "Kochi";
            Analytics.state := "Kerala"; Analytics.country := "India" |};
       Analytics.createdAt := "created"; Analytics.updatedAt := "created";
       Analytics.title := "Road Pothole"; Analytics.description := "Large pothole" |} in
  let filters := {| Analytics.Filters.dateRange := "1"; Analytics.Filters.category := "all";
                    Analytics.Filters.status := None; Analytics.Filters.priority := None |} in
  let evaluate := Analytics.aggregate parseInt parseDate dayOf dayLabel in
  (map CategoryChart.count (CategoryChart.trendData (CategoryChart.calculateAnalytics env1 d))
   = [0; 0; 0; 0; 0; 0; 0]%Z /\
   map CategoryChart.count (CategoryChart.trendData (CategoryChart.calculateAnalytics env2 d))
   = [1; 1; 1; 1; 1; 1; 1]%Z) /\
  (fst (evaluate 86401000%Z (fun _ => 86401000%Z) [report] filters) = 1%Z /\
   fst (evaluate 86401001%Z (fun _ => 86401000%Z) [report] filters) = 0%Z) /\
  (map Analytics.count
       (Analytics.Data.trends
          (snd (evaluate 86401000%Z (fun _ => 86401000%Z) [report] filters)))
   = [0; 0; 0; 0; 0; 1; 0]%Z /\
   map Analytics.count
       (Analytics.Data.trends
          (snd (evaluate 86401000%Z (fun _ => 172800000%Z) [report] filters)))
   = [0; 0; 0; 0; 1; 0; 0]%Z).
Proof.
  intros d env1 env2 parseInt parseDate dayOf dayLabel report filters evaluate.
  repeat split; vm_compute; reflexivity.
Qed.

(** Two evaluations one minute apart on the same day (times in
    milliseconds, days of 86400000 ms) agree. *)
Lemma aggregation_repeatable_witness :
  let parseInt := fun _ : string => Some 30%Z in
  let parseDate := fun s : string =>
                     if String.eqb s "day 100" then Some (100 * 86400000)%Z else None in
  let dayOf := fun t : Z => (t / 86400000)%Z in
  let dayLabel := fun day : Z => JS.showZ day in
  let report := fun day : string =>
    {| Analytics.id := "r1"; Analytics.category := "Infrastructure";
       Analytics.priority := Analytics.High; Analytics.status := Analytics.Open;
       Analytics.location :=
         {| Analytics.latitude := JS.Fin 9.9312; Analytics.longitude := JS.Fin 76.2673;
            Analytics.address := "MG Road"; Analytics.city := "Kochi";
            Analytics.state := "Kerala"; Analytics.country := "India" |};
       Analytics.createdAt := day; Analytics.updatedAt := day;
       Analytics.title := "Road Pothole"; Analytics.description := "Large pothole" |} in
  let reports := [report "day 100"; report "unknown"] in
  let filters := {| Analytics.Filters.dateRange := "30"; Analytics.Filters.category := "all";
                    Analytics.Filters.status := None; Analytics.Filters.priority := None |} in
  let now1 := (102 * 86400000 + 1000)%Z in
  let now2 := (102 * 86400000 + 61000)%Z in
  Analytics.aggregate parseInt parseDate dayOf dayLabel now1 (fun _ => now1) reports filters
  = Analytics.aggregate parseInt parseDate dayOf dayLabel now2 (fun _ => now2) reports filters
  /\ fst (Analytics.aggregate parseInt parseDate dayOf dayLabel now1 (fun _ => now1)
                              reports filters) = 1%Z.
Proof.
  intros parseInt parseDate dayOf dayLabel report reports filters now1 now2.
  split; [|vm_compute; reflexivity].
  apply (aggregation_repeatable parseInt parseDate dayOf dayLabel reports filters
           now1 now2 (fun _ => now1) (fun _ => now2)
           [] (fun _ => {| CategoryChart.dayLabel := EmptyString; CategoryChart.random := 0 |})
           (fun _ => {| CategoryChart.dayLabel := EmptyString; CategoryChart.random := 0 |})).
  - intros r [<-|[<-|[]]]; vm_compute; reflexivity.
  - intros i _. vm_compute; reflexivity.
Defined.

End AggregationExamples.

(** ** Report form *)

Section FormFacts.

Import ReportForm.

Variable parseFloat : string -> JS.number.

Lemma search_within_bounds (fetch : string -> Response) (queries : list string)
      (place : GeocodedLocation) :
  search parseFloat fetch queries = Some place ->
  withinKeralaBounds (lat place) (lon place) = true.
Proof.
  induction queries as [|q rest IH]; simpl; [discriminate|].
  destruct (fetch q) as [| | |data]; try discriminate; try exact IH.
  destruct (List.filter namesKerala data) as [|best others]; [exact IH|].
  destruct (withinKeralaBounds (parseFloat (LocationResult.lat best))
                               (parseFloat (LocationResult.lon best))) eqn:Hb;
    [|exact IH].
  intros H. injection H as <-. exact Hb.
Qed.

Lemma findBest_within_bounds (fetch : string -> Response) (query : string)
      (place : GeocodedLocation) :
  findBestLocationInKerala parseFloat fetch query = Some place ->
  withinKeralaBounds (lat place) (lon place) = true.
Proof.
  unfold findBestLocationInKerala.
  destruct (String.length query <? 2)%nat; [discriminate|].
  apply search_within_bounds.
Qed.

Lemma submitWith_state (onSubmitThrows : bool) (st : FormState)
      (pending : gmap string string) (place : GeocodedLocation) (label : string) :
  placed (Some place) ->
  placed (geocodedLocation (fst (submitWith onSubmitThrows st pending place label))).
Proof.
  intros Hp. unfold submitWith. destruct onSubmitThrows; simpl; [exact Hp | exact I].
Qed.

(** The state variable [geocodedLocation] only ever holds a place
    inside the box. *)
Lemma geocodedLocation_placed (st : FormState) :
  reachable parseFloat st -> placed (geocodedLocation st).
Proof.
  induction 1 as [|st ev _ IH]; [exact I|].
  destruct ev as [v|v|v|f| |fetch throws]; simpl; try exact I; try exact IH.
  - unfold handleImageUpload.
    destruct (_ <? _)%Z; [exact IH|]. destruct (negb _); exact IH.
  - unfold handleSubmit.
    destruct (negb _); [exact IH|].
    destruct (geocodedLocation st) as [place|] eqn:Eg.
    + now apply submitWith_state.
    + destruct (isEmpty _); [exact I|].
      destruct (findBestLocationInKerala _ _ _) as [found|] eqn:Ef; [|exact I].
      apply submitWith_state. simpl. exact (findBest_within_bounds fetch _ found Ef).
Qed.

Lemma submitWith_data (onSubmitThrows : bool) (st st' : FormState)
      (pending : gmap string string) (place : GeocodedLocation) (label : string)
      (data : Report.NewReport) :
  submitWith onSubmitThrows st pending place label = (st', Some data) ->
  Report.coordinates data = Some {| Report.lat := lat place; Report.lon := lon place |}.
Proof.
  unfold submitWith. destruct onSubmitThrows; intros H; injection H as _ <-; reflexivity.
Qed.

Lemma within_bounds_inv (a b : JS.number) :
  withinKeralaBounds a b = true ->
  exists la lo, a = JS.Fin la /\ b = JS.Fin lo /\
                (8.2 <= la)%Q /\ (la <= 12.5)%Q /\ (74.8 <= lo)%Q /\ (lo <= 77.5)%Q.
Proof.
  unfold withinKeralaBounds, JS.ge, JS.le. intros H.
  apply andb_true_iff in H as [H H4]. apply andb_true_iff in H as [H H3].
  apply andb_true_iff in H as [H1 H2].
  destruct a as [| | |la]; try discriminate.
  destruct b as [| | |lo]; try discriminate.
  exists la, lo. repeat split; now apply Qle_bool_iff.
Qed.

End FormFacts.

Section FormClaims.

Import ReportForm.

Variable parseFloat : string -> JS.number.

(** C10.  In every state the form can reach, when [handleSubmit]
    calls [onSubmit] the report carries coordinates, and they are
    finite numbers inside the Kerala box: latitude between 8.2 and
    12.5, longitude between 74.8 and 77.5.  When no place is pinned
    yet and geocoding finds none inside the box, [onSubmit] is not
    called. *)
Theorem submitted_report_is_in_kerala (st : FormState)
        (fetch : string -> Response) (onSubmitThrows : bool) :
  reachable parseFloat st ->
  (forall st' data,
      handleSubmit parseFloat fetch onSubmitThrows st = (st', Some data) ->
      exists c la lo,
        Report.coordinates data = Some c /\
        Report.lat c = JS.Fin la /\ Report.lon c = JS.Fin lo /\
        (8.2 <= la)%Q /\ (la <= 12.5)%Q /\ (74.8 <= lo)%Q /\ (lo <= 77.5)%Q) /\
  (geocodedLocation st = None ->
   findBestLocationInKerala parseFloat fetch (JS.trim (location st)) = None ->
   snd (handleSubmit parseFloat fetch onSubmitThrows st) = None).
Proof.
  intros Hreach. pose proof (geocodedLocation_placed parseFloat st Hreach) as Hinv.
  split.
  - intros st' data. unfold handleSubmit.
    destruct (negb _); [discriminate|].
    destruct (geocodedLocation st) as [place|] eqn:Eg.
    + intros H. apply submitWith_data in H.
      destruct (within_bounds_inv _ _ Hinv) as (la & lo & Ha & Hb & Hq).
      exists {| Report.lat := lat place; Report.lon := lon place |}, la, lo.
      repeat split; try assumption; apply Hq.
    + destruct (isEmpty _); [discriminate|].
      destruct (findBestLocationInKerala _ _ _) as [found|] eqn:Ef; [|discriminate].
      intros H. apply submitWith_data in H.
      apply findBest_within_bounds in Ef.
      destruct (within_bounds_inv _ _ Ef) as (la & lo & Ha & Hb & Hq).
      exists {| Report.lat := lat found; Report.lon := lon found |}, la, lo.
      repeat split; try assumption; apply Hq.
  - intros Hnone Hfind. unfold handleSubmit.
    destruct (negb _); [reflexivity|].
    rewrite Hnone. destruct (isEmpty _); [reflexivity|].
    now rewrite Hfind.
Qed.

End FormClaims.

Section FormExamples.

Import ReportForm.

(** A user types "Kochi", a description and a category, and submits;
    the geocoder answers with one candidate in Kochi. *)
Lemma submitted_report_is_in_kerala_witness :
  let parseFloat := fun s : string =>
                      if String.eqb s "9.9312" then JS.Fin 9.9312
                      else if String.eqb s "76.2673" then JS.Fin 76.2673
                      else JS.NaN in
  let fetch := fun _ : string =>
                 Ok [{| LocationResult.display_name := "Kochi, Ernakulam, Kerala, India";
                        LocationResult.lat := "9.9312"; LocationResult.lon := "76.2673";
                        LocationResult.place_id := 1 |}] in
  let st := run parseFloat initial
                [LocationInput "Kochi";
                 DescriptionInput "Large pothole on the main road";
                 CategoryChange "infrastructure"] in
  reachable parseFloat st /\
  exists st' data c,
    handleSubmit parseFloat fetch false st = (st', Some data) /\
    Report.coordinates data = Some c /\
    Report.lat c = JS.Fin 9.9312 /\ Report.lon c = JS.Fin 76.2673.
Proof.
  intros parseFloat fetch st.
  assert (Hreach : reachable parseFloat st).
  { exact (reachable_step parseFloat _ (CategoryChange "infrastructure")
             (reachable_step parseFloat _ (DescriptionInput "Large pothole on the main road")
                (reachable_step parseFloat _ (LocationInput "Kochi")
                   (reachable_initial parseFloat)))). }
  split; [exact Hreach|].
  destruct (handleSubmit parseFloat fetch false st) as [st' [data|]] eqn:E.
  - destruct (submitted_report_is_in_kerala parseFloat st fetch false Hreach) as [Hbox _].
    destruct (Hbox st' data E) as (c & la & lo & Hc & Hla & Hlo & _).
    exists st', data, c. split; [reflexivity|]. split; [exact Hc|].
    vm_compute in E. injection E as _ <-.
    injection Hc as <-. split; reflexivity.
  - vm_compute in E. discriminate E.
Defined.

End FormExamples.


(** * Further properties *)

(** ** Home page: what the submissions add up to *)

Section HomeFacts.

Import CategoryChart.

Lemma countFor_bump (c key : string) (acc : CategoryData) :
  countFor c (Analytics.bump key acc)
  = (countFor c acc + if String.eqb key c then 1 else 0)%Z.
Proof.
  induction acc as [|[k v] rest IH]; simpl.
  - destruct (String.eqb key c); lia.
  - destruct (String.eqb_spec k key) as [->|Hne]; simpl.
    + destruct (String.eqb key c); lia.
    + rewrite IH. destruct (String.eqb k c); lia.
Qed.

Lemma sumCounts_bump (key : string) (acc : CategoryData) :
  sumCounts (Analytics.bump key acc) = (sumCounts acc + 1)%Z.
Proof.
  induction acc as [|[k v] rest IH]; simpl; [lia|].
  destruct (String.eqb k key); simpl; [lia | rewrite IH; lia].
Qed.



End HomeFacts.

Section HomeProperties.

Import CategoryChart.


End HomeProperties.

(** ** Category labels between the form, the map and the chart *)

Section LabelFacts.

Import CivicMap.




End LabelFacts.

Section LabelProperties.

Import CivicMap.



End LabelProperties.

(** ** Map view: the marker collection and the cache *)

Section MarkerCollectionFacts.

Import CivicMap.

Lemma length_newMarkers (clocks : nat -> Clock) (newReports : list Report.NewReport) :
  length (newMarkers clocks newReports) = length (List.filter hasCoordinates newReports).
Proof.
  unfold newMarkers. apply length_filterNotNull_imap.
  intros i a. apply convert_none_iff.
Qed.

Lemma restart_after_save (data : OfflineMapData) (c : Cache) :
  offlineData (restart (saveOfflineData true data c)) = Some (Loaded (stringify data)).
Proof.
  unfold restart, loadOfflineData, saveOfflineData. simpl.
  now rewrite lookup_insert_eq.
Qed.

Lemma restart_keeps_storage (c : Cache) : localStorage (restart c) = localStorage c.
Proof.
  unfold restart, loadOfflineData. simpl.
  now destruct (localStorage c !! OFFLINE_MAP_KEY).
Qed.

Lemma loaded_marker_count (data : OfflineMapData) :
  snapshotMarkerCount (Loaded (stringify data)) = Some (length (markers data)).
Proof. simpl. now rewrite length_map. Qed.

Lemma length_allMarkers (clocks : nat -> Clock) (newReports : list Report.NewReport) :
  length (allMarkers clocks newReports)
  = (5 + length (List.filter hasCoordinates newReports))%nat.
Proof.
  unfold allMarkers. destruct newReports as [|r rest]; [reflexivity|].
  cbn [length Nat.ltb Nat.leb]. rewrite length_app, length_newMarkers. reflexivity.
Qed.

End MarkerCollectionFacts.

Section MarkerCollectionProperties.

Import CivicMap.

(** X3.  The marker collection of the map always starts with the five
    sample markers and has one more marker per submitted report with
    coordinates; it is never empty, so the "Offline Map Unavailable"
    panel is not shown, with or without a snapshot. *)
Theorem marker_collection_never_empty
        (clocks : nat -> Clock) (newReports : list Report.NewReport)
        (snapshot : option Snapshot) :
  firstn 5 (allMarkers clocks newReports) = sampleMarkers /\
  length (allMarkers clocks newReports)
  = (5 + length (List.filter hasCoordinates newReports))%nat /\
  offlineMapUnavailable snapshot (allMarkers clocks newReports) = false.
Proof.
  pose proof (length_allMarkers clocks newReports) as Hlen.
  split; [|split; [exact Hlen|]].
  - unfold allMarkers. destruct newReports; reflexivity.
  - unfold offlineMapUnavailable. destruct snapshot; [reflexivity|].
    rewrite Hlen. reflexivity.
Qed.

(** X4.  The cache slot holds the last accepted write only.  After two
    saves a restart loads the second snapshot; a save the browser
    refuses leaves both the slot and the snapshot of the session as the
    previous save made them, so a restart still loads the earlier
    snapshot. *)
Theorem cache_keeps_last_accepted_write (first second : OfflineMapData) (c : Cache) :
  offlineData (restart (saveOfflineData true second (saveOfflineData true first c)))
  = Some (Loaded (stringify second)) /\
  localStorage (saveOfflineData true second (saveOfflineData true first c))
  = localStorage (saveOfflineData true second c) /\
  offlineData (saveOfflineData false second (saveOfflineData true first c))
  = Some (Saved first) /\
  offlineData (restart (saveOfflineData false second (saveOfflineData true first c)))
  = Some (Loaded (stringify first)).
Proof.
  split; [apply restart_after_save|].
  split; [unfold saveOfflineData; simpl; apply insert_insert_eq|].
  split; [reflexivity|].
  apply restart_after_save.
Qed.

(** X5.  "Save Offline" followed by a restart: when the write is
    accepted and the centre and zoom the map reports are finite, the
    snapshot loaded back has the five sample markers plus one marker per
    report with coordinates, and the centre and zoom of the map (or the
    defaults 10.8505, 76.2711 and 7 when there is no map instance). *)
Theorem download_then_restart
        (clocks : nat -> Clock) (newReports : list Report.NewReport)
        (mapView : option (JS.number * JS.number * JS.number))
        (timestamp : string) (c : Cache) :
  (forall la lo z, mapView = Some (la, lo, z) ->
                   JS.isFinite la = true /\ JS.isFinite lo = true /\ JS.isFinite z = true) ->
  exists s,
    offlineData (restart (downloadForOffline true mapView (allMarkers clocks newReports)
                                             timestamp c)) = Some s /\
    snapshotMarkerCount s
    = Some (5 + length (List.filter hasCoordinates newReports))%nat /\
    snapshotCenter s
    = Some (match mapView with
            | Some (la, lo, _) => (la, lo)
            | None => (JS.Fin 10.8505, JS.Fin 76.2711)
            end) /\
    snapshotZoom s
    = Some (match mapView with
            | Some (_, _, z) => z
            | None => JS.Fin 7
            end).
Proof.
  intros Hfinite. unfold downloadForOffline. rewrite restart_after_save.
  eexists. split; [reflexivity|].
  split.
  { rewrite loaded_marker_count. simpl. now rewrite length_allMarkers. }
  destruct mapView as [[[la lo] z]|]; [|split; reflexivity].
  destruct (Hfinite la lo z eq_refl) as (Hla & Hlo & Hz).
  destruct la; try discriminate Hla.
  destruct lo; try discriminate Hlo.
  destruct z; try discriminate Hz.
  split; reflexivity.
Qed.

Lemma download_then_restart_witness :
  let clocks := fun _ : nat => {| now := 1705312800000; isoDate := "2024-01-15" |} in
  let report := {| Report.location := "Kochi";
                   Report.coordinates :=
                     Some {| Report.lat := JS.Fin 9.9312; Report.lon := JS.Fin 76.2673 |};
                   Report.description := "Signal not working at the junction";
                   Report.category := "traffic"; Report.image := None |} in
  let mapView := Some (JS.Fin 9.9312, JS.Fin 76.2673, JS.Fin 14) in
  exists s,
    offlineData (restart (downloadForOffline true mapView (allMarkers clocks [report])
                            "2024-01-15T10:00:00.000Z"
                            {| localStorage := ∅; offlineData := None |})) = Some s /\
    snapshotMarkerCount s = Some 6%nat /\
    snapshotZoom s = Some (JS.Fin 14).
Proof.
  intros clocks report mapView.
  destruct (download_then_restart clocks [report] mapView "2024-01-15T10:00:00.000Z"
              {| localStorage := ∅; offlineData := None |}) as (s & Hs & Hn & _ & Hz).
  - intros la lo z H. injection H as <- <- <-. repeat split; reflexivity.
  - exists s. repeat split; assumption.
Defined.

End MarkerCollectionProperties.

(** ** Map view: where the offline map puts a marker *)

Section PositionFacts.

Import CivicMap.

Lemma clamp_finite (q : Q) :
  exists x, clamp (JS.Fin q) = JS.Fin x /\ (5 <= x)%Q /\ (x <= 95)%Q /\
            ((5 <= q)%Q -> (q <= 95)%Q -> (x == q)%Q) /\
            ((q < 5)%Q -> x = 5%Q).
Proof.
  unfold clamp, JS.min, JS.max, JS.le.
  destruct (Qle_bool 95 q) eqn:H95.
  - apply Qle_bool_iff in H95. exists 95%Q.
    split; [reflexivity|]. repeat split; try lra; intros; lra.
  - assert (Hlt : (q < 95)%Q).
    { apply Qnot_le_lt. intros H. apply Qle_bool_iff in H. congruence. }
    destruct (Qle_bool 5 q) eqn:H5.
    + apply Qle_bool_iff in H5. exists q.
      split; [reflexivity|]. repeat split; try lra; intros; lra.
    + assert (Hlt5 : (q < 5)%Q).
      { apply Qnot_le_lt. intros H. apply Qle_bool_iff in H. congruence. }
      exists 5%Q. split; [reflexivity|]. repeat split; try lra; intros; lra.
Qed.

Lemma xPercent_finite (lo : Q) :
  exists p, xPercent (JS.Fin lo) = JS.Fin p /\ (p == (lo - 74) * 25)%Q.
Proof.
  eexists. split; [reflexivity|]. field.
Qed.

Lemma yPercent_finite (la : Q) :
  exists p, yPercent (JS.Fin la) = JS.Fin p /\ (p == (12 - la) * 25)%Q.
Proof.
  eexists. split; [reflexivity|]. field.
Qed.

Lemma clamp_not_NaN (n : JS.number) :
  n <> JS.NaN ->
  (n = JS.PosInf -> clamp n = JS.Fin 95) /\ (n = JS.NegInf -> clamp n = JS.Fin 5).
Proof.
  intros _. split; intros ->; reflexivity.
Qed.

Lemma clamped_percent (percent : JS.number) :
  percent <> JS.NaN ->
  exists x, clamp percent = JS.Fin x /\ (5 <= x)%Q /\ (x <= 95)%Q.
Proof.
  intros Hn. destruct percent as [| | |q].
  - congruence.
  - exists 95%Q. split; [reflexivity|]. lra.
  - exists 5%Q. split; [reflexivity|]. lra.
  - destruct (clamp_finite q) as (x & Hx & Hlo & Hhi & _). now exists x.
Qed.

Lemma xPercent_not_NaN (lng : JS.number) : lng <> JS.NaN -> xPercent lng <> JS.NaN.
Proof. destruct lng; try congruence; intros _; discriminate. Qed.

Lemma yPercent_not_NaN (lat : JS.number) : lat <> JS.NaN -> yPercent lat <> JS.NaN.
Proof. destruct lat; try congruence; intros _; discriminate. Qed.

End PositionFacts.

Section PositionProperties.

Import CivicMap.

(** X6.  On the offline map every marker whose coordinates are numbers
    (finite or infinite, anything but NaN) is placed inside the frame:
    its left and top percentages are finite and lie between 5 and 95. *)
Theorem marker_position_in_frame (m : IncidentMarker) :
  lat m <> JS.NaN ->
  lng m <> JS.NaN ->
  exists x y, markerPosition m = (JS.Fin x, JS.Fin y) /\
              (5 <= x)%Q /\ (x <= 95)%Q /\ (5 <= y)%Q /\ (y <= 95)%Q.
Proof.
  intros Hlat Hlng. unfold markerPosition.
  destruct (clamped_percent (xPercent (lng m)) (xPercent_not_NaN _ Hlng))
    as (x & -> & Hx1 & Hx2).
  destruct (clamped_percent (yPercent (lat m)) (yPercent_not_NaN _ Hlat))
    as (y & -> & Hy1 & Hy2).
  exists x, y. repeat split; assumption.
Qed.

Lemma marker_position_in_frame_witness :
  exists x y, markerPosition (nth 0 sampleMarkers
                                  (mkSample EmptyString 0 0 EmptyString EmptyString
                                            other low EmptyString open))
              = (JS.Fin x, JS.Fin y) /\
              (5 <= x)%Q /\ (x <= 95)%Q /\ (5 <= y)%Q /\ (y <= 95)%Q.
Proof.
  apply marker_position_in_frame; discriminate.
Defined.

(** X7.  A marker inside the box the report form accepts (latitude 8.2
    to 12.5, longitude 74.8 to 77.5) is placed on the offline map at its
    true horizontal position, 25 percent per degree east of 74; its
    vertical position is the true one, 25 percent per degree south of
    12, as long as the latitude is at most 11.8, and it is pinned to the
    top edge (5 percent) for every latitude above 11.8. *)
Theorem kerala_marker_position (m : IncidentMarker) (la lo : Q) :
  lat m = JS.Fin la ->
  lng m = JS.Fin lo ->
  ReportForm.withinKeralaBounds (lat m) (lng m) = true ->
  exists x y, markerPosition m = (JS.Fin x, JS.Fin y) /\
              (x == (lo - 74) * 25)%Q /\
              ((la <= 11.8)%Q -> (y == (12 - la) * 25)%Q) /\
              ((11.8 < la)%Q -> y = 5%Q).
Proof.
  intros Hla Hlo Hbox. rewrite Hla, Hlo in Hbox.
  destruct (within_bounds_inv _ _ Hbox) as (la' & lo' & Ea & Eb & H1 & H2 & H3 & H4).
  injection Ea as <-. injection Eb as <-.
  unfold markerPosition. rewrite Hla, Hlo.
  destruct (xPercent_finite lo) as (px & -> & Epx).
  destruct (yPercent_finite la) as (py & -> & Epy).
  destruct (clamp_finite px) as (x & -> & _ & _ & Hxmid & _).
  destruct (clamp_finite py) as (y & -> & _ & Hy95 & Hymid & Hylow).
  exists x, y. split; [reflexivity|].
  split; [rewrite Hxmid; [exact Epx | lra | lra]|].
  split.
  - intros Hle. rewrite Hymid; [exact Epy | lra | lra].
  - intros Hgt. apply Hylow. lra.
Qed.

Lemma kerala_marker_position_witness :
  let m := {| id := "report_1705312800000_0"; lat := JS.Fin 12.2; lng := JS.Fin 75.2;
              title := "New Report: traffic"; description := "Signal not working";
              type := other; priority := medium; date := "2024-01-15"; status := open |} in
  ReportForm.withinKeralaBounds (lat m) (lng m) = true /\
  exists x y, markerPosition m = (JS.Fin x, JS.Fin y) /\
              (x == 30)%Q /\ y = 5%Q.
Proof.
  intros m. split; [reflexivity|].
  destruct (kerala_marker_position m 12.2 75.2 eq_refl eq_refl eq_refl)
    as (x & y & Hpos & Hx & _ & Hy).
  exists x, y. split; [exact Hpos|]. split.
  - rewrite Hx. reflexivity.
  - apply Hy. reflexivity.
Defined.

End PositionProperties.

(** ** Map view: the selector always comes to rest *)

Section SettleFacts.

Import CivicMap.

Variable loads : nat -> bool.

Lemma settle_more_fuel (fuel : nat) :
  forall v v', settle fuel loads v = Some v' ->
               forall extra, settle (fuel + extra) loads v = Some v'.
Proof.
  induction fuel as [|fuel IH]; intros v v' H extra; [discriminate H|].
  simpl in *. destruct (effectDue v); [now apply IH|].
  destruct (0 <? timers v)%nat; [now apply IH | exact H].
Qed.

Lemma settle_unfold (fuel : nat) (v : View) :
  settle (S fuel) loads v
  = if effectDue v then settle fuel loads (runEffect loads v)
    else if (0 <? timers v)%nat then settle fuel loads (fireTimer v)
         else Some v.
Proof. reflexivity. Qed.

(** In offline mode the effect finds no map container: it only removes
    a map that was there. *)
Lemma runEffect_in_offline_mode (v : View) :
  useOfflineMode v = true ->
  runEffect loads v
  = {| isClient := isClient v; isOnline := isOnline v; useOfflineMode := true;
       isLoading := isLoading v; mapError := mapError v; mapInstance := false;
       imports := imports v; effectDue := false; timers := timers v |}.
Proof.
  intros H. unfold runEffect, initializeMap, mapRefMounted, showsOfflineMap. simpl.
  rewrite H. rewrite orb_true_r. simpl. rewrite andb_false_r. simpl.
  now destruct (isClient v).
Qed.

Lemma runEffect_facts (v : View) :
  effectDue (runEffect loads v) = false /\
  (imports v <= imports (runEffect loads v))%nat /\
  (imports (runEffect loads v) <= imports v + 1)%nat /\
  (timers (runEffect loads v) <= timers v + 1)%nat.
Proof.
  unfold runEffect, initializeMap.
  destruct (isClient v); simpl; [|repeat split; lia].
  destruct (mapRefMounted _); simpl; [|repeat split; lia].
  destruct (negb (isOnline v) || useOfflineMode v); simpl; [repeat split; lia|].
  destruct (loads (imports v)); simpl; repeat split; lia.
Qed.

Lemma drain_timers (t : nat) :
  forall v, timers v = t -> useOfflineMode v = true -> effectDue v = false ->
            exists v', settle (S t) loads v = Some v' /\
                       effectDue v' = false /\ timers v' = 0%nat /\
                       imports v' = imports v.
Proof.
  induction t as [|t IH]; intros v Ht Hoff Hdue.
  - exists v. simpl. rewrite Hdue, Ht. simpl. auto.
  - destruct (IH (fireTimer v)) as (v' & Hs & H1 & H2 & H3).
    + simpl. rewrite Ht. reflexivity.
    + reflexivity.
    + simpl. rewrite Hdue, Hoff. reflexivity.
    + exists v'. split; [|auto].
      rewrite settle_unfold, Hdue, Ht. exact Hs.
Qed.

(** With no effect due, the pending timers fire one after the other;
    the first puts the view in offline mode. *)
Lemma after_effects (v : View) :
  effectDue v = false ->
  exists v', settle (timers v + 2) loads v = Some v' /\
             effectDue v' = false /\ timers v' = 0%nat /\ imports v' = imports v.
Proof.
  intros Hdue. destruct (timers v) as [|t] eqn:Ht.
  - exists v. simpl. rewrite Hdue, Ht. auto.
  - set (v2 := fireTimer v).
    assert (Hv2 : settle (S t + 2) loads v = settle (t + 2) loads v2).
    { simpl. rewrite Hdue, Ht. reflexivity. }
    rewrite Hv2.
    destruct (effectDue v2) eqn:Hd2.
    + pose proof (runEffect_in_offline_mode v2 eq_refl) as Hrun.
      destruct (drain_timers t (runEffect loads v2)) as (v' & Hs & H1 & H2 & H3).
      * rewrite Hrun. simpl. rewrite Ht. reflexivity.
      * rewrite Hrun. reflexivity.
      * rewrite Hrun. reflexivity.
      * exists v'. split; [|repeat split; auto].
        -- replace (t + 2)%nat with (S (S t)) by lia.
           rewrite settle_unfold, Hd2. exact Hs.
        -- rewrite H3, Hrun. reflexivity.
    + destruct (drain_timers t v2) as (v' & Hs & H1 & H2 & H3).
      * simpl. rewrite Ht. reflexivity.
      * reflexivity.
      * exact Hd2.
      * exists v'. split; [|repeat split; auto].
        replace (t + 2)%nat with (S t + 1)%nat by lia.
        now apply settle_more_fuel.
Qed.

End SettleFacts.

Section SettleProperties.

Import CivicMap.

(** X8.  From any state of the map view and whatever the outcomes of
    the loads, the automatic behaviour (due effects and pending timers)
    comes to rest within a number of steps bounded by the pending timers
    plus four; at rest nothing is due or pending, and the library has
    been imported at most once more. *)
Theorem selector_always_settles (loads : nat -> bool) (v : View) (extra : nat) :
  exists v', settle (timers v + 4 + extra) loads v = Some v' /\
             effectDue v' = false /\ timers v' = 0%nat /\
             (imports v <= imports v')%nat /\ (imports v' <= imports v + 1)%nat.
Proof.
  destruct (effectDue v) eqn:Hdue.
  - destruct (runEffect_facts loads v) as (H1 & H2 & H3 & H4).
    destruct (after_effects loads (runEffect loads v) H1) as (v' & Hs & Hd & Ht & Hi).
    exists v'. split; [|repeat split; auto; lia].
    replace (timers v + 4 + extra)%nat with (S (timers v + 3 + extra)) by lia.
    rewrite settle_unfold, Hdue.
    replace (timers v + 3 + extra)%nat
      with (timers (runEffect loads v) + 2
            + (timers v + 1 - timers (runEffect loads v) + extra))%nat by lia.
    now apply settle_more_fuel.
  - destruct (after_effects loads v Hdue) as (v' & Hs & Hd & Ht & Hi).
    exists v'. split; [|repeat split; auto; lia].
    replace (timers v + 4 + extra)%nat with (timers v + 2 + (2 + extra))%nat by lia.
    now apply settle_more_fuel.
Qed.

(** X9.  What a freshly mounted map view comes to.  Online, it imports
    the library exactly once and shows the interactive map when that
    load succeeds, the offline map when it fails.  Offline, it never
    imports the library and draws the offline map, but the loading
    overlay stays over it: [initializeMap] returns at its first guard,
    before [setIsLoading(false)], because the map container is not on
    the page, and nothing that runs by itself clears [isLoading]. *)
Theorem selector_outcome_from_mount (loads : nat -> bool) (onLine : bool) (extra : nat) :
  exists v, settle (4 + extra) loads (mounted onLine) = Some v /\
            imports v = (if onLine then 1 else 0)%nat /\
            mapInstance v = onLine && loads 0%nat /\
            mode v = (if onLine
                      then if loads 0%nat then LiveRendering else Fallback
                      else Loading) /\
            showsOfflineMap v = negb (onLine && loads 0%nat) /\
            showsOverlay v = negb onLine.
Proof.
  change (4 + extra)%nat with (S (S (S (S extra)))).
  destruct onLine.
  - rewrite settle_unfold. cbn [mounted effectDue].
    unfold runEffect at 1. unfold initializeMap at 1. cbn -[settle].
    destruct (loads 0%nat) eqn:Hload; cbn -[settle].
    + eexists. split; [reflexivity|]. repeat split.
    + eexists. split; [destruct extra; reflexivity|]. repeat split.
  - eexists. split; [reflexivity|]. repeat split.
Qed.

End SettleProperties.

(** ** Map view: marker identifiers *)

Section IdentifierFacts.

Import CivicMap.

Lemma plain_uint (d : Decimal.uint) : JS.plain (NilEmpty.string_of_uint d).
Proof. induction d; simpl; auto; split; auto; discriminate. Qed.

Lemma plain_showZ (z : Z) : JS.plain (JS.showZ z).
Proof.
  unfold JS.showZ, NilEmpty.string_of_int.
  destruct (Z.to_int z); simpl; [|split; [discriminate|]]; apply plain_uint.
Qed.

Lemma showZ_inj (a b : Z) : JS.showZ a = JS.showZ b -> a = b.
Proof.
  unfold JS.showZ. intros H.
  assert (E : Z.to_int a = Z.to_int b).
  { pose proof (NilEmpty.isi (Z.to_int a)) as Ha.
    pose proof (NilEmpty.isi (Z.to_int b)) as Hb.
    rewrite H in Ha. congruence. }
  rewrite <- (DecimalZ.of_to a), <- (DecimalZ.of_to b). now rewrite E.
Qed.

Lemma split_at_underscore (a a' b b' : string) :
  JS.plain a -> JS.plain a' ->
  a ++ String "_" b = a' ++ String "_" b' -> a = a' /\ b = b'.
Proof.
  revert a'. induction a as [|c a IH]; intros [|c' a'] Ha Ha' H; simpl in *.
  - injection H as ->. auto.
  - injection H as <- _. destruct Ha' as [Hc _]. congruence.
  - injection H as -> _. destruct Ha as [Hc _]. congruence.
  - injection H as -> H. destruct Ha as [_ Ha], Ha' as [_ Ha'].
    destruct (IH a' Ha Ha' H) as [-> ->]. auto.
Qed.

Lemma reportId_inj (now now' : Z) (n n' : nat) :
  reportId now n = reportId now' n' -> n = n'.
Proof.
  unfold reportId. intros H. simpl in H. injection H as H.
  apply split_at_underscore in H as [_ H]; try apply plain_showZ.
  apply showZ_inj in H. lia.
Qed.

Lemma convert_id (clock : Clock) (report : Report.NewReport) (index : nat)
      (m : IncidentMarker) :
  convertReportToMarker clock report index = Some m -> id m = reportId (now clock) index.
Proof.
  unfold convertReportToMarker. destruct (Report.coordinates report); [|discriminate].
  intros H. injection H as <-. reflexivity.
Qed.

Lemma ids_distinct {A : Type} (l : list A) :
  forall (f : nat -> A -> option IncidentMarker) (k : nat),
    (forall i a m, f i a = Some m -> exists now, id m = reportId now (k + i)) ->
    NoDup (map id (filterNotNull (imap f l))) /\
    (forall x, In x (map id (filterNotNull (imap f l))) ->
               exists now n, x = reportId now n /\ (k <= n)%nat).
Proof.
  induction l as [|a l IH]; intros f k Hf; simpl.
  - split; [constructor | intros x []].
  - destruct (IH (fun n => f (S n)) (S k)) as [Hnd Hin].
    { intros i a' m H. destruct (Hf (S i) a' m H) as [now E].
      exists now. now replace (S k + i)%nat with (k + S i)%nat by lia. }
    destruct (f 0%nat a) as [m|] eqn:E; simpl.
    + destruct (Hf 0%nat a m E) as [now Em]. split.
      * constructor; [|exact Hnd]. rewrite list_elem_of_In. intros Hm.
        destruct (Hin _ Hm) as (now' & n & E' & Hn).
        rewrite Em in E'. apply reportId_inj in E'. lia.
      * intros x [<-|Hx].
        -- exists now, (k + 0)%nat. split; [exact Em | lia].
        -- destruct (Hin x Hx) as (now' & n & E' & Hn).
           exists now', n. split; [exact E' | lia].
    + split; [exact Hnd|]. intros x Hx.
      destruct (Hin x Hx) as (now' & n & E' & Hn).
      exists now', n. split; [exact E' | lia].
Qed.

End IdentifierFacts.

Section IdentifierProperties.

Import CivicMap.

(** X10.  The markers of the map never share an identifier: whatever
    the clock reads during the conversions, the identifiers of the
    sample markers and of the markers made from the submitted reports
    are pairwise distinct. *)
Theorem marker_ids_distinct (clocks : nat -> Clock) (newReports : list Report.NewReport) :
  NoDup (map id (allMarkers clocks newReports)).
Proof.
  assert (Hs : NoDup (map id sampleMarkers)).
  { simpl.
    repeat (constructor; [rewrite list_elem_of_In; simpl; intuition discriminate|]).
    constructor. }
  unfold allMarkers. destruct (0 <? length newReports)%nat; [|exact Hs].
  rewrite map_app. apply NoDup_app. split; [exact Hs|].
  destruct (ids_distinct newReports
              (fun index report => convertReportToMarker (clocks index) report index) 0%nat)
    as [Hnd Hin].
  { intros i a m H. exists (now (clocks i)). exact (convert_id _ _ _ _ H). }
  split; [|exact Hnd].
  intros x Hx Hx'. apply list_elem_of_In in Hx, Hx'.
  destruct (Hin x Hx') as (now' & n & -> & _).
  simpl in Hx. unfold reportId in Hx. simpl in Hx. intuition discriminate.
Qed.

End IdentifierProperties.

(** ** Classifier: shape of the results, timing, letter case *)

Section ClassifierMoreFacts.

Import Classifier.

Lemma toLowerChar_sameLetter (a b : ascii) :
  JS.sameLetter a b = true -> JS.toLowerChar a = JS.toLowerChar b.
Proof.
  unfold JS.sameLetter, JS.toLowerChar. intros H.
  apply orb_true_iff in H as [H|H]; [apply orb_true_iff in H as [H|H]|].
  - apply Ascii.eqb_eq in H. now subst.
  - apply andb_true_iff in H as [Hu Hn]. apply Nat.eqb_eq in Hn. rewrite Hu.
    assert (Hb : JS.isUpper b = false).
    { unfold JS.isUpper in *. cbv zeta in *. rewrite Hn.
      apply andb_true_iff in Hu as [H1 H2]. apply Nat.leb_le in H1, H2.
      apply andb_false_iff. right. apply Nat.leb_gt. lia. }
    rewrite Hb, <- Hn. apply ascii_nat_embedding.
  - apply andb_true_iff in H as [Hu Hn]. apply Nat.eqb_eq in Hn. rewrite Hu.
    assert (Ha : JS.isUpper a = false).
    { unfold JS.isUpper in *. cbv zeta in *. rewrite Hn.
      apply andb_true_iff in Hu as [H1 H2]. apply Nat.leb_le in H1, H2.
      apply andb_false_iff. right. apply Nat.leb_gt. lia. }
    rewrite Ha, <- Hn. symmetry. apply ascii_nat_embedding.
Qed.

Lemma toLowerCase_sameIgnoringCase (s : string) :
  forall t, JS.sameIgnoringCase s t = true -> JS.toLowerCase s = JS.toLowerCase t.
Proof.
  induction s as [|a s IH]; intros [|b t] H; simpl in *; try discriminate; [reflexivity|].
  apply andb_true_iff in H as [Hab Hst].
  now rewrite (toLowerChar_sameLetter a b Hab), (IH t Hst).
Qed.

End ClassifierMoreFacts.

Section ClassifierMoreProperties.

Import Classifier.

(** X11.  Whatever the text and whichever table answers, the result is
    well formed: its category is one of ten fixed labels, its confidence
    lies between 0.6 and 0.95 (so within 0 and 1, and the percentage
    shown lies between 60 and 95), and the fallback flag is set exactly
    on the results of the offline table. *)
Theorem classification_result_well_formed (t : Table) (text : string) :
  In (category (classify t text))
     ["Safety Issue"; "Infrastructure"; "Environmental"; "Traffic"; "High Priority";
      "Support Request"; "Positive Feedback"; "Issue Report"; "Feature Request"; "Other"] /\
  (0.6 <= confidence (classify t text))%Q /\
  (confidence (classify t text) <= 0.95)%Q /\
  (60 <= shownPercent (classify t text) <= 95)%Z /\
  isOfflineFallback (classify t text) = match t with
                                        | Offline => Some true
                                        | OnlineSimulated => None
                                        end.
Proof.
  destruct t; unfold classify, offlineClassification, mockClassification;
    repeat match goal with |- context [if ?b then _ else _] => destruct b end;
    (split; [simpl; tauto|]);
    (split; [vm_compute; discriminate|]);
    (split; [vm_compute; discriminate|]);
    (split; [vm_compute; split; discriminate | reflexivity]).
Qed.

(** X12.  How long a classification of a non-blank text waits on its
    timers: 800 ms when the assistant is offline or in fallback mode,
    1500 ms when the simulated call goes through, 2500 ms when it is
    rejected and the offline table answers.  Offline or in fallback mode
    the run does not depend on the random draw at all and never shows
    an error message. *)
Theorem classification_latency (st : AssistantState) (random other : Q) :
  isBlank (inputText st) = false ->
  totalWait (handleClassify st random)
  = (if negb (isOnline st) || useOfflineFallback st then 800
     else if Qltb random 0.3 then 2500 else 1500)%Z /\
  (negb (isOnline st) || useOfflineFallback st = true ->
   handleClassify st random = handleClassify st other /\
   forall message, ~ In (SetError (Some message)) (handleClassify st random)).
Proof.
  intros Hblank. unfold handleClassify. rewrite Hblank. split.
  - destruct (negb (isOnline st) || useOfflineFallback st); [reflexivity|].
    destruct (Qltb random 0.3); reflexivity.
  - intros Hmode. rewrite Hmode. split; [reflexivity|].
    intros message Hin. simpl in Hin.
    repeat match goal with
           | H : _ \/ _ |- _ => destruct H
           | H : False |- _ => destruct H
           end; discriminate.
Qed.

Lemma classification_latency_witness :
  let st := {| inputText := "streetlight out since monday"; isLoading := false;
               result := None; error := None; isOnline := true;
               useOfflineFallback := false |} in
  isBlank (inputText st) = false /\
  totalWait (handleClassify st 0.1) = 2500%Z /\
  totalWait (handleClassify st 0.7) = 1500%Z.
Proof.
  intros st.
  assert (Hblank : isBlank (inputText st) = false) by (vm_compute; reflexivity).
  split; [exact Hblank|]. split.
  - destruct (classification_latency st 0.1 0 Hblank) as [-> _]. reflexivity.
  - destruct (classification_latency st 0.7 0 Hblank) as [-> _]. reflexivity.
Defined.

(** X13.  Classification ignores the case of letters: two texts that
    differ at most in the case of their letters get the same result from
    either table, and so from every run of the assistant. *)
Theorem classification_ignores_case (t : Table) (text text' : string) :
  JS.sameIgnoringCase text text' = true ->
  classify t text = classify t text'.
Proof.
  intros Hsame. apply toLowerCase_sameIgnoringCase in Hsame.
  destruct t; unfold classify, offlineClassification, mockClassification;
    now rewrite Hsame.
Qed.

Lemma classification_ignores_case_witness :
  JS.sameIgnoringCase "DANGER: Deep Pothole" "danger: deep pothole" = true /\
  classify Offline "DANGER: Deep Pothole" = classify Offline "danger: deep pothole".
Proof.
  split; [vm_compute; reflexivity|].
  apply classification_ignores_case. vm_compute; reflexivity.
Defined.

End ClassifierMoreProperties.

(** ** Report form: what reaches the callback *)

Section FormMoreFacts.

Import ReportForm.

Variable parseFloat : string -> JS.number.

Lemma validateForm_passed (st : FormState) :
  (size (validateForm st) =? 0)%nat = true ->
  isEmpty (JS.trim (location st)) = false /\
  isEmpty (JS.trim (description st)) = false /\
  (String.length (JS.trim (description st)) <? 10)%nat = false /\
  isEmpty (category st) = false.
Proof.
  intros H. apply Nat.eqb_eq in H. apply map_size_empty_iff in H.
  unfold validateForm in H.
  destruct (isEmpty (category st)); [now apply insert_non_empty in H|].
  destruct (isEmpty (JS.trim (description st))); [now apply insert_non_empty in H|].
  destruct (String.length (JS.trim (description st)) <? 10)%nat;
    [now apply insert_non_empty in H|].
  destruct (isEmpty (JS.trim (location st))); [|auto].
  now apply map_non_empty_singleton in H.
Qed.

Lemma search_found (fetch : string -> Response) (queries : list string)
      (place : GeocodedLocation) :
  search parseFloat fetch queries = Some place ->
  exists q data best others,
    In q queries /\ fetch q = Ok data /\
    List.filter namesKerala data = best :: others /\
    place = {| lat := parseFloat (LocationResult.lat best);
               lon := parseFloat (LocationResult.lon best);
               name := LocationResult.display_name best |}.
Proof.
  induction queries as [|q rest IH]; simpl; [discriminate|].
  destruct (fetch q) as [| | |data] eqn:Eq; try discriminate.
  - intros H. destruct (IH H) as (q' & d & b & o & Hin & Hrest).
    exists q', d, b, o. split; [now right | exact Hrest].
  - destruct (List.filter namesKerala data) as [|best others] eqn:Ef.
    + intros H. destruct (IH H) as (q' & d & b & o & Hin & Hrest).
      exists q', d, b, o. split; [now right | exact Hrest].
    + destruct (withinKeralaBounds (parseFloat (LocationResult.lat best))
                                   (parseFloat (LocationResult.lon best))).
      * intros H. injection H as <-.
        exists q, data, best, others. repeat split; auto.
      * intros H. destruct (IH H) as (q' & d & b & o & Hin & Hrest).
        exists q', d, b, o. split; [now right | exact Hrest].
Qed.

Lemma filter_head_passes {A : Type} (test : A -> bool) (l : list A) (x : A) (rest : list A) :
  List.filter test l = x :: rest -> test x = true /\ In x l.
Proof.
  intros H. assert (Hin : In x (List.filter test l)) by (rewrite H; now left).
  apply filter_In in Hin. tauto.
Qed.

Lemma findBest_mentions_kerala (fetch : string -> Response) (query : string)
      (place : GeocodedLocation) :
  findBestLocationInKerala parseFloat fetch query = Some place ->
  mentionsKerala (name place) = true.
Proof.
  unfold findBestLocationInKerala.
  destruct (String.length query <? 2)%nat; [discriminate|].
  intros H. apply search_found in H as (q & data & best & others & _ & _ & Hf & ->).
  apply filter_head_passes in Hf as [Hk _]. exact Hk.
Qed.

Lemma formInvariant_reachable (st : FormState) :
  reachable parseFloat st -> formInvariant st.
Proof.
  induction 1 as [|st ev _ [IHp IHi]]; [split; exact I|].
  destruct ev as [v|v|v|f| |fetch throws]; simpl; try (split; [exact IHp | exact IHi]).
  - split; [exact I | exact IHi].
  - unfold handleImageUpload, formInvariant.
    destruct (10 * 1024 * 1024 <? Report.fileSize f)%Z eqn:Esize;
      [split; [exact IHp | exact IHi]|].
    destruct (String.prefix "image/" (Report.fileType f)) eqn:Etype; simpl;
      [|split; [exact IHp | exact IHi]].
    split; [exact IHp|]. unfold acceptableImage. rewrite Etype, andb_true_r.
    apply Z.leb_le. apply Z.ltb_ge in Esize. exact Esize.
  - split; [exact IHp | exact I].
  - unfold handleSubmit, formInvariant.
    destruct (negb _); [split; [exact IHp | exact IHi]|].
    destruct (geocodedLocation st) as [place|] eqn:Eg.
    + unfold submitWith. destruct throws; simpl; [|split; exact I].
      split; [exact IHp | exact IHi].
    + destruct (isEmpty _); [split; [exact I | exact IHi]|].
      destruct (findBestLocationInKerala _ _ _) as [found|] eqn:Ef;
        [|split; [exact I | exact IHi]].
      unfold submitWith. destruct throws; simpl; [|split; exact I].
      split; [|exact IHi]. split.
      * exact (findBest_within_bounds parseFloat fetch _ found Ef).
      * exact (findBest_mentions_kerala fetch _ found Ef).
Qed.

Lemma mentionsKerala_not_empty (s : string) : mentionsKerala s = true -> isEmpty s = false.
Proof. destruct s; [discriminate | reflexivity]. Qed.

End FormMoreFacts.

Section FormMoreProperties.

Import ReportForm.

Variable parseFloat : string -> JS.number.

(** X14.  Every report the form hands to [onSubmit], in any state the
    form can reach, is well formed: its description is the trimmed text
    of the field and has at least 10 characters, its category is the
    selected one and is not empty, its location is a display name that
    mentions Kerala or one of its districts, and its image, if any, is
    one the upload handler accepted (at most 10 MB, of an image type). *)
Theorem submitted_report_is_well_formed (st st' : FormState)
        (fetch : string -> Response) (onSubmitThrows : bool) (data : Report.NewReport) :
  reachable parseFloat st ->
  handleSubmit parseFloat fetch onSubmitThrows st = (st', Some data) ->
  Report.description data = JS.trim (description st) /\
  (10 <= String.length (Report.description data))%nat /\
  Report.category data = category st /\
  Report.category data <> EmptyString /\
  mentionsKerala (Report.location data) = true /\
  match Report.image data with
  | Some file => acceptableImage file = true
  | None => True
  end.
Proof.
  intros Hreach. destruct (formInvariant_reachable parseFloat st Hreach) as [Hp Hi].
  unfold handleSubmit.
  destruct (size (validateForm st) =? 0)%nat eqn:Hv; simpl; [|discriminate].
  destruct (validateForm_passed st Hv) as (Hloc & _ & Hlen & Hcat).
  assert (Hshape : forall pending place label,
             mentionsKerala label = true ->
             submitWith onSubmitThrows st pending place label = (st', Some data) ->
             Report.description data = JS.trim (description st) /\
             (10 <= String.length (Report.description data))%nat /\
             Report.category data = category st /\
             Report.category data <> EmptyString /\
             mentionsKerala (Report.location data) = true /\
             match Report.image data with
             | Some file => acceptableImage file = true
             | None => True
             end).
  { intros pending place label Hlabel. unfold submitWith.
    destruct onSubmitThrows; intros H; injection H as _ <-; simpl;
      (split; [reflexivity|]);
      (split; [apply Nat.ltb_ge in Hlen; exact Hlen|]);
      (split; [reflexivity|]);
      (split; [intros E; rewrite E in Hcat; discriminate Hcat|]);
      (split; [exact Hlabel | exact Hi]). }
  destruct (geocodedLocation st) as [place|] eqn:Eg.
  - destruct Hp as [_ Hname]. apply Hshape.
    now rewrite (mentionsKerala_not_empty _ Hname).
  - rewrite Hloc.
    destruct (findBestLocationInKerala parseFloat fetch (JS.trim (location st)))
      as [found|] eqn:Ef; [|discriminate].
    apply Hshape. exact (findBest_mentions_kerala parseFloat fetch _ found Ef).
Qed.

(** X15.  When the callback throws, the form keeps the place it pinned:
    submitting again hands over a report with the same coordinates,
    description, category and image without asking the geocoder (the
    result is the same for every behaviour of the network), and leaves
    the form empty. *)
Theorem retry_reuses_pinned_place (st st' : FormState)
        (fetch fetch' : string -> Response) (data : Report.NewReport) :
  handleSubmit parseFloat fetch true st = (st', Some data) ->
  exists data',
    handleSubmit parseFloat fetch' false st' = (initial, Some data') /\
    Report.coordinates data' = Report.coordinates data /\
    Report.description data' = Report.description data /\
    Report.category data' = Report.category data /\
    Report.image data' = Report.image data.
Proof.
  unfold handleSubmit at 1.
  destruct (size (validateForm st) =? 0)%nat eqn:Hv; simpl; [|discriminate].
  assert (Hretry : forall pending place label,
             submitWith true st pending place label = (st', Some data) ->
             exists data',
               handleSubmit parseFloat fetch' false st' = (initial, Some data') /\
               Report.coordinates data' = Report.coordinates data /\
               Report.description data' = Report.description data /\
               Report.category data' = Report.category data /\
               Report.image data' = Report.image data).
  { intros pending place label H. unfold submitWith in H. injection H as <- <-.
    unfold handleSubmit.
    change (validateForm _) with (validateForm st). rewrite Hv. simpl.
    eexists. split; [reflexivity|]. repeat split. }
  destruct (geocodedLocation st) as [place|]; [apply Hretry|].
  destruct (isEmpty (JS.trim (location st))); [discriminate|].
  destruct (findBestLocationInKerala parseFloat fetch (JS.trim (location st)))
    as [found|]; [apply Hretry | discriminate].
Qed.

(** X16.  What the geocoder can answer.  A place it returns is the
    first candidate whose name mentions Kerala or a district in the
    response to one of the three search texts built from the query, with
    its coordinates parsed, inside the box; the query has at least two
    characters.  A query of fewer than two characters gives nothing,
    and so does a failed request for the first search text, whatever
    the later requests would have answered. *)
Theorem geocoder_answers (fetch : string -> Response) (query : string) :
  (forall place,
      findBestLocationInKerala parseFloat fetch query = Some place ->
      (2 <= String.length query)%nat /\
      withinKeralaBounds (lat place) (lon place) = true /\
      mentionsKerala (name place) = true /\
      exists q data best others,
        In q [query ++ ", Kerala, India"; query ++ " Kerala"; query ++ ", India"] /\
        fetch q = Ok data /\
        List.filter namesKerala data = best :: others /\
        place = {| lat := parseFloat (LocationResult.lat best);
                   lon := parseFloat (LocationResult.lon best);
                   name := LocationResult.display_name best |}) /\
  ((String.length query < 2)%nat ->
   findBestLocationInKerala parseFloat fetch query = None) /\
  (fetch (query ++ ", Kerala, India") = NetworkError ->
   findBestLocationInKerala parseFloat fetch query = None).
Proof.
  split; [|split].
  - intros place H.
    pose proof (findBest_within_bounds parseFloat fetch query place H) as Hbox.
    pose proof (findBest_mentions_kerala parseFloat fetch query place H) as Hname.
    unfold findBestLocationInKerala in H.
    destruct (String.length query <? 2)%nat eqn:Hlen; [discriminate|].
    apply Nat.ltb_ge in Hlen.
    split; [exact Hlen|]. split; [exact Hbox|]. split; [exact Hname|].
    now apply search_found.
  - intros Hlen. unfold findBestLocationInKerala.
    apply Nat.ltb_lt in Hlen. now rewrite Hlen.
  - intros Hnet. unfold findBestLocationInKerala.
    destruct (String.length query <? 2)%nat; [reflexivity|].
    simpl. now rewrite Hnet.
Qed.

End FormMoreProperties.

Section FormMoreExamples.

Import ReportForm.

Lemma submitted_report_is_well_formed_witness :
  let parseFloat := fun s : string =>
                      if String.eqb s "9.9312" then JS.Fin 9.9312
                      else if String.eqb s "76.2673" then JS.Fin 76.2673
                      else JS.NaN in
  let fetch := fun _ : string =>
                 Ok [{| LocationResult.display_name := "Kochi, Ernakulam, Kerala, India";
                        LocationResult.lat := "9.9312"; LocationResult.lon := "76.2673";
                        LocationResult.place_id := 1 |}] in
  let st := run parseFloat initial
                [LocationInput "Kochi";
                 DescriptionInput "  Large pothole on the main road ";
                 CategoryChange "infrastructure"] in
  reachable parseFloat st /\
  exists st' data,
    handleSubmit parseFloat fetch false st = (st', Some data) /\
    Report.description data = "Large pothole on the main road" /\
    (10 <= String.length (Report.description data))%nat /\
    Report.category data = "infrastructure" /\
    mentionsKerala (Report.location data) = true.
Proof.
  intros parseFloat fetch st.
  assert (Hreach : reachable parseFloat st).
  { exact (reachable_step parseFloat _ (CategoryChange "infrastructure")
             (reachable_step parseFloat _ (DescriptionInput "  Large pothole on the main road ")
                (reachable_step parseFloat _ (LocationInput "Kochi")
                   (reachable_initial parseFloat)))). }
  split; [exact Hreach|].
  destruct (handleSubmit parseFloat fetch false st) as [st' [data|]] eqn:E.
  - destruct (submitted_report_is_well_formed parseFloat st st' fetch false data Hreach E)
      as (Hd & Hlen & Hc & _ & Hk & _).
    exists st', data. split; [reflexivity|].
    split; [rewrite Hd; vm_compute; reflexivity|].
    split; [exact Hlen|]. split; [rewrite Hc; vm_compute; reflexivity | exact Hk].
  - vm_compute in E. discriminate E.
Defined.

Lemma retry_reuses_pinned_place_witness :
  let parseFloat := fun s : string =>
                      if String.eqb s "9.9312" then JS.Fin 9.9312
                      else if String.eqb s "76.2673" then JS.Fin 76.2673
                      else JS.NaN in
  let fetch := fun _ : string =>
                 Ok [{| LocationResult.display_name := "Kochi, Ernakulam, Kerala, India";
                        LocationResult.lat := "9.9312"; LocationResult.lon := "76.2673";
                        LocationResult.place_id := 1 |}] in
  let offline := fun _ : string => NetworkError in
  let st := run parseFloat initial
                [LocationInput "Kochi";
                 DescriptionInput "Large pothole on the main road";
                 CategoryChange "infrastructure"] in
  exists st' data data',
    handleSubmit parseFloat fetch true st = (st', Some data) /\
    handleSubmit parseFloat offline false st' = (initial, Some data') /\
    Report.coordinates data' = Report.coordinates data /\
    Report.coordinates data' =
      Some {| Report.lat := JS.Fin 9.9312; Report.lon := JS.Fin 76.2673 |}.
Proof.
  intros parseFloat fetch offline st.
  destruct (handleSubmit parseFloat fetch true st) as [st' [data|]] eqn:E.
  - destruct (retry_reuses_pinned_place parseFloat st st' fetch offline data E)
      as (data' & Hretry & Hc & _).
    exists st', data, data'. split; [reflexivity|]. split; [exact Hretry|].
    split; [exact Hc|]. rewrite Hc.
    vm_compute in E. injection E as _ <-. reflexivity.
  - vm_compute in E. discriminate E.
Defined.

End FormMoreExamples.

(** ** Category chart: the error panel, the loader, the summary, the bars *)

Section ChartMoreFacts.

Import CategoryChart.

Lemma liveRender_with_error (isLoading drawOk : bool) (st : ChartState)
      (d : CategoryData) (message : string) :
  chartError st = Some message ->
  liveRender isLoading drawOk st d = NotRendered /\
  body isLoading st d <> ChartContainer.
Proof.
  intros H. unfold liveRender, renderGoogleChart, chartRefMounted, body. rewrite H.
  destruct isLoading, (useOfflineMode st), (isGoogleChartsLoaded st); simpl;
    split; try reflexivity; discriminate.
Qed.

Lemma loadGoogleCharts_keeps_error (scripts : nat -> bool) (w : Window) (st : ChartState) :
  chartError st <> None -> chartError (snd (loadGoogleCharts scripts w st)) <> None.
Proof.
  intros H. unfold loadGoogleCharts.
  destruct (onLine w); simpl; [|exact H].
  destruct (googleCharts w); simpl; [exact H|].
  destruct (scripts (scriptRequests st)); simpl; [exact H | discriminate].
Qed.

Lemma chartStep_keeps_error (ws : Window * ChartState) (ev : ChartEvent) :
  chartError (snd ws) <> None -> chartError (snd (chartStep ws ev)) <> None.
Proof.
  destruct ws as [w st]. simpl. intros H.
  destruct ev as [scripts| | |view|env d|isLoading drawOk d]; simpl; try exact H.
  - unfold handleOnline. now apply loadGoogleCharts_keeps_error.
  - destruct (chartError st) as [message|] eqn:E; [|congruence].
    destruct (liveRender_with_error isLoading drawOk st d message E) as [-> _].
    simpl. now rewrite E.
Qed.

Lemma chartRun_keeps_error (evs : list ChartEvent) (ws : Window * ChartState) :
  chartError (snd ws) <> None -> chartError (snd (chartRun ws evs)) <> None.
Proof.
  revert ws. induction evs as [|ev rest IH]; intros ws H; simpl; [exact H|].
  apply IH. now apply chartStep_keeps_error.
Qed.

Lemma chartRun_app (ws : Window * ChartState) (evs1 evs2 : list ChartEvent) :
  chartRun ws (evs1 ++ evs2) = chartRun (chartRun ws evs1) evs2.
Proof. unfold chartRun. apply fold_left_app. Qed.

End ChartMoreFacts.

Section ChartMoreProperties.

Import CategoryChart.

(** X17.  The error of the chart card is never cleared.  Once a load or
    a drawing has failed, whatever happens afterwards (the browser comes
    back online and the library loads, the view or the data change, the
    drawing effect runs again) the error stays set, the container of the
    live chart is not on the page and the live chart is not drawn: out
    of offline mode the card shows the error panel. *)
Theorem chart_error_is_never_cleared (w : Window) (before after : list ChartEvent)
        (message : string) :
  chartError (snd (chartRun (w, initialState) before)) = Some message ->
  exists message',
    let st := snd (chartRun (w, initialState) (before ++ after)) in
    chartError st = Some message' /\
    forall (isLoading drawOk : bool) (d : CategoryData),
      liveRender isLoading drawOk st d = NotRendered /\
      body isLoading st d <> ChartContainer /\
      (isLoading = false -> useOfflineMode st = false ->
       body isLoading st d = ErrorPanel message').
Proof.
  intros H. rewrite chartRun_app.
  assert (Hkept : chartError (snd (chartRun (chartRun (w, initialState) before) after))
                  <> None).
  { apply chartRun_keeps_error. rewrite H. discriminate. }
  destruct (chartError (snd (chartRun (chartRun (w, initialState) before) after)))
    as [message'|] eqn:E; [|congruence].
  exists message'. simpl. split; [exact E|].
  intros isLoading drawOk d.
  destruct (liveRender_with_error isLoading drawOk _ d message' E) as [Hlive Hbody].
  split; [exact Hlive|]. split; [exact Hbody|].
  intros -> Hoff. unfold body. now rewrite Hoff, E.
Qed.

Lemma chart_error_is_never_cleared_witness :
  let w := {| onLine := true; googleCharts := false; googleChartsLoaded := false |} in
  let d := [("Traffic", 2%Z); ("Other", 1%Z)] in
  let before := [WentOnline (fun k => negb (k =? 0)%nat)] in
  let after := [WentOnline (fun k => negb (k =? 0)%nat); DrawEffect false true d] in
  let st := snd (chartRun (w, initialState) (before ++ after)) in
  isGoogleChartsLoaded st = true /\ useOfflineMode st = false /\
  liveRender false true st d = NotRendered /\
  body false st d = ErrorPanel "Failed to load Google Charts. Using offline mode.".
Proof.
  intros w d before after st.
  destruct (chart_error_is_never_cleared w before after
              "Failed to load Google Charts. Using offline mode." eq_refl)
    as (message' & Herr & Hall).
  destruct (Hall false true d) as (Hlive & _ & Hpanel).
  split; [reflexivity|]. split; [reflexivity|]. split; [exact Hlive|].
  subst st. rewrite (Hpanel eq_refl eq_refl). f_equal.
  vm_compute in Herr. now injection Herr as <-.
Defined.

End ChartMoreProperties.

Section ChartSummaryFacts.

Import CategoryChart.

Lemma fold_max_first (d : CategoryData) (acc : string * Z) :
  let r := fold_left (fun max entry => if (snd entry >? snd max)%Z then entry else max)
                     d acc in
  (r = acc /\ Forall (fun e => (snd e <= snd acc)%Z) d) \/
  (exists l1 l2,
      d = (l1 ++ r :: l2)%list /\ (snd acc < snd r)%Z /\
      Forall (fun e => (snd e < snd r)%Z) l1 /\
      Forall (fun e => (snd e <= snd r)%Z) l2).
Proof.
  revert acc. induction d as [|x rest IH]; intros acc; simpl.
  - left. split; [reflexivity | constructor].
  - destruct (Z.gtb_spec (snd x) (snd acc)) as [G|G].
    + right. destruct (IH x) as [[-> Hall]|(l1 & l2 & Hd & Hlt & H1 & H2)].
      * exists [], rest. simpl. repeat split; [lia | constructor | exact Hall].
      * exists (x :: l1), l2. simpl in *. rewrite Hd at 1.
        repeat split; [lia | constructor; [lia | exact H1] | exact H2].
    + destruct (IH acc) as [[-> Hall]|(l1 & l2 & Hd & Hlt & H1 & H2)].
      * left. split; [reflexivity | constructor; [lia | exact Hall]].
      * right. exists (x :: l1), l2. simpl in *. rewrite Hd at 1.
        repeat split; [exact Hlt | constructor; [lia | exact H1] | exact H2].
Qed.

Lemma Qfloor_third (n : Z) : Qfloor (inject_Z n / 3) = (n / 3)%Z.
Proof. unfold Qfloor, Qdiv, Qmult, Qinv, inject_Z. simpl. now rewrite Z.mul_1_r. Qed.

Lemma filler_bounds (r : Q) (n : Z) :
  (0 <= n)%Z -> (0 <= r)%Q -> (r < 1)%Q ->
  (0 <= Qfloor (r * inject_Z n / 3) <= n / 3)%Z.
Proof.
  intros Hn H0 H1.
  assert (Hq : (0 <= inject_Z n)%Q) by (change 0%Q with (inject_Z 0); now rewrite <- Zle_Qle).
  assert (Hlo : (0 <= r * inject_Z n)%Q) by (apply Qmult_le_0_compat; assumption).
  assert (Hhi : (r * inject_Z n <= 1 * inject_Z n)%Q).
  { apply Qmult_le_compat_r; [apply Qlt_le_weak; exact H1 | exact Hq]. }
  split.
  - change 0%Z with (Qfloor 0%Q). apply Qfloor_resp_le.
    unfold Qdiv. apply Qmult_le_0_compat; [exact Hlo | easy].
  - rewrite <- Qfloor_third. apply Qfloor_resp_le.
    unfold Qdiv. apply Qmult_le_compat_r; [lra | easy].
Qed.

Lemma hasData_total (d : CategoryData) :
  Forall (fun entry => 0 <= snd entry)%Z d -> hasData d = true -> (0 < total d)%Z.
Proof.
  intros Hnn Hd. rewrite <- sumCounts_total.
  unfold hasData in Hd. apply andb_true_iff in Hd as [_ Hd].
  unfold values in Hd. induction Hnn as [|e d He Hrest IH]; simpl in *; [discriminate|].
  apply orb_true_iff in Hd as [Hd|Hd].
  - apply Z.ltb_lt in Hd.
    assert (0 <= sumCounts d)%Z; [|lia].
    clear -Hrest. induction Hrest as [|x l Hx _ IHl]; simpl; lia.
  - specialize (IH Hd). lia.
Qed.

Lemma fold_max_spec (l : list Z) (v : Z) :
  let m := fold_left Z.max l v in
  (v <= m)%Z /\ Forall (fun x => (x <= m)%Z) l /\ (m = v \/ In m l).
Proof.
  revert v. induction l as [|x l IH]; intros v; simpl.
  - split; [lia|]. split; [constructor | now left].
  - destruct (IH (Z.max v x)) as (Hv & Hall & Hin).
    split; [lia|]. split; [constructor; [lia | exact Hall]|].
    destruct Hin as [Hin|Hin]; [|right; now right].
    destruct (Z.max_spec v x) as [[_ E]|[_ E]].
    + right. left. now rewrite Hin.
    + left. now rewrite Hin.
Qed.

Lemma maxOf_spec (l : list Z) :
  l <> [] ->
  exists m, maxOf l = Some m /\ Forall (fun x => (x <= m)%Z) l /\ In m l.
Proof.
  destruct l as [|v l]; [congruence|]. intros _. simpl.
  destruct (fold_max_spec l v) as (Hv & Hall & Hin).
  eexists. split; [reflexivity|]. split; [constructor; assumption|].
  destruct Hin as [->|Hin]; [now left | now right].
Qed.

Lemma bars_of_entries (d0 : CategoryData) (d : CategoryData) (b : OfflineBar) :
  forall k : nat,
    In b (CivicMap.filterNotNull (imap (fun index => offlineBar d0 (k + index)) d)) ->
    In (barCategory b, barCount b) d /\ barCount b <> 0%Z /\
    barPercentage b = ratio (barCount b) (Some (total d0)) /\
    barWidth b = ratio (barCount b) (maxOf (values d0)).
Proof.
  intros k H. apply filterNotNull_In in H. apply list_elem_of_In in H.
  apply elem_of_lookup_imap in H as (i & e & Hb & Hi).
  unfold offlineBar in Hb. destruct (Z.eqb_spec (snd e) 0) as [E|E]; [discriminate|].
  injection Hb as ->. simpl. split; [|auto].
  apply list_elem_of_In. apply list_elem_of_lookup. exists i. now destruct e.
Qed.

Lemma entry_le_sum (d : CategoryData) (e : string * Z) :
  Forall (fun entry => 0 <= snd entry)%Z d -> In e d -> (snd e <= sumCounts d)%Z.
Proof.
  intros Hnn. induction Hnn as [|x l Hx Hrest IH]; simpl; [tauto|].
  assert (0 <= sumCounts l)%Z.
  { clear -Hrest. induction Hrest as [|y l Hy _ IHl]; simpl; lia. }
  intros [->|Hin]; [lia | specialize (IH Hin); lia].
Qed.

Lemma ratio_bounds (c m : Z) :
  (0 < c)%Z -> (c <= m)%Z ->
  (0 < ratio c (Some m))%Q /\ (ratio c (Some m) <= 100)%Q /\ (ratio m (Some m) == 100)%Q.
Proof.
  intros Hc Hm. unfold ratio.
  assert (Hpos : (0 <? m)%Z = true) by (apply Z.ltb_lt; lia). rewrite Hpos.
  assert (Hqc : (0 < inject_Z c)%Q) by (change 0%Q with (inject_Z 0); rewrite <- Zlt_Qlt; lia).
  assert (Hqm : (0 < inject_Z m)%Q) by (change 0%Q with (inject_Z 0); rewrite <- Zlt_Qlt; lia).
  assert (Hle : (inject_Z c <= inject_Z m)%Q) by (now rewrite <- Zle_Qle).
  split; [|split].
  - apply Qmult_lt_0_compat; [|reflexivity].
    unfold Qdiv. apply Qmult_lt_0_compat; [exact Hqc | now apply Qinv_lt_0_compat].
  - apply Qle_trans with (1 * 100)%Q; [|discriminate].
    apply Qmult_le_compat_r; [|discriminate].
    apply Qle_shift_div_r; [exact Hqm|]. now rewrite Qmult_1_l.
  - field. intros E. rewrite E in Hqm. discriminate Hqm.
Qed.

Lemma chartStep_requests (ws : Window * ChartState) (ev : ChartEvent) :
  (scriptRequests (snd ws) <= scriptRequests (snd (chartStep ws ev))
   <= scriptRequests (snd ws) + match ev with WentOnline _ => 1 | _ => 0 end)%nat /\
  (googleCharts (fst ws) = true ->
   googleCharts (fst (chartStep ws ev)) = true /\
   scriptRequests (snd (chartStep ws ev)) = scriptRequests (snd ws)).
Proof.
  destruct ws as [w st].
  destruct ev as [scripts| | |view|env d|isLoading drawOk d]; simpl;
    try (split; [lia | auto]).
  - unfold handleOnline, loadGoogleCharts. simpl.
    destruct (googleCharts w); simpl; [split; [lia | auto]|].
    destruct (scripts (scriptRequests st)); simpl; (split; [lia | discriminate]).
  - destruct (liveRender isLoading drawOk st d); simpl; (split; [lia | auto]).
Qed.

End ChartSummaryFacts.

Section ChartSummaryProperties.

Import CategoryChart.

(** X18.  The "Top Category" of the summary is the first entry of the
    category data with the greatest count, provided that count is
    positive: every entry before it has a smaller count and no entry
    after it a greater one.  When no count is positive the summary
    shows "None". *)
Theorem top_category_is_first_greatest (env : nat -> Draw) (d : CategoryData) :
  let top := mostCommonCategory (calculateAnalytics env d) in
  (top = "None" /\ Forall (fun e => (snd e <= 0)%Z) d) \/
  (exists l1 n l2,
      d = (l1 ++ (top, n) :: l2)%list /\ (0 < n)%Z /\
      Forall (fun e => (snd e < n)%Z) l1 /\
      Forall (fun e => (snd e <= n)%Z) l2).
Proof.
  simpl. unfold mostCommon.
  destruct (fold_max_first d ("None", 0%Z)) as [[-> Hall]|(l1 & l2 & Hd & Hlt & H1 & H2)].
  - left. split; [reflexivity | exact Hall].
  - right.
    destruct (fold_left (fun max entry => if (snd entry >? snd max)%Z then entry else max)
                        d ("None", 0%Z)) as [c n].
    exists l1, n, l2. simpl in *. auto.
Qed.

(** X19.  The trend series of the summary has seven points, and each
    count lies between [floor(total / 7)] and
    [floor(total / 7) + floor(total / 3)], whatever [Math.random()]
    returns: with fewer than three reports the line is flat at 0. *)
Theorem trend_filler_bounds (env : nat -> Draw) (d : CategoryData) :
  (0 <= total d)%Z ->
  (forall i, (0 <= random (env i))%Q /\ (random (env i) < 1)%Q) ->
  length (trendData (calculateAnalytics env d)) = 7%nat /\
  Forall (fun p => (total d / 7 <= count p <= total d / 7 + total d / 3)%Z)
         (trendData (calculateAnalytics env d)) /\
  ((total d < 3)%Z ->
   Forall (fun p => count p = 0%Z) (trendData (calculateAnalytics env d))).
Proof.
  intros Ht Hr.
  assert (Hall : Forall (fun p => (total d / 7 <= count p <= total d / 7 + total d / 3)%Z)
                        (trendData (calculateAnalytics env d))).
  { unfold calculateAnalytics. cbn [trendData]. apply List.Forall_map, List.Forall_forall.
    intros i _. cbn [count]. destruct (Hr i) as [H0 H1].
    pose proof (filler_bounds (random (env i)) (total d) Ht H0 H1). lia. }
  split; [reflexivity|]. split; [exact Hall|].
  intros Hsmall. eapply List.Forall_impl; [|exact Hall]. intros p Hp. cbv beta in Hp.
  assert (total d / 7 = 0)%Z by (apply Z.div_small; lia).
  assert (total d / 3 = 0)%Z by (apply Z.div_small; lia).
  lia.
Qed.

Lemma trend_filler_bounds_witness :
  let env := fun i : nat => {| dayLabel := "Nov 3"; random := 0.9 |} in
  let d := [("Traffic", 20%Z); ("Other", 1%Z)] in
  Forall (fun p => (3 <= count p <= 10)%Z) (trendData (calculateAnalytics env d)).
Proof.
  intros env d.
  assert (Ht : (0 <= total d)%Z) by (vm_compute; discriminate).
  assert (Hr : forall i, (0 <= random (env i))%Q /\ (random (env i) < 1)%Q).
  { intros i. split; vm_compute; [discriminate | reflexivity]. }
  destruct (trend_filler_bounds env d Ht Hr) as (_ & Hall & _).
  exact Hall.
Defined.

(** X20.  The offline bars of category data with non-negative counts and
    at least one positive count: there is one bar per non-zero entry, in
    the order of the entries, every bar has a percentage and a width
    above 0 and of at most 100 per cent, and a bar of the greatest count
    is full width. *)
Theorem offline_bars_in_range (d : CategoryData) :
  Forall (fun entry => 0 <= snd entry)%Z d ->
  hasData d = true ->
  exists bars,
    renderOfflineChart d = Bars bars /\
    map (fun b => (barCategory b, barCount b)) bars = nonZero d /\
    Forall (fun b => (0 < barPercentage b)%Q /\ (barPercentage b <= 100)%Q /\
                     (0 < barWidth b)%Q /\ (barWidth b <= 100)%Q) bars /\
    Exists (fun b => (barWidth b == 100)%Q) bars.
Proof.
  intros Hnn Hd.
  pose proof (hasData_total d Hnn Hd) as Ht.
  assert (Hne : values d <> []).
  { unfold hasData in Hd. apply andb_true_iff in Hd as [Hlen _].
    destruct d; [discriminate Hlen | discriminate]. }
  destruct (maxOf_spec (values d) Hne) as (m & Hm & Hle & Hin).
  rewrite List.Forall_forall in Hle.
  assert (Hmpos : (0 < m)%Z).
  { unfold hasData in Hd. apply andb_true_iff in Hd as [_ Hex].
    apply existsb_exists in Hex as (v & Hv & Hpos). apply Z.ltb_lt in Hpos.
    specialize (Hle v Hv). lia. }
  pose proof (offline_bars_rows d d 0) as Hrows.
  exists (CivicMap.filterNotNull (imap (offlineBar d) d)).
  split; [unfold renderOfflineChart; now rewrite Hd|].
  split; [exact Hrows|].
  split.
  - apply List.Forall_forall. intros b Hb.
    destruct (bars_of_entries d d b 0 Hb) as (Hentry & Hnz & -> & ->).
    rewrite List.Forall_forall in Hnn.
    assert (Hcm : (barCount b <= m)%Z).
    { apply Hle. unfold values. apply in_map_iff.
      exists (barCategory b, barCount b). split; [reflexivity | exact Hentry]. }
    assert (Hct : (barCount b <= total d)%Z).
    { rewrite <- sumCounts_total.
      apply (entry_le_sum d (barCategory b, barCount b));
        [apply List.Forall_forall; exact Hnn | exact Hentry]. }
    specialize (Hnn _ Hentry). simpl in Hnn. rewrite Hm.
    destruct (ratio_bounds (barCount b) m) as (Hw0 & Hw & _); [lia | exact Hcm|].
    destruct (ratio_bounds (barCount b) (total d)) as (Hp0 & Hp & _); [lia | exact Hct|].
    auto.
  - unfold values in Hin. apply in_map_iff in Hin as (e & He & Hin).
    assert (Hnz : In e (nonZero d)).
    { unfold nonZero. apply filter_In. split; [exact Hin|].
      rewrite He. apply negb_true_iff, Z.eqb_neq. lia. }
    rewrite <- Hrows in Hnz. apply in_map_iff in Hnz as (b & Hb & Hbars).
    apply List.Exists_exists. exists b. split; [exact Hbars|].
    destruct (bars_of_entries d d b 0 Hbars) as (_ & _ & _ & ->).
    rewrite Hm. replace (barCount b) with m by (rewrite <- He, <- Hb; reflexivity).
    now destruct (ratio_bounds m m) as (_ & _ & H100); [lia | lia|].
Qed.

Lemma offline_bars_in_range_witness :
  let d := [("Traffic", 3%Z); ("Other", 1%Z); ("Safety Issue", 0%Z)] in
  exists bars,
    renderOfflineChart d = Bars bars /\
    map (fun b => (barCategory b, barCount b)) bars = [("Traffic", 3%Z); ("Other", 1%Z)] /\
    Forall (fun b => (barWidth b <= 100)%Q) bars.
Proof.
  intros d.
  assert (Hnn : Forall (fun entry => 0 <= snd entry)%Z d).
  { repeat (constructor; [simpl; lia|]). constructor. }
  destruct (offline_bars_in_range d Hnn eq_refl) as (bars & Hr & Hrows & Hall & _).
  exists bars. split; [exact Hr|]. split; [exact Hrows|].
  eapply List.Forall_impl; [|exact Hall]. intros b Hb. apply Hb.
Defined.

(** X21.  The loader script is requested only by the loader itself: an
    online event (or the mount, which runs the same loader) makes at
    most one request, no other event makes any, and once the library is
    on the page no request is ever made again. *)
Theorem loader_requests_follow_online_events (ws : Window * ChartState)
        (evs : list ChartEvent) :
  let after := chartRun ws evs in
  let online :=
    length (List.filter (fun ev => match ev with WentOnline _ => true | _ => false end)
                        evs) in
  (scriptRequests (snd ws) <= scriptRequests (snd after) <= scriptRequests (snd ws) + online)%nat /\
  (googleCharts (fst ws) = true ->
   googleCharts (fst after) = true /\
   scriptRequests (snd after) = scriptRequests (snd ws)).
Proof.
  revert ws. induction evs as [|ev rest IH]; intros ws; simpl.
  - split; [lia | auto].
  - destruct (IH (chartStep ws ev)) as [Hbound Hpresent].
    destruct (chartStep_requests ws ev) as [Hstep Hkeep].
    split.
    + destruct ev; simpl in *; lia.
    + intros Hw. destruct (Hkeep Hw) as [Hw' Hsame].
      destruct (Hpresent Hw') as [Hw'' Hsame']. split; [exact Hw''|]. congruence.
Qed.

End ChartSummaryProperties.

(** ** Analytics dashboard: breakdowns, filters, trend, key figures *)

Section DashboardFacts.

Import Analytics.

Lemma bump_keys_In (key x : string) (acc : list (string * Z)) :
  In x (map fst (bump key acc)) <-> In x (map fst acc) \/ x = key.
Proof.
  induction acc as [|[k v] rest IH]; simpl.
  - intuition.
  - destruct (String.eqb_spec k key) as [->|Hne]; simpl; [intuition|].
    rewrite IH. intuition.
Qed.

Lemma bump_NoDup (key : string) (acc : list (string * Z)) :
  List.NoDup (map fst acc) -> List.NoDup (map fst (bump key acc)).
Proof.
  induction acc as [|[k v] rest IH]; simpl; intros H.
  - apply List.NoDup_cons; [intros [] | apply List.NoDup_nil].
  - destruct (String.eqb_spec k key) as [->|Hne]; simpl; [exact H|].
    apply List.NoDup_cons_iff in H as [Hk Hrest].
    apply List.NoDup_cons; [|now apply IH].
    rewrite bump_keys_In. intros [Hin|E]; [now apply Hk | now apply Hne].
Qed.

Lemma bump_positive (key : string) (acc : list (string * Z)) :
  Forall (fun entry => 0 < snd entry)%Z acc ->
  Forall (fun entry => 0 < snd entry)%Z (bump key acc).
Proof.
  induction 1 as [|[k v] rest Hv Hrest IH]; simpl.
  - constructor; [simpl; lia | constructor].
  - destruct (String.eqb k key); constructor; simpl in *; try lia; assumption.
Qed.

Lemma countWhere_cons (test : Report -> bool) (r : Report) (rest : list Report) :
  countWhere test (r :: rest)
  = ((if test r then 1 else 0) + countWhere test rest)%Z.
Proof. unfold countWhere. simpl. destruct (test r); simpl length; lia. Qed.

Lemma countWhere_bounds (test : Report -> bool) (reports : list Report) :
  (0 <= countWhere test reports <= totalReports reports)%Z.
Proof.
  unfold totalReports. induction reports as [|r rest IH].
  - unfold countWhere. simpl. lia.
  - rewrite countWhere_cons. simpl length. destruct (test r); lia.
Qed.

(** The counting fold from any accumulator. *)
Lemma counting_fold (key : Report -> string) (reports : list Report) :
  forall acc : list (string * Z),
    let counts := fold_left (fun acc report => bump (key report) acc) reports acc in
    (List.NoDup (map fst acc) -> List.NoDup (map fst counts)) /\
    (Forall (fun entry => 0 < snd entry)%Z acc ->
     Forall (fun entry => 0 < snd entry)%Z counts) /\
    CategoryChart.sumCounts counts
    = (CategoryChart.sumCounts acc + Z.of_nat (length reports))%Z /\
    (forall c, CategoryChart.countFor c counts
               = (CategoryChart.countFor c acc
                  + countWhere (fun r => String.eqb (key r) c) reports)%Z).
Proof.
  induction reports as [|r rest IH]; intros acc; simpl.
  - split; [auto|]. split; [auto|]. split; [lia|].
    intros c. unfold countWhere. simpl. lia.
  - destruct (IH (bump (key r) acc)) as (Hnd & Hpos & Hsum & Hcount).
    split; [intros H; now apply Hnd, bump_NoDup|].
    split; [intros H; now apply Hpos, bump_positive|].
    split; [rewrite Hsum, sumCounts_bump; lia|].
    intros c. rewrite Hcount, countFor_bump, countWhere_cons. lia.
Qed.

Lemma countFor_absent (c : string) (rows : list (string * Z)) :
  ~ In c (map fst rows) -> CategoryChart.countFor c rows = 0%Z.
Proof.
  induction rows as [|[k v] rest IH]; simpl; [reflexivity|].
  intros H. destruct (String.eqb_spec k c) as [->|Hne]; [tauto|].
  apply IH. tauto.
Qed.

Lemma countFor_entry (c : string) (n : Z) (rows : list (string * Z)) :
  List.NoDup (map fst rows) -> In (c, n) rows -> CategoryChart.countFor c rows = n.
Proof.
  induction rows as [|[k v] rest IH]; simpl; [tauto|].
  intros Hnd. apply List.NoDup_cons_iff in Hnd as [Hk Hrest].
  intros [E|Hin].
  - injection E as -> ->. rewrite String.eqb_refl, (countFor_absent c rest Hk). lia.
  - destruct (String.eqb_spec k c) as [->|Hne].
    + exfalso. apply Hk. apply in_map_iff. now exists (c, n).
    + now apply IH.
Qed.

Lemma countFor_present (c : string) (rows : list (string * Z)) :
  In c (map fst rows) -> List.NoDup (map fst rows) ->
  In (c, CategoryChart.countFor c rows) rows.
Proof.
  intros Hin Hnd. apply in_map_iff in Hin as ([k n] & E & Hin). simpl in E. subst k.
  now rewrite (countFor_entry c n rows Hnd Hin).
Qed.

Lemma sumCounts_values (rows : list (string * Z)) :
  fold_right Z.add 0%Z (map snd rows) = CategoryChart.sumCounts rows.
Proof. induction rows as [|r rows IH]; simpl; [reflexivity | now rewrite IH]. Qed.

Lemma combine_fst_snd {A B : Type} (l : list (A * B)) :
  combine (map fst l) (map snd l) = l.
Proof. induction l as [|[a b] l IH]; simpl; [reflexivity | now rewrite IH]. Qed.

(** What [countBy] counts. *)
Lemma countBy_spec (key : Report -> string) (reports : list Report) :
  List.NoDup (map fst (countBy key reports)) /\
  fold_right Z.add 0%Z (map snd (countBy key reports)) = totalReports reports /\
  forall label n,
    In (label, n) (countBy key reports) <->
    (0 < n)%Z /\ n = countWhere (fun r => String.eqb (key r) label) reports.
Proof.
  unfold countBy.
  destruct (counting_fold key reports []) as (Hnd & Hpos & Hsum & Hcount).
  specialize (Hnd (List.NoDup_nil _)). specialize (Hpos (List.Forall_nil _)).
  assert (Hcount' : forall c,
             CategoryChart.countFor c
               (fold_left (fun acc report => bump (key report) acc) reports [])
             = countWhere (fun r => String.eqb (key r) c) reports).
  { intros c. rewrite Hcount. unfold CategoryChart.countFor at 1. simpl. lia. }
  split; [exact Hnd|].
  split; [rewrite sumCounts_values, Hsum; unfold totalReports; simpl; lia|].
  intros label n. split.
  - intros Hin. split.
    + rewrite List.Forall_forall in Hpos. exact (Hpos _ Hin).
    + rewrite <- (countFor_entry label n _ Hnd Hin). apply Hcount'.
  - intros [Hn ->]. rewrite <- (Hcount' label) in *.
    apply countFor_present; [|exact Hnd].
    destruct (in_dec string_dec label
                (map fst (fold_left (fun acc report => bump (key report) acc) reports [])))
      as [Hin|Hout]; [exact Hin|].
    rewrite (countFor_absent _ _ Hout) in Hn. lia.
Qed.

Lemma In_filter_if {A : Type} (on : bool) (test : A -> bool) (l : list A) (x : A) :
  In x (if on then List.filter test l else l) <-> In x l /\ (on = false \/ test x = true).
Proof.
  destruct on; [rewrite filter_In|]; intuition discriminate.
Qed.

Lemma sublist_List_filter {A : Type} (test : A -> bool) (l : list A) :
  sublist (List.filter test l) l.
Proof.
  induction l as [|x l IH]; simpl; [constructor|].
  destruct (test x); now constructor.
Qed.

Lemma sublist_filter_if {A : Type} (on : bool) (test : A -> bool) (l : list A) :
  sublist (if on then List.filter test l else l) l.
Proof. destruct on; [apply sublist_List_filter | reflexivity]. Qed.

Lemma filter_none {A : Type} (l : list A) : List.filter (fun _ => false) l = [].
Proof. induction l as [|x l IH]; simpl; [reflexivity | exact IH]. Qed.

(** When a selector of the filter bar lets a report through. *)
Lemma selector_spec (choice : option string) (field : string) :
  (truthy choice && negb (String.eqb (default EmptyString choice) "all") = false \/
   String.eqb field (default EmptyString choice) = true) <->
  (truthy choice = false \/ choice = Some "all" \/ choice = Some field).
Proof.
  split.
  - intros [H|H].
    + apply andb_false_iff in H as [H|H]; [now left|].
      apply negb_false_iff, String.eqb_eq in H.
      destruct choice as [s|]; simpl in H; [subst; auto | discriminate].
    + apply String.eqb_eq in H. destruct choice as [s|]; simpl in H; [subst; auto|].
      now left.
  - intros [H|[->| ->]].
    + left. now rewrite H.
    + left. apply andb_false_iff. now right.
    + right. simpl. apply String.eqb_refl.
Qed.

Lemma week_counts (parseDate : string -> option Z) (dayOf : Z -> Z) (today : Z)
      (filtered : list Report) :
  let onDays := fun back : Z => countWhere (onDay parseDate dayOf (today - back)) filtered in
  (onDays 6 + (onDays 5 + (onDays 4 + (onDays 3 + (onDays 2 + (onDays 1 + onDays 0))))))%Z
  = countWhere (fun r => match parseDate (createdAt r) with
                         | Some t => (today - 6 <=? dayOf t)%Z && (dayOf t <=? today)%Z
                         | None => false
                         end) filtered.
Proof.
  cbv zeta. induction filtered as [|r rest IH]; [reflexivity|].
  rewrite !countWhere_cons, <- IH. unfold onDay.
  destruct (parseDate (createdAt r)) as [t|]; [|lia].
  destruct (Z.leb_spec (today - 6) (dayOf t)), (Z.leb_spec (dayOf t) today);
    destruct (Z.eqb_spec (dayOf t) (today - 6)), (Z.eqb_spec (dayOf t) (today - 5)),
      (Z.eqb_spec (dayOf t) (today - 4)), (Z.eqb_spec (dayOf t) (today - 3)),
      (Z.eqb_spec (dayOf t) (today - 2)), (Z.eqb_spec (dayOf t) (today - 1)),
      (Z.eqb_spec (dayOf t) (today - 0)); simpl; lia.
Qed.

Lemma percent_sign (a b : Z) :
  (0 < b)%Z ->
  ((0 < inject_Z a / inject_Z b * 100)%Q <-> (0 < a)%Z) /\
  ((inject_Z a / inject_Z b * 100 < 0)%Q <-> (a < 0)%Z) /\
  ((0 <= a)%Z -> (0 <= inject_Z a / inject_Z b * 100)%Q) /\
  ((a <= b)%Z -> (inject_Z a / inject_Z b * 100 <= 100)%Q) /\
  ((- b <= a)%Z -> (- (100) <= inject_Z a / inject_Z b * 100)%Q).
Proof.
  intros Hb. destruct b as [|p|p]; try lia.
  unfold Qlt, Qle, Qdiv, Qmult, Qinv, inject_Z. simpl.
  repeat split; intros; nia.
Qed.

Lemma round_percent (x : Q) :
  (0 <= x)%Q -> (x <= 100)%Q -> (0 <= JS.round x <= 100)%Z.
Proof.
  intros H0 H1. unfold JS.round. split.
  - change 0%Z with (Qfloor (0 + (1 # 2))). apply Qfloor_resp_le. lra.
  - change 100%Z with (Qfloor (100 + (1 # 2))). apply Qfloor_resp_le. lra.
Qed.

End DashboardFacts.

Section DashboardProperties.

Import Analytics.

Variable parseInt : string -> option Z.
Variable parseDate : string -> option Z.
Variable dayOf : Z -> Z.
Variable dayLabel : Z -> string.

(** X22.  The breakdowns of the dashboard by priority, by status and by
    location list every label once, with the number of filtered reports
    that carry it, list no label that no report carries, and add up to
    the "Total Reports" figure.  So does the breakdown by category when
    no filtered report has a property name of [Object.prototype]
    ("constructor", "toString", "__proto__", ...) as its category. *)
Theorem breakdowns_add_up (clock : nat -> Z) (filtered : list Report) :
  let data := analyticsData parseDate dayOf dayLabel clock filtered in
  let counted (chart : ChartData) (key : Report -> string) : Prop :=
    List.NoDup (labels chart) /\
    fold_right Z.add 0%Z (values chart) = totalReports filtered /\
    forall label n,
      In (label, n) (combine (labels chart) (values chart)) <->
      (0 < n)%Z /\
      n = countWhere (fun r => String.eqb (key r) label) filtered in
  counted (Data.priority data) (fun r => priorityName (priority r)) /\
  counted (Data.status data) (fun r => statusName (status r)) /\
  counted (Data.location data)
          (fun r => city (location r) ++ ", " ++ state (location r)) /\
  (Forall (fun r => JS.inheritedName (category r) = false) filtered ->
   counted (Data.category data) category).
Proof.
  cbv zeta. unfold analyticsData, chartOf.
  cbn [Data.category Data.priority Data.status Data.location labels values].
  rewrite !combine_fst_snd.
  split; [apply countBy_spec|]. split; [apply countBy_spec|].
  split; [apply countBy_spec|]. intros _. apply countBy_spec.
Qed.

(** X23.  What the filter bar lets through.  The filtered reports are the
    reports, in their order, that were created at or after the start of
    the date range and match the category, status and priority chosen;
    "all", and for status and priority also no choice or an empty one,
    match every report.  A report whose creation date does not parse is
    never shown, and when the date range is not a number (or its start
    is not a valid date) nothing is. *)
Theorem filtered_reports_are_the_selected_ones (now : Z) (reports : list Report)
        (filters : Filters.t) :
  let shown := filteredReports parseInt parseDate now reports filters in
  let matches (choice : option string) (field : string) : Prop :=
    truthy choice = false \/ choice = Some "all" \/ choice = Some field in
  sublist shown reports /\
  (forall r,
      In r shown <->
      In r reports /\
      (exists daysBack created,
          parseInt (Filters.dateRange filters) = Some daysBack /\
          parseDate (createdAt r) = Some created /\
          (Z.abs (now - daysBack * 24 * 60 * 60 * 1000) <= 8640000000000000)%Z /\
          (now - daysBack * 24 * 60 * 60 * 1000 <= created)%Z) /\
      (Filters.category filters = "all" \/ category r = Filters.category filters) /\
      matches (Filters.status filters) (statusName (status r)) /\
      matches (Filters.priority filters) (priorityName (priority r))) /\
  (parseInt (Filters.dateRange filters) = None -> shown = []).
Proof.
  unfold filteredReports.
  set (startDate := match parseInt (Filters.dateRange filters) with
                    | Some daysBack => timeClip (now - daysBack * 24 * 60 * 60 * 1000)
                    | None => None
                    end).
  set (inRange := fun report =>
                    match parseDate (createdAt report), startDate with
                    | Some t, Some s => (s <=? t)%Z
                    | _, _ => false
                    end).
  cbv zeta. split; [|split].
  - etransitivity; [apply sublist_filter_if|].
    etransitivity; [apply sublist_filter_if|].
    etransitivity; [apply sublist_filter_if|].
    apply sublist_List_filter.
  - intros r. rewrite !In_filter_if, filter_In, !selector_spec.
    assert (Hrange : inRange r = true <->
                     exists daysBack created,
                       parseInt (Filters.dateRange filters) = Some daysBack /\
                       parseDate (createdAt r) = Some created /\
                       (Z.abs (now - daysBack * 24 * 60 * 60 * 1000)
                        <= 8640000000000000)%Z /\
                       (now - daysBack * 24 * 60 * 60 * 1000 <= created)%Z).
    { unfold inRange, startDate, timeClip.
      destruct (parseDate (createdAt r)) as [t|];
        [|split; [discriminate | intros (? & ? & _ & ? & _); discriminate]].
      destruct (parseInt (Filters.dateRange filters)) as [d|];
        [|split; [discriminate | intros (? & ? & ? & _); discriminate]].
      destruct (Z.leb_spec (Z.abs (now - d * 24 * 60 * 60 * 1000)) 8640000000000000)
        as [Hclip|Hclip].
      - rewrite Z.leb_le. split.
        + intros H. exists d, t. auto.
        + intros (d' & t' & Ed & Et & _ & H). injection Ed as <-. injection Et as <-.
          exact H.
      - split; [discriminate|].
        intros (d' & t' & Ed & Et & H & _). injection Ed as <-. lia. }
    assert (Hcat : negb (String.eqb (Filters.category filters) "all") = false \/
                   String.eqb (category r) (Filters.category filters) = true <->
                   Filters.category filters = "all" \/
                   category r = Filters.category filters).
    { now rewrite negb_false_iff, !String.eqb_eq. }
    rewrite Hrange, Hcat. tauto.
  - intros Hnan. subst inRange startDate. rewrite Hnan.
    replace (List.filter _ reports) with (@nil Report).
    + now repeat match goal with |- context [if ?c then _ else _] => destruct c end.
    + symmetry. erewrite filter_ext; [apply filter_none|].
      intros r. simpl. now destruct (parseDate (createdAt r)).
Qed.

(** X24.  The trend of the dashboard counts real reports.  When the
    clock stays on one calendar day during the aggregation, the series
    has one point for each of the last seven days, oldest first, each
    filtered report created on one of these days is counted once, on its
    day, and the counts add up to the number of filtered reports created
    in that week, never more than "Total Reports". *)
Theorem dashboard_trend_counts_the_week (clock : nat -> Z) (today : Z)
        (filtered : list Report) :
  (forall i, (i <= 6)%nat -> dayOf (clock i) = today) ->
  let series := trendsData parseDate dayOf dayLabel clock filtered in
  let thisWeek := fun r => match parseDate (createdAt r) with
                           | Some t => (today - 6 <=? dayOf t)%Z && (dayOf t <=? today)%Z
                           | None => false
                           end in
  map date series
  = map dayLabel [today - 6; today - 5; today - 4; today - 3; today - 2; today - 1;
                  today - 0]%Z /\
  map count series
  = map (fun back => countWhere (onDay parseDate dayOf (today - back)) filtered)
        [6; 5; 4; 3; 2; 1; 0]%Z /\
  fold_right Z.add 0%Z (map count series) = countWhere thisWeek filtered /\
  (fold_right Z.add 0%Z (map count series) <= totalReports filtered)%Z.
Proof.
  intros Hdays. cbv zeta. unfold trendsData. cbn [map date count].
  rewrite !Hdays by lia. cbn [Z.of_nat Pos.of_succ_nat Pos.succ].
  split; [reflexivity|]. split; [reflexivity|].
  cbn [fold_right]. rewrite Z.add_0_r.
  pose proof (week_counts parseDate dayOf today filtered) as Hweek. cbv zeta in Hweek.
  split; [exact Hweek|].
  eapply Z.le_trans; [apply Z.eq_le_incl; exact Hweek | apply countWhere_bounds].
Qed.

(** X25.  The key figures.  The resolution rate is a whole number from 0
    to 100, 0 when no filtered report is resolved and 100 when all are;
    the open and the resolved reports together, and the critical ones,
    never exceed "Total Reports".  The change of "Total Reports" is
    measured against the period before: with no report in that period
    the figure is shown as stable with change 0, however many reports
    there are now; otherwise it is up exactly when there are more
    reports than before, down exactly when there are fewer, and the
    change is never below -100 per cent. *)
Theorem key_figures (daysBefore : Z -> Z -> option Z) (now1 now2 : Z)
        (filtered reports : list Report) (filters : Filters.t) :
  let total := totalReports filtered in
  let previous :=
    Z.of_nat (length (prevPeriodReports parseInt parseDate daysBefore now1 now2
                                        reports filters)) in
  (0 <= resolutionRate filtered <= 100)%Z /\
  (countWhere isResolved filtered = 0%Z -> resolutionRate filtered = 0%Z) /\
  ((0 < total)%Z -> countWhere isResolved filtered = total ->
   resolutionRate filtered = 100%Z) /\
  (countWhere isOpen filtered + countWhere isResolved filtered <= total)%Z /\
  (countWhere isCritical filtered <= total)%Z /\
  exists first others,
    kpiMetrics parseInt parseDate daysBefore now1 now2 filtered reports filters
    = first :: others /\
    value first = Figure total /\
    (previous = 0%Z -> change first = 0%Q /\ trend first = stable) /\
    ((0 < previous)%Z ->
     (trend first = up <-> (previous < total)%Z) /\
     (trend first = down <-> (total < previous)%Z) /\
     (- (100) <= change first)%Q).
Proof.
  cbv zeta.
  pose proof (countWhere_bounds isResolved filtered) as Hres.
  assert (Hrate : (0 <= resolutionRate filtered <= 100)%Z).
  { unfold resolutionRate. destruct (Z.ltb_spec 0 (totalReports filtered)) as [Ht|Ht]; [|lia].
    destruct (percent_sign (countWhere isResolved filtered) (totalReports filtered) Ht)
      as (_ & _ & H0 & H1 & _).
    apply round_percent; [apply H0 | apply H1]; lia. }
  split; [exact Hrate|].
  split.
  { intros Hnone. unfold resolutionRate.
    destruct (Z.ltb_spec 0 (totalReports filtered)) as [Ht|Ht]; [|reflexivity].
    rewrite Hnone. unfold JS.round.
    replace (Qfloor (inject_Z 0 / inject_Z (totalReports filtered) * 100 + (1 # 2)))
      with (Qfloor (0 + (1 # 2))); [reflexivity|].
    apply Qfloor_comp. unfold Qdiv. now rewrite !Qmult_0_l. }
  split.
  { intros Ht Hall. unfold resolutionRate.
    rewrite (proj2 (Z.ltb_lt _ _) Ht), Hall. unfold JS.round.
    replace (Qfloor (inject_Z (totalReports filtered) / inject_Z (totalReports filtered)
                     * 100 + (1 # 2)))
      with (Qfloor (100 + (1 # 2))); [reflexivity|].
    apply Qfloor_comp. apply Qplus_comp; [|reflexivity]. symmetry.
    field. intros E. unfold Qeq in E. simpl in E. lia. }
  split.
  { unfold totalReports. clear. induction filtered as [|r rest IH].
    - unfold countWhere. simpl. lia.
    - rewrite !countWhere_cons. simpl length. unfold isOpen, isResolved in *.
      destruct (status r); cbv iota; lia. }
  split; [apply countWhere_bounds|].
  unfold kpiMetrics. cbv zeta.
  set (previous := Z.of_nat (length (prevPeriodReports parseInt parseDate daysBefore
                                                       now1 now2 reports filters))).
  eexists _, _. split; [reflexivity|]. cbn [value change trend].
  split; [reflexivity|]. split.
  - intros ->. simpl. split; reflexivity.
  - intros Hprev.
    destruct (Z.eqb_spec previous 0) as [E|_]; [lia|].
    destruct (percent_sign (totalReports filtered - previous) previous Hprev)
      as (Hup & Hdown & _ & _ & Hlow).
    unfold trendOf, Classifier.Qltb.
    set (c := (inject_Z (totalReports filtered - previous) / inject_Z previous * 100)%Q)
      in *.
    pose proof (countWhere_bounds isOpen filtered) as Htotal.
    split; [|split; [|apply Hlow; lia]].
    + destruct (Qle_bool c 0) eqn:Ec; simpl.
      * apply Qle_bool_iff in Ec. split.
        { destruct (Qle_bool 0 c); discriminate. }
        { intros H. exfalso. assert (0 < c)%Q by (apply Hup; lia). lra. }
      * split; [|reflexivity]. intros _.
        assert (0 < c)%Q; [|apply Hup in H; lia].
        apply Qnot_le_lt. intros H. apply Qle_bool_iff in H. congruence.
    + destruct (Qle_bool c 0) eqn:Ec; simpl.
      * apply Qle_bool_iff in Ec.
        destruct (Qle_bool 0 c) eqn:Ec'; simpl.
        { apply Qle_bool_iff in Ec'. split; [discriminate|].
          intros H. exfalso. assert (c < 0)%Q by (apply Hdown; lia). lra. }
        { split; [|reflexivity]. intros _.
          assert (c < 0)%Q; [|apply Hdown in H; lia].
          apply Qnot_le_lt. intros H. apply Qle_bool_iff in H. congruence. }
      * split; [discriminate|]. intros H. exfalso.
        assert (c < 0)%Q by (apply Hdown; lia).
        assert (Hle : (c <= 0)%Q) by lra. apply Qle_bool_iff in Hle. congruence.
Qed.

End DashboardProperties.

Section DashboardExamples.

Import Analytics.

Lemma dashboard_trend_counts_the_week_witness :
  let parseDate := fun s : string => if String.eqb s "2026-11-01" then Some 20393%Z
                                     else if String.eqb s "2026-10-20" then Some 20381%Z
                                     else None in
  let dayOf := fun t : Z => t in
  let dayLabel := fun day : Z => JS.showZ day in
  let place := {| latitude := JS.Fin 9.9312; longitude := JS.Fin 76.2673;
                  address := "MG Road"; city := "Kochi"; state := "Kerala";
                  country := "India" |} in
  let made := fun day : string =>
                {| id := "1"; category := "Traffic"; priority := High; status := Open;
                   location := place; createdAt := day; updatedAt := day;
                   title := "Signal"; description := "Signal out of order" |} in
  let filtered := [made "2026-11-01"; made "2026-10-20"; made "yesterday"] in
  map count (trendsData parseDate dayOf dayLabel (fun _ => 20395%Z) filtered)
  = [0; 0; 0; 0; 1; 0; 0]%Z.
Proof.
  intros parseDate dayOf dayLabel place made filtered.
  destruct (dashboard_trend_counts_the_week parseDate dayOf dayLabel
              (fun _ => 20395%Z) 20395%Z filtered (fun _ _ => eq_refl))
    as (_ & Hcounts & _).
  rewrite Hcounts. reflexivity.
Defined.

End DashboardExamples.

(** ** Home page: the "Recent Reports" list *)

Section RecentFacts.

Lemma recentReports_app (rs : list Home.Report) (r : Home.Report) :
  Home.recentReports (rs ++ [r]) = r :: firstn 2 (Home.recentReports rs).
Proof.
  unfold Home.recentReports.
  rewrite List.firstn_rev, List.skipn_skipn, List.length_skipn, List.length_app.
  simpl length.
  replace (length rs + 1 - 3)%nat with (length rs - 2)%nat by lia.
  replace (length rs - (length rs - 3) - 2 + (length rs - 3))%nat
    with (length rs - 2)%nat by lia.
  rewrite List.skipn_app.
  replace (length rs - 2 - length rs)%nat with 0%nat by lia.
  simpl skipn. apply List.rev_unit.
Qed.

Lemma length_recentReports (rs : list Home.Report) :
  length (Home.recentReports rs) = Nat.min 3 (length rs).
Proof.
  unfold Home.recentReports. rewrite List.length_rev, List.length_skipn. lia.
Qed.

Lemma length_string_app (s t : string) :
  String.length (s ++ t) = (String.length s + String.length t)%nat.
Proof. induction s as [|c s IH]; simpl; [reflexivity | now rewrite IH]. Qed.

Lemma substring_prefix (n : nat) (s : string) :
  (n <= String.length s)%nat ->
  String.length (String.substring 0 n s) = n /\
  String.prefix (String.substring 0 n s) s = true.
Proof.
  revert s. induction n as [|n IH]; intros s Hn.
  - destruct s; simpl; auto.
  - destruct s as [|c s]; simpl in *; [lia|].
    destruct (IH s) as [Hlen Hpre]; [lia|].
    split; [now rewrite Hlen|].
    destruct (ascii_dec c c) as [_|Hc]; [exact Hpre | now elim Hc].
Qed.

Lemma ellipsis_spec (n : nat) (s : string) :
  ((String.length s <= n)%nat /\ JS.ellipsis n s = s) \/
  ((n < String.length s)%nat /\
   exists head, JS.ellipsis n s = head ++ "..." /\
                String.length head = n /\ String.prefix head s = true).
Proof.
  unfold JS.ellipsis. destruct (Nat.ltb_spec n (String.length s)) as [Hlong|Hshort].
  - right. split; [exact Hlong|]. exists (String.substring 0 n s).
    split; [reflexivity|]. apply substring_prefix. lia.
  - left. auto.
Qed.

End RecentFacts.

Section RecentProperties.

Import Home.

(** X26.  The "Recent Reports" list shows the last three submissions,
    newest first: a submission puts its report at the head and keeps the
    two that headed the list before.  A card prints the description and
    the location unchanged when they have at most 50 and 40 characters,
    and otherwise their first 50 and 40 characters followed by three
    dots. *)
Theorem recent_reports_newest_first (now stamp : Z) (reportData : Report.NewReport)
        (st : State) :
  let after := handleReportSubmit now stamp reportData st in
  exists newest,
    recentReports (reports after) = newest :: firstn 2 (recentReports (reports st)) /\
    id newest = JS.showZ now /\
    description newest = Report.description reportData /\
    location newest = Report.location reportData /\
    category newest = Report.category reportData /\
    length (recentReports (reports after)) = Nat.min 3 (S (length (reports st))) /\
    Forall (fun r =>
              let shown (limit : nat) (full printed : string) : Prop :=
                ((String.length full <= limit)%nat /\ printed = full) \/
                ((limit < String.length full)%nat /\
                 exists head, printed = head ++ "..." /\
                              String.length head = limit /\
                              String.prefix head full = true) in
              shown 50%nat (description r) (fst (cardTexts r)) /\
              shown 40%nat (location r) (snd (cardTexts r)))
           (recentReports (reports after)).
Proof.
  cbv zeta. unfold handleReportSubmit. cbn [reports].
  eexists. split; [apply recentReports_app|]. cbn [id description location category].
  repeat (split; [reflexivity|]).
  split.
  - rewrite length_recentReports, List.length_app. simpl length.
    now replace (length (reports st) + 1)%nat with (S (length (reports st))) by lia.
  - apply List.Forall_forall. intros r _. unfold cardTexts. cbn [fst snd].
    split; apply ellipsis_spec.
Qed.

End RecentProperties.

(** ** Analytics dashboard: the fallback charts *)

Section FallbackFacts.

Import Analytics.

Lemma fold_max_Fin (l : list Z) (v : Z) :
  fold_left (fun m value => JS.max m (JS.Fin (inject_Z value))) l (JS.Fin (inject_Z v))
  = JS.Fin (inject_Z (fold_left Z.max l v)).
Proof.
  revert v. induction l as [|x l IH]; intros v; simpl; [reflexivity|].
  destruct (Qle_bool (inject_Z v) (inject_Z x)) eqn:E.
  - apply Qle_bool_iff in E. rewrite <- Zle_Qle in E.
    rewrite IH. now rewrite Z.max_r.
  - assert (Hlt : (x < v)%Z).
    { destruct (Z.le_gt_cases v x) as [Hle|Hgt]; [|lia].
      rewrite Zle_Qle in Hle. apply Qle_bool_iff in Hle. congruence. }
    rewrite IH. now rewrite Z.max_l by lia.
Qed.

Lemma maxValue_cons (v : Z) (l : list Z) :
  maxValue (v :: l) = JS.Fin (inject_Z (fold_left Z.max l v)).
Proof. unfold maxValue. simpl. apply fold_max_Fin. Qed.

Lemma isZero_inject_Z (z : Z) : JS.isZero (inject_Z z) = (z =? 0)%Z.
Proof. reflexivity. Qed.

Lemma lookup_map_snd {A B : Type} (l : list (A * B)) (i : nat) (e : A * B) :
  l !! i = Some e -> map snd l !! i = Some (snd e).
Proof.
  revert i. induction l as [|x l IH]; intros [|i]; simpl; try discriminate.
  - now intros [= ->].
  - apply IH.
Qed.

Lemma imap_values {A B C : Type} (G : option B -> C) (full counts : list (A * B)) :
  forall k : nat,
    (forall i e, counts !! i = Some e -> map snd full !! (k + i)%nat = Some (snd e)) ->
    imap (fun index _ => G (map snd full !! (k + index)%nat)) (map fst counts)
    = map (fun e => G (Some (snd e))) counts.
Proof.
  induction counts as [|x counts IH]; intros k H; simpl; [reflexivity|].
  f_equal.
  - now rewrite (H 0%nat x eq_refl).
  - rewrite <- (IH (S k)).
    + apply imap_ext. intros i y _. simpl.
      now replace (k + S i)%nat with (S (k + i))%nat by lia.
    + intros i e Hi. specialize (H (S i) e Hi).
      now replace (k + S i)%nat with (S (k + i))%nat in H by lia.
Qed.

End FallbackFacts.

Section FallbackProperties.

Import Analytics.

Variable parseDate : string -> option Z.
Variable dayOf : Z -> Z.
Variable dayLabel : Z -> string.

(** X27.  The fallback bar charts of the dashboard (priority and status)
    never divide by zero: there is one bar per label, every height is a
    finite number above 0 and at most 100 per cent, and a bar of the
    greatest count has height 100.  Without a filtered report there is
    no bar. *)
Theorem fallback_bars_are_well_defined (clock : nat -> Z) (filtered : list Report) :
  let data := analyticsData parseDate dayOf dayLabel clock filtered in
  Forall (fun chart =>
            length (fallbackBarHeights chart) = length (labels chart) /\
            Forall (fun height =>
                      exists q, height = JS.Fin q /\ (0 < q)%Q /\ (q <= 100)%Q)
                   (fallbackBarHeights chart) /\
            (filtered = [] -> fallbackBarHeights chart = []) /\
            (filtered <> [] ->
             Exists (fun height => exists q, height = JS.Fin q /\ (q == 100)%Q)
                    (fallbackBarHeights chart)))
         [Data.priority data; Data.status data].
Proof.
  assert (Hchart : forall (key : Report -> string) color,
             let chart := chartOf (countBy key filtered) color in
             length (fallbackBarHeights chart) = length (labels chart) /\
             Forall (fun height =>
                       exists q, height = JS.Fin q /\ (0 < q)%Q /\ (q <= 100)%Q)
                    (fallbackBarHeights chart) /\
             (filtered = [] -> fallbackBarHeights chart = []) /\
             (filtered <> [] ->
              Exists (fun height => exists q, height = JS.Fin q /\ (q == 100)%Q)
                     (fallbackBarHeights chart))).
  { intros key color. cbv zeta. unfold fallbackBarHeights, chartOf. cbn [labels values].
    destruct (countBy_spec key filtered) as (_ & Hsum & Hentries).
    assert (Hpos : forall v, In v (map snd (countBy key filtered)) -> (0 < v)%Z).
    { intros v Hv. apply in_map_iff in Hv as ([c n] & <- & Hin).
      now apply Hentries in Hin as [Hn _]. }
    split; [now rewrite !List.length_map|].
    destruct (map snd (countBy key filtered)) as [|v l] eqn:Evalues.
    { split; [constructor|]. split; [reflexivity|].
      intros Hne. exfalso. apply Hne. simpl in Hsum. unfold totalReports in Hsum.
      destruct filtered; [reflexivity | simpl in Hsum; lia]. }
    rewrite maxValue_cons.
    destruct (fold_max_spec l v) as (Hv & Hall & Hin).
    set (m := fold_left Z.max l v) in *.
    assert (Hm : (0 < m)%Z) by (specialize (Hpos v (or_introl eq_refl)); lia).
    assert (Hheight : forall x,
               JS.mul (JS.div (JS.Fin (inject_Z x)) (JS.Fin (inject_Z m))) (JS.Fin 100)
               = JS.Fin (inject_Z x / inject_Z m * 100)).
    { intros x. unfold JS.div. rewrite isZero_inject_Z.
      destruct (Z.eqb_spec m 0); [lia | reflexivity]. }
    split; [|split].
    - apply List.Forall_forall. intros h Hh. apply in_map_iff in Hh as (x & <- & Hx).
      rewrite Hheight. eexists. split; [reflexivity|].
      destruct (percent_sign x m Hm) as (Hup & _ & _ & Hle & _).
      split; [apply Hup, Hpos, Hx | apply Hle].
      destruct Hx as [<-|Hx]; [exact Hv|].
      rewrite List.Forall_forall in Hall. now apply Hall.
    - intros ->. unfold countBy in Evalues. discriminate Evalues.
    - intros _. apply List.Exists_exists.
      exists (JS.Fin (inject_Z m / inject_Z m * 100)). split.
      + apply in_map_iff. exists m. split; [apply Hheight|].
        destruct Hin as [->|Hin]; [now left | now right].
      + eexists. split; [reflexivity|]. field.
        intros E. unfold Qeq in E. simpl in E. lia. }
  unfold analyticsData. cbn [Data.priority Data.status].
  repeat (constructor; [apply Hchart|]). constructor.
Qed.

(** X28.  The "Category Details" card, when no filtered report has a
    property name of [Object.prototype] as its category, gives every
    category of the filtered reports a share: one percentage per label,
    each a finite number above 0 and of at most 100, never [NaN].
    Without a filtered report the card is empty. *)
Theorem category_shares_in_range (clock : nat -> Z) (filtered : list Report) :
  Forall (fun r => JS.inheritedName (category r) = false) filtered ->
  let chart := Data.category (analyticsData parseDate dayOf dayLabel clock filtered) in
  exists shares : list Q,
    categoryPercentages chart = map JS.Fin shares /\
    length shares = length (labels chart) /\
    Forall (fun share => (0 < share)%Q /\ (share <= 100)%Q) shares /\
    (filtered = [] -> shares = []).
Proof.
  intros _. cbv zeta. unfold analyticsData, chartOf. cbn [Data.category].
  unfold categoryPercentages. cbn [labels values].
  destruct (countBy_spec category filtered) as (_ & Hsum & Hentries).
  set (counts := countBy category filtered) in *.
  assert (Htotal : fold_left (fun sum val => (sum + val)%Z) (map snd counts) 0%Z
                   = totalReports filtered).
  { rewrite fold_left_add. rewrite Hsum. lia. }
  rewrite Htotal.
  exists (map (fun value => (inject_Z value / inject_Z (totalReports filtered) * 100)%Q)
              (map snd counts)).
  destruct filtered as [|r rest] eqn:Ef.
  { subst counts. unfold countBy. simpl. repeat split; try reflexivity; constructor. }
  rewrite <- Ef in *.
  assert (Ht : (0 < totalReports filtered)%Z).
  { rewrite Ef. unfold totalReports. simpl length. lia. }
  rewrite (proj2 (Z.ltb_lt _ _) Ht).
  split.
  { pose proof (imap_values
                  (fun value => JS.mul (JS.div match value with
                                               | Some value => JS.Fin (inject_Z value)
                                               | None => JS.NaN
                                               end
                                               (JS.Fin (inject_Z (totalReports filtered))))
                                       (JS.Fin 100))
                  counts counts 0 (lookup_map_snd counts)) as Himap.
    cbn [Nat.add] in Himap. cbv iota. rewrite Himap.
    rewrite !List.map_map. apply map_ext. intros e.
    unfold JS.div. rewrite isZero_inject_Z.
    destruct (Z.eqb_spec (totalReports filtered) 0); [lia | reflexivity]. }
  split; [now rewrite !List.length_map|].
  split.
  { apply List.Forall_forall. intros q Hq.
    apply in_map_iff in Hq as (v & <- & Hv).
    apply in_map_iff in Hv as ([c n] & <- & Hin). simpl.
    pose proof (proj1 (Hentries c n) Hin) as [Hn Hcount].
    destruct (percent_sign n (totalReports filtered) Ht) as (Hup & _ & _ & Hle & _).
    split; [now apply Hup | apply Hle].
    rewrite Hcount. apply countWhere_bounds. }
  intros H. rewrite Ef in H. discriminate H.
Qed.

End FallbackProperties.

Section FallbackExamples.

Import Analytics.

Lemma category_shares_in_range_witness :
  let place := {| latitude := JS.Fin 9.9312; longitude := JS.Fin 76.2673;
                  address := "MG Road"; city := "Kochi"; state := "Kerala";
                  country := "India" |} in
  let made := fun label : string =>
                {| id := "1"; category := label; priority := High; status := Open;
                   location := place; createdAt := "2026-11-01";
                   updatedAt := "2026-11-01"; title := "Signal";
                   description := "Signal out of order" |} in
  let filtered := [made "Traffic"; made "Safety Issue"; made "Traffic"] in
  let chart := Data.category (analyticsData (fun _ => None) (fun t => t) JS.showZ
                                            (fun _ => 0%Z) filtered) in
  labels chart = ["Traffic"; "Safety Issue"] /\
  exists shares : list Q,
    categoryPercentages chart = map JS.Fin shares /\
    length shares = 2%nat /\
    Forall (fun share => (0 < share)%Q /\ (share <= 100)%Q) shares.
Proof.
  intros place made filtered chart.
  split; [reflexivity|].
  assert (Hplain : Forall (fun r => JS.inheritedName (category r) = false) filtered).
  { repeat (constructor; [reflexivity|]). constructor. }
  destruct (category_shares_in_range (fun _ => None) (fun t => t) JS.showZ
              (fun _ => 0%Z) filtered Hplain) as (shares & Hshares & Hlen & Hall & _).
  exists shares. split; [exact Hshares|]. split; [exact Hlen | exact Hall].
Defined.

End FallbackExamples.
